(** * Weather station (AWOS): acquisition, derived metrics, persistence

    A shallow embedding of the core of [awos_refined.py], and of the
    older variant [awos.py] where the two differ: the metric derivation
    functions, the daily rainfall accumulator, the sensor readers and
    the acquisition cycle, the CSV writer and the retention sweeps.

    Conventions of the embedding.
    - A Python [float] (and an [int] used as a number) is an exact
      rational of [Q]; comparisons are [Qle_bool]/[Qlt] and the
      arithmetic is exact.  Binary64 rounding of the arithmetic is not
      modelled.  All register readings are integers divided by 10 or
      100 and all thresholds are decimal literals, which [Q] holds
      exactly.  [Binary64.calculate_aqi] is the AQI function on
      primitive floats, to run it at the band boundaries.
    - A Python [dict] with string keys is a [gmap string value].
    - [None] is [None]; a function returning [dict | None] returns an
      [option].  A call that may raise returns an [outcome].
    - Objects that are shared by reference (the snapshot dictionaries)
      live in a store indexed by locations.
    - The wall clock, the serial link and the file system are inputs of
      the functions that consult them; a file operation succeeds.
    - The first part holds the definitions, the second the properties. *)

From Stdlib Require Import QArith Qround Qabs Lqa ZArith String Ascii List DecimalString.
From Stdlib Require PrimFloat.
From stdpp Require Import gmap strings list fin_maps.

Open Scope string_scope.

(** ** Values and dictionaries *)

(** What a snapshot maps a metric name to: a float, an int or a string. *)
Inductive value : Type :=
  | VFloat (q : Q)
  | VInt (z : Z)
  | VStr (s : string).

Abbreviation dict := (gmap string value).

(** ** Python numerics *)

Module PyNum.

(** [round(x)] on a float: nearest integer, ties to the even one. *)
Definition py_round (q : Q) : Z :=
  let f := Qfloor q in
  match (q - inject_Z f ?= 1 # 2)%Q with
  | Lt => f
  | Gt => (f + 1)%Z
  | Eq => if Z.even f then f else (f + 1)%Z
  end.

(** [lo <= x <= hi], the chained comparison. *)
Definition between (lo x hi : Q) : bool :=
  Qle_bool lo x && Qle_bool x hi.

End PyNum.

Import PyNum.

(** ** Classification bands ([get_aqi_state], [get_uv_state],
       [get_humidity_state]) *)

Definition get_aqi_state (aqi : option Q) : string * string :=
  match aqi with
  | None => ("N/A", "#FFFFFF")
  | Some aqi_float =>
      if between 0 aqi_float 50 then ("GOOD", "#39FF14")
      else if between 50 aqi_float 100 then ("MODERATE", "#FFFF00")
      else if between 100 aqi_float 150 then ("UNHEALTHY", "#FF7E00")
      else if between 150 aqi_float 200 then ("UNHEALTHY", "#FF0000")
      else if between 200 aqi_float 300 then ("VERY UNHEALTHY", "#8F3F97")
      else ("HAZARDOUS", "#7E0023")
  end.

Definition get_uv_state (uv : option Q) : string * string :=
  match uv with
  | None => ("N/A", "#FFFFFF")
  | Some uv_float =>
      if between 0 uv_float 2 then ("LOW", "#39FF14")
      else if between 2 uv_float 5 then ("MODERATE", "#FFFF00")
      else if between 5 uv_float 7 then ("HIGH", "#FF7E00")
      else if between 7 uv_float 10 then ("VERY HIGH", "#FF0000")
      else ("EXTREME", "#8F3F97")
  end.

Definition get_humidity_state (humidity : option Q) : string * string :=
  match humidity with
  | None => ("N/A", "#FFFFFF")
  | Some humidity_float =>
      if between 0 humidity_float 30 then ("LOW", "#3EC1EC")
      else if between 30 humidity_float 50 then ("NORMAL", "#39FF14")
      else if between 50 humidity_float 60 then ("SLIGHTLY HIGH", "#FFFF00")
      else if between 60 humidity_float 70 then ("HIGH", "#FF7E00")
      else ("VERY HIGH", "#FF0000")
  end.

(** The labels each function can return. *)
Definition uv_labels : list string := ["LOW"; "MODERATE"; "HIGH"; "VERY HIGH"; "EXTREME"].
Definition aqi_labels : list string :=
  ["GOOD"; "MODERATE"; "UNHEALTHY"; "VERY UNHEALTHY"; "HAZARDOUS"].
Definition humidity_labels : list string :=
  ["LOW"; "NORMAL"; "SLIGHTLY HIGH"; "HIGH"; "VERY HIGH"].

(** ** AQI from PM2.5 ([calculate_aqi]) *)

Definition calculate_aqi (pm2_5 : option Q) : option Q :=
  match pm2_5 with
  | None => None
  | Some pm2_5 =>
      Some (if Qle_bool pm2_5 12.0 then (pm2_5 / 12.0) * 50
            else if Qle_bool pm2_5 35.4 then
              ((pm2_5 - 12.1) / (35.4 - 12.1)) * (100 - 51) + 51
            else if Qle_bool pm2_5 55.4 then
              ((pm2_5 - 35.5) / (55.4 - 35.5)) * (150 - 101) + 101
            else if Qle_bool pm2_5 150.4 then
              ((pm2_5 - 55.5) / (150.4 - 55.5)) * (200 - 151) + 151
            else if Qle_bool pm2_5 250.4 then
              ((pm2_5 - 150.5) / (250.4 - 150.5)) * (300 - 201) + 201
            else
              ((pm2_5 - 250.5) / (500.4 - 250.5)) * (500 - 301) + 301)%Q
  end.

(** The same function on binary64 floats, to run it at given inputs
    with the rounding Python has. *)
Module Binary64.
Import PrimFloat.
Local Open Scope float_scope.
Local Set Warnings "-inexact-float".

Definition calculate_aqi (pm2_5 : float) : float :=
  if pm2_5 <=? 12.0 then (pm2_5 / 12.0) * 50
  else if pm2_5 <=? 35.4 then ((pm2_5 - 12.1) / (35.4 - 12.1)) * (100 - 51) + 51
  else if pm2_5 <=? 55.4 then ((pm2_5 - 35.5) / (55.4 - 35.5)) * (150 - 101) + 101
  else if pm2_5 <=? 150.4 then ((pm2_5 - 55.5) / (150.4 - 55.5)) * (200 - 151) + 151
  else if pm2_5 <=? 250.4 then ((pm2_5 - 150.5) / (250.4 - 150.5)) * (300 - 201) + 201
  else ((pm2_5 - 250.5) / (500.4 - 250.5)) * (500 - 301) + 301.

Definition boundaries : list float :=
  [12.0; 12.1; 35.4; 35.5; 55.4; 55.5; 150.4; 150.5; 250.4; 250.5]%list.

Definition boundary_aqi : list float :=
  [50; 51; 100; 101; 150; 151; 200; 201; 300; 301]%list.

End Binary64.

(** The breakpoint table as the specification words it: a band is a
    concentration interval and the AQI interval it maps to. *)
Record breakpoint : Type := Band {
  low_conc : Q; high_conc : Q; low_aqi : Q; high_aqi : Q
}.

Definition epa_bands : list breakpoint :=
  [ Band 0.0 12.0 0 50;
    Band 12.1 35.4 51 100;
    Band 35.5 55.4 101 150;
    Band 55.5 150.4 151 200;
    Band 150.5 250.4 201 300 ].

Definition extrapolation_band : breakpoint := Band 250.5 500.4 301 500.

(** The per-band formula of the specification. *)
Definition band_formula (b : breakpoint) (v : Q) : Q :=
  (low_aqi b
   + (v - low_conc b) / (high_conc b - low_conc b) * (high_aqi b - low_aqi b))%Q.

Definition in_band (b : breakpoint) (v : Q) : Prop :=
  (low_conc b <= v /\ v <= high_conc b)%Q.

(** ** Cardinal wind direction ([_degrees_to_cardinal]) *)

Definition directions : list string :=
  [ "N"; "NNE"; "NE"; "ENE"; "E"; "ESE"; "SE"; "SSE";
    "S"; "SSW"; "SW"; "WSW"; "W"; "WNW"; "NW"; "NNW" ].

(** [directions[index]]; the index is always in range (see
    [cardinal_index_in_range]), so the default is never returned. *)
Definition _degrees_to_cardinal (degrees : option Q) : string :=
  match degrees with
  | None => "Unknown"
  | Some degrees =>
      if negb (between 0 degrees 360) then "Unknown"
      else
        let index :=
          (py_round (degrees / (360 / inject_Z (Z.of_nat (length directions))))
           mod Z.of_nat (length directions))%Z in
        nth (Z.to_nat index) directions "IndexError"
  end.

(** ** Python strings *)

Module PyStr.

(** [s.startswith(p)] *)
Fixpoint startswith (s p : string) : bool :=
  match p, s with
  | EmptyString, _ => true
  | String _ _, EmptyString => false
  | String a p', String b s' => Ascii.eqb a b && startswith s' p'
  end.

(** [s.endswith(p)] *)
Definition endswith (s p : string) : bool :=
  (String.length p <=? String.length s)%nat
  && String.eqb (substring (String.length s - String.length p) (String.length p) s) p.

(** [s.replace(old, "")] for a non-empty [old]: every occurrence of
    [old], found from the left and without overlap, is dropped.
    [skip] counts the characters of a match still to be dropped. *)
Fixpoint remove_from (old : string) (skip : nat) (s : string) : string :=
  match s with
  | EmptyString => EmptyString
  | String c s' =>
      match skip with
      | S k => remove_from old k s'
      | O =>
          if startswith s old
          then remove_from old (String.length old - 1) s'
          else String c (remove_from old 0 s')
      end
  end.

Definition remove_all (old s : string) : string := remove_from old 0 s.

(** The character [a] does not occur in [s]. *)
Fixpoint no_char (a : ascii) (s : string) : bool :=
  match s with
  | EmptyString => true
  | String c s' => negb (Ascii.eqb a c) && no_char a s'
  end.

Definition digit_chr (d : Z) : ascii := ascii_of_nat (48 + Z.to_nat d).

Definition digit_val (c : ascii) : option Z :=
  let n := nat_of_ascii c in
  if (48 <=? n)%nat && (n <=? 57)%nat then Some (Z.of_nat (n - 48)) else None.

(** Zero-padded decimal of fixed width ([%02d], [%04d]). *)
Fixpoint zero_padded (width : nat) (n : Z) : string :=
  match width with
  | O => EmptyString
  | S w => zero_padded w (n / 10) ++ String (digit_chr (n mod 10)) EmptyString
  end.

(** Decimal of a non-negative integer, no padding ([str(n)]). *)
Definition decimal (n : Z) : string :=
  NilZero.string_of_uint (N.to_uint (Z.to_N n)).

(** [f"{x:.1f}"]: one decimal, the tenths rounded to nearest with ties
    to even.  The ties are those of the exact rational. *)
Definition format_1f (x : Q) : string :=
  let t := py_round (x * 10) in
  let a := Z.abs t in
  (if Qlt_le_dec x 0 then "-" else "")
  ++ decimal (a / 10) ++ "." ++ String (digit_chr (a mod 10)) EmptyString.

End PyStr.

Import PyStr.

(** ** Calendar dates ([datetime.date]) *)

Record date : Type := Date { year : Z; month : Z; day : Z }.

Module PyDate.

Definition is_leap (y : Z) : bool :=
  ((y mod 4 =? 0) && (negb (y mod 100 =? 0) || (y mod 400 =? 0)))%Z.

Definition days_in_month (y m : Z) : Z :=
  match m with
  | 1 | 3 | 5 | 7 | 8 | 10 | 12 => 31
  | 4 | 6 | 9 | 11 => 30
  | 2 => if is_leap y then 29 else 28
  | _ => 0
  end%Z.

Definition valid_date (d : date) : bool :=
  ((1 <=? year d) && (year d <=? 9999) && (1 <=? month d) && (month d <=? 12)
   && (1 <=? day d) && (day d <=? days_in_month (year d) (month d)))%Z.

Definition days_before_year (y : Z) : Z :=
  let p := (y - 1)%Z in (p * 365 + p / 4 - p / 100 + p / 400)%Z.

Fixpoint days_before_month_aux (y : Z) (n : nat) : Z :=
  match n with
  | O => 0
  | S k => (days_before_month_aux y k + days_in_month y (Z.of_nat (S k)))%Z
  end.

Definition days_before_month (y m : Z) : Z :=
  days_before_month_aux y (Z.to_nat (m - 1)).

(** [d.toordinal()]: day 1 is 0001-01-01. *)
Definition toordinal (d : date) : Z :=
  (days_before_year (year d) + days_before_month (year d) (month d) + day d)%Z.

(** [(a - b).days] *)
Definition days_between (a b : date) : Z := (toordinal a - toordinal b)%Z.

(** The calendar day before [d]. *)
Definition yesterday (d : date) : date :=
  if (1 <? day d)%Z then Date (year d) (month d) (day d - 1)
  else if (1 <? month d)%Z
       then Date (year d) (month d - 1) (days_in_month (year d) (month d - 1))
       else Date (year d - 1) 12 31.

(** [d.strftime('%Y-%m-%d')] for a four-digit year. *)
Definition strftime (d : date) : string :=
  zero_padded 4 (year d) ++ "-" ++ zero_padded 2 (month d) ++ "-"
  ++ zero_padded 2 (day d).

(** The month field of [strptime]: [1[0-2]|0[1-9]|[1-9]] followed by
    the literal dash. *)
Definition parse_month (s : string) : option (Z * string) :=
  match s with
  | String a (String b (String "-" rest)) =>
      match digit_val a, digit_val b with
      | Some x, Some y =>
          if ((x =? 1) && (y <=? 2) || (x =? 0) && (1 <=? y))%Z
          then Some (10 * x + y, rest)%Z else None
      | _, _ => None
      end
  | String a (String "-" rest) =>
      match digit_val a with
      | Some x => if (1 <=? x)%Z then Some (x, rest) else None
      | None => None
      end
  | _ => None
  end.

(** The day field: [3[0-1]|[1-2]\d|0[1-9]|[1-9]| [1-9]], after which
    nothing may remain. *)
Definition parse_day (s : string) : option Z :=
  match s with
  | String a (String b EmptyString) =>
      match digit_val a, digit_val b with
      | Some x, Some y =>
          if ((x =? 3) && (y <=? 1) || (1 <=? x) && (x <=? 2)
              || (x =? 0) && (1 <=? y))%Z
          then Some (10 * x + y)%Z else None
      | None, Some y =>
          if Ascii.eqb a " " && (1 <=? y)%Z then Some y else None
      | _, _ => None
      end
  | String a EmptyString =>
      match digit_val a with
      | Some x => if (1 <=? x)%Z then Some x else None
      | None => None
      end
  | _ => None
  end.

(** [datetime.strptime(s, '%Y-%m-%d').date()] on ASCII input, after
    CPython's [_strptime]; [None] stands for [ValueError]. *)
Definition strptime (s : string) : option date :=
  match s with
  | String y1 (String y2 (String y3 (String y4 (String "-" rest)))) =>
      match digit_val y1, digit_val y2, digit_val y3, digit_val y4 with
      | Some a, Some b, Some c, Some d =>
          match parse_month rest with
          | Some (m, rest') =>
              match parse_day rest' with
              | Some dd =>
                  let r := Date (1000 * a + 100 * b + 10 * c + d) m dd in
                  if valid_date r then Some r else None
              | None => None
              end
          | None => None
          end
      | _, _, _, _ => None
      end
  | _ => None
  end.

End PyDate.

Import PyDate.

(** ** Exceptions, log and files *)

Open Scope list_scope.

(** What a call yields: a value, or an exception that escapes the call. *)
Inductive outcome (A : Type) : Type :=
  | Return (a : A)
  | Raise (exn : string).
Arguments Return {A} a.
Arguments Raise {A} exn.

(** One line handed to [self.log] (or printed); the text formatting of
    the numbers inside a line is not modelled. *)
Inductive log_entry : Type :=
  | LogInfo (msg : string)
  | LogError (msg : string)
  | LogSensor (sensor_name : string) (data : dict)
  | LogRemoved (filename : string)
  | LogFileError (filename : string).

(** A CSV file is the list of its rows, a row the list of its fields. *)
Abbreviation row := (list value).

(** A directory maps the names of its files to their contents. *)
Abbreviation directory := (gmap string (list row)).

(** [os.listdir] *)
Definition listdir (d : directory) : list string := (map_to_list d).*1.

(** ** Retention sweeps ([cleanup_old_csv], [cleanup_old_logs])

    The two functions of the source have the same body up to the
    prefix, the extension and where they report; [cleanup_old] is that
    body, one loop iteration being [cleanup_file].  Every entry of the
    directory is a file and [os.remove] succeeds on it. *)

Definition RETENTION_DAYS : Z := 7.

(** The date embedded in a name:
    [strptime(filename.replace(prefix, "").replace(ext, ""), '%Y-%m-%d')]. *)
Definition file_date (prefix ext filename : string) : option date :=
  strptime (remove_all ext (remove_all prefix filename)).

(** Whether the loop body reaches [os.remove] for this name. *)
Definition expired (prefix ext : string) (current_date : date) (filename : string) : bool :=
  startswith filename prefix && endswith filename ext
  && match file_date prefix ext filename with
     | Some d => (days_between current_date d >? RETENTION_DAYS)%Z
     | None => false
     end.

(** What the loop body reports for this name. *)
Definition sweep_report (prefix ext : string) (current_date : date) (filename : string)
    : list log_entry :=
  if startswith filename prefix && endswith filename ext then
    match file_date prefix ext filename with
    | Some d =>
        if (days_between current_date d >? RETENTION_DAYS)%Z then [LogRemoved filename]
        else []
    | None => [LogFileError filename]
    end
  else [].

Definition cleanup_file (prefix ext : string) (current_date : date)
    (st : directory * list log_entry) (filename : string) : directory * list log_entry :=
  let '(dir, lg) := st in
  if startswith filename prefix && endswith filename ext then
    match file_date prefix ext filename with
    | Some d =>
        if (days_between current_date d >? RETENTION_DAYS)%Z
        then (delete filename dir, lg ++ [LogRemoved filename])
        else (dir, lg)
    | None => (dir, lg ++ [LogFileError filename])
    end
  else (dir, lg).

Definition cleanup_old (prefix ext : string) (current_date : date)
    (dir : directory) : directory * list log_entry :=
  foldl (cleanup_file prefix ext current_date) (dir, []) (listdir dir).

Definition cleanup_old_csv (current_date : date) (csv_dir : directory) :=
  cleanup_old "weather_data_" ".csv" current_date csv_dir.

Definition cleanup_old_logs (current_date : date) (logs_dir : directory) :=
  cleanup_old "weather_station_" ".log" current_date logs_dir.

Definition is_digit (c : ascii) : bool := bool_decide (is_Some (digit_val c)).

Definition iso_shaped (s : string) : bool :=
  match s with
  | String y1 (String y2 (String y3 (String y4 (String "-"
      (String m1 (String m2 (String "-" (String d1 (String d2 EmptyString))))))))) =>
      is_digit y1 && is_digit y2 && is_digit y3 && is_digit y4
      && is_digit m1 && is_digit m2 && is_digit d1 && is_digit d2
  | _ => false
  end.

(** The naming pattern as the specification words it,
    [<prefix>_<YYYY-MM-DD>.<ext>]: the prefix (with its underscore),
    ten characters [dddd-dd-dd], the extension (with its dot), and
    nothing else.  The result is the date the name embeds. *)
Definition pattern_date (prefix ext filename : string) : option date :=
  let n := String.length filename in
  let p := String.length prefix in
  let e := String.length ext in
  if startswith filename prefix && endswith filename ext && (p + e <=? n)%nat then
    let middle := substring p (n - p - e) filename in
    if iso_shaped middle then strptime middle else None
  else None.

(** ** Rainfall accumulator ([store_daily_rainfall], [process_rainfall]) *)

(** The attributes [process_rainfall] keeps on the station object.  The
    first two are created by the first call ([hasattr] tests them), the
    third by [init_data_structures]. *)
Record rain_state : Type := RainState {
  last_rain_reset_day : option Z;
  daily_rain_total : option Q;
  last_rain_value : Q
}.

(** The accumulator together with what it writes to: the totals file
    [rainfall_data/daily_rainfall_totals.csv] (absent until first
    written) and the log. *)
Record rain_world : Type := RainWorld {
  rain : rain_state;
  totals_file : option (list row);
  rain_log : list log_entry
}.

Definition init_rain_state : rain_state := RainState None None 0.

(** The attributes created together stay together. *)
Definition rain_wf (r : rain_state) : Prop :=
  is_Some (last_rain_reset_day r) -> is_Some (daily_rain_total r).

Definition rainfall_header : row := [VStr "Date"; VStr "Rainfall (mm)"].

(** [today] is the [datetime.now()] the function reads.  The write
    is taken to succeed; an I/O error, which the function logs and
    swallows, is not modelled. *)
Definition store_daily_rainfall (today : date) (total : Q)
    (file : option (list row)) : option (list row) :=
  let r := [VStr (strftime today); VStr (format_1f total)] in
  match file with
  | None => Some [rainfall_header; r]
  | Some rows => Some (rows ++ [r])
  end.

(** [now] is the clock reading of the call; the second reading, inside
    [store_daily_rainfall], is taken at the same instant.  The amounts
    are rationals, subtracted and added exactly where the source
    subtracts and adds binary64 floats: what is said of a single
    subtraction or addition, or of amounts a float holds exactly,
    carries over; an identity that regroups the running sum holds up to
    the rounding of each step. *)
Definition process_rainfall (now : date) (current_rain : option Q)
    (w : rain_world) : rain_world * outcome (option Q) :=
  match current_rain with
  | None => (w, Return None)
  | Some current_rain =>
      let new_day :=
        match last_rain_reset_day (rain w) with
        | None => true
        | Some d => negb (day now =? d)%Z
        end in
      let w1 :=
        if new_day then
          let '(file, lg) :=
            match daily_rain_total (rain w) with
            | Some total =>
                (store_daily_rainfall now total (totals_file w),
                 rain_log w ++ [LogInfo "Rainfall reset at midnight"])
            | None => (totals_file w, rain_log w)
            end in
          RainWorld (RainState (Some (day now)) (Some 0%Q) current_rain) file lg
        else w in
      let rain_increment := (current_rain - last_rain_value (rain w1))%Q in
      if Qle_bool 0 rain_increment then
        match daily_rain_total (rain w1) with
        | Some total =>
            let total' := (total + rain_increment)%Q in
            (RainWorld (RainState (last_rain_reset_day (rain w1)) (Some total') current_rain)
               (totals_file w1) (rain_log w1),
             Return (Some total'))
        | None => (w1, Raise "AttributeError")
        end
      else
        let w2 :=
          RainWorld (RainState (last_rain_reset_day (rain w1)) (daily_rain_total (rain w1))
                       current_rain)
            (totals_file w1) (rain_log w1 ++ [LogInfo "Rain sensor reset or error"]) in
        match daily_rain_total (rain w1) with
        | Some total => (w2, Return (Some total))
        | None => (w2, Raise "AttributeError")
        end
  end.

(** A run of readings taken at the same clock date, with the value each
    call returned. *)
Fixpoint process_readings (now : date) (readings : list Q) (w : rain_world)
    : rain_world * list (outcome (option Q)) :=
  match readings with
  | [] => (w, [])
  | r :: rest =>
      let '(w1, out) := process_rainfall now (Some r) w in
      let '(w2, outs) := process_readings now rest w1 in
      (w2, out :: outs)
  end.

(** The accumulator step as the specification words it, on the pair
    (dailyTotal, lastRawValue). *)
Definition spec_same_day_step (st : Q * Q) (current_raw : Q) : Q * Q :=
  let '(daily_total, last_raw) := st in
  let delta := (current_raw - last_raw)%Q in
  if Qle_bool 0 delta then ((daily_total + delta)%Q, current_raw)
  else (daily_total, current_raw).

(** The daily totals after each reading of a run, by that step. *)
Fixpoint spec_running_totals (st : Q * Q) (readings : list Q) : list Q :=
  match readings with
  | [] => []
  | r :: rest =>
      let st' := spec_same_day_step st r in
      st'.1 :: spec_running_totals st' rest
  end.

(** ** Sensor readers *)

(** What [modbus_client.read_holding_registers] does: it raises, or it
    returns a result whose [isError()] holds, or one with registers. *)
Inductive modbus_response : Type :=
  | ModbusRaises
  | ModbusError
  | Registers (registers : list Z).

(** [registers[i] / scale] *)
Definition scaled (r : Z) (scale : Q) : value := VFloat (inject_Z r / scale).

(** A reader yields the lines it logs and its return value. *)

Definition environment_default : dict :=
  list_to_map [("temperature", VFloat 0.0); ("humidity", VFloat 0.0); ("pressure", VFloat 0.0)].

Definition read_environment_sensor (resp : modbus_response) : list log_entry * dict :=
  match resp with
  | ModbusRaises => ([LogError "Environment sensor error"], environment_default)
  | ModbusError => ([], environment_default)
  | Registers registers =>
      match registers !! 0%nat, registers !! 1%nat, registers !! 2%nat with
      | Some r0, Some r1, Some r2 =>
          ([], list_to_map [("temperature", scaled r0 10.0); ("humidity", scaled r1 10.0);
                            ("pressure", scaled r2 10.0)])
      | _, _, _ => ([LogError "Environment sensor error"], environment_default)
      end
  end.

Definition read_uv_sensor (resp : modbus_response) : list log_entry * dict :=
  match resp with
  | ModbusRaises => ([LogError "UV sensor error"], {["uv_index" := VFloat 0.0]})
  | ModbusError => ([], {["uv_index" := VFloat 0.0]})
  | Registers registers =>
      match registers !! 0%nat with
      | Some r0 => ([], {["uv_index" := scaled r0 100.0]})
      | None => ([LogError "UV sensor error"], {["uv_index" := VFloat 0.0]})
      end
  end.

(** The side file the refined variant takes air-quality data from: it
    is missing, or empty, or reading it raises, or [pandas] finds the
    row nearest in time. *)
Inductive aqi_file : Type :=
  | AqiFileMissing
  | AqiFileEmpty
  | AqiFileRaises
  | AqiClosestRow (carbon_dioxide pm2_5 pm10 carbon_monoxide nitrogen_dioxide
                   sulphur_dioxide ozone : Q).

Definition read_aqi_sensor (src : aqi_file) : list log_entry * dict :=
  match src with
  | AqiFileMissing => ([LogError "AQI data file not found"], {["pm2_5" := VFloat 0.0]})
  | AqiFileEmpty => ([LogError "AQI data file is empty"], {["pm2_5" := VFloat 0.0]})
  | AqiFileRaises => ([LogError "Error reading AQI data from CSV"], {["pm2_5" := VFloat 0.0]})
  | AqiClosestRow co2 pm2_5 pm10 co no2 so2 o3 =>
      ([], list_to_map [("co2", VFloat co2); ("pm2_5", VFloat pm2_5); ("pm10", VFloat pm10);
                        ("carbon_monoxide", VFloat co); ("nitrogen_dioxide", VFloat no2);
                        ("sulphur_dioxide", VFloat so2); ("ozone", VFloat o3)])
  end.

Definition read_wind_speed (resp : modbus_response) : list log_entry * dict :=
  match resp with
  | ModbusRaises => ([LogError "Wind speed sensor error"], {["wind_speed" := VFloat 0.0]})
  | ModbusError => ([], {["wind_speed" := VFloat 0.0]})
  | Registers registers =>
      match registers !! 0%nat with
      | Some r0 => ([], {["wind_speed" := scaled r0 10.0]})
      | None => ([LogError "Wind speed sensor error"], {["wind_speed" := VFloat 0.0]})
      end
  end.

Definition read_wind_direction (resp : modbus_response) : list log_entry * option dict :=
  match resp with
  | ModbusRaises => ([LogError "Wind direction sensor error"], None)
  | ModbusError => ([], None)
  | Registers registers =>
      match registers !! 0%nat, registers !! 2%nat with
      | Some reg_0, Some reg_2 =>
          let avg_value := (inject_Z (reg_0 + reg_2) / 2.0)%Q in
          let wind_dir_degrees := py_round (avg_value / 10.0) in
          if ((0 <=? wind_dir_degrees) && (wind_dir_degrees <=? 360))%Z then
            ([], Some (list_to_map
                   [("wind_dir_degrees", VInt wind_dir_degrees);
                    ("wind_dir_cardinal",
                     VStr (_degrees_to_cardinal (Some (inject_Z wind_dir_degrees))))]))
          else ([], None)
      | _, _ => ([LogError "Wind direction sensor error"], None)
      end
  end.

Definition read_rainfall (resp : modbus_response) : list log_entry * option dict :=
  match resp with
  | ModbusRaises => ([LogError "Rainfall sensor error"], None)
  | ModbusError => ([], None)
  | Registers registers =>
      match registers !! 0%nat with
      | Some r0 => ([], Some {["rainfall" := scaled r0 10.0]})
      | None => ([LogError "Rainfall sensor error"], None)
      end
  end.

(** ** Acquisition loop ([sensor_reader_loop], [log_sensor_data]) *)

(** Everything one cycle takes from outside. *)
Record cycle_input : Type := CycleInput {
  running : bool;                       (* self.running at the loop test *)
  connect : outcome bool;               (* modbus_client.connect() *)
  timestamp : string;                   (* datetime.now().isoformat() *)
  environment_resp : modbus_response;
  uv_resp : modbus_response;
  aqi_src : aqi_file;                   (* awos_refined.py: the AQI side file *)
  aqi_resp : modbus_response;           (* awos.py: the AQI registers *)
  wind_speed_resp : modbus_response;
  wind_direction_resp : modbus_response;
  rainfall_resp : modbus_response;
  clock : Q                             (* time.time() after the reads *)
}.

(** A reader as the loop sees it: a callable that logs, and returns a
    dictionary or [None], or raises. *)
Definition reader : Type := cycle_input -> list log_entry * outcome (option dict).

Definition sensors : list (string * reader) :=
  [ ("environment", fun i => let '(l, d) := read_environment_sensor (environment_resp i) in
                             (l, Return (Some d)));
    ("uv", fun i => let '(l, d) := read_uv_sensor (uv_resp i) in (l, Return (Some d)));
    ("aqi", fun i => let '(l, d) := read_aqi_sensor (aqi_src i) in (l, Return (Some d)));
    ("wind_speed", fun i => let '(l, d) := read_wind_speed (wind_speed_resp i) in
                            (l, Return (Some d)));
    ("wind_direction", fun i => let '(l, d) := read_wind_direction (wind_direction_resp i) in
                                (l, Return d));
    ("rainfall", fun i => let '(l, d) := read_rainfall (rainfall_resp i) in (l, Return d)) ].

(** [data[key]] formatted as a number: the key must be there and hold a
    number. *)
Definition numeric_field (data : dict) (key : string) : bool :=
  match data !! key with
  | Some (VFloat _) | Some (VInt _) => true
  | _ => false
  end.

Definition log_sensor_data (sensor_name : string) (data : dict) : outcome (list log_entry) :=
  let line (ok : bool) : outcome (list log_entry) :=
    if ok then Return [LogSensor sensor_name data] else Raise "KeyError" in
  if String.eqb sensor_name "environment" then
    line (numeric_field data "temperature" && numeric_field data "humidity"
          && numeric_field data "pressure")
  else if String.eqb sensor_name "uv" then line (numeric_field data "uv_index")
  else if String.eqb sensor_name "aqi" then line true
  else if String.eqb sensor_name "wind_speed" then line (numeric_field data "wind_speed")
  else if String.eqb sensor_name "wind_direction" then
    line (bool_decide (is_Some (data !! "wind_dir_degrees"))
          && bool_decide (is_Some (data !! "wind_dir_cardinal")))
  else if String.eqb sensor_name "rainfall" then line (numeric_field data "rainfall")
  else Return [].

(** [if data:] *)
Definition truthy (data : dict) : bool := negb (Nat.eqb (size data) 0).

(** One turn of [for sensor_name, reader in sensors], with its
    [try]/[except]. *)
Definition read_sensor (i : cycle_input) (acc : dict * list log_entry)
    (entry : string * reader) : dict * list log_entry :=
  let '(current_data, lg) := acc in
  let '(sensor_name, rd) := entry in
  let '(lines, out) := rd i in
  let lg := lg ++ lines in
  match out with
  | Return (Some data) =>
      if truthy data then
        let current_data := data ∪ current_data in       (* current_data.update(data) *)
        match log_sensor_data sensor_name data with
        | Return l => (current_data, lg ++ l)
        | Raise _ => (current_data, lg ++ [LogError ("Error reading " ++ sensor_name)%string])
        end
      else (current_data, lg)
  | Return None => (current_data, lg)
  | Raise _ => (current_data, lg ++ [LogError ("Error reading " ++ sensor_name)%string])
  end.

Definition read_sensors (i : cycle_input) (rs : list (string * reader))
    (acc : dict * list log_entry) : dict * list log_entry :=
  foldl (read_sensor i) acc rs.

(** Dictionaries are objects: the store maps a location to the
    dictionary that lives there, and variables hold locations. *)
Abbreviation loc := positive.

Record station : Type := Station {
  heap : gmap loc dict;
  sensor_data : loc;              (* self.sensor_data *)
  data_queue : list loc;          (* self.data_queue, oldest first *)
  csv_dir : directory;            (* the directory self.csv_dir *)
  station_log : list log_entry;
  last_csv_time : Q               (* the loop's local of that name *)
}.

Definition log_line (e : list log_entry) (s : station) : station :=
  Station (heap s) (sensor_data s) (data_queue s) (csv_dir s) (station_log s ++ e)
    (last_csv_time s).

(** The body of [while self.running], with the outer [try]/[except].
    The two statements after the reads are
    [self.sensor_data = current_data] and
    [self.data_queue.put(current_data)]: the same object both times;
    [awos.py] has the same two statements. *)
Definition sensor_reader_cycle_with (rs : list (string * reader)) (csv_interval : Q)
    (i : cycle_input) (s : station) : station :=
  match connect i with
  | Raise _ => log_line [LogError "Sensor read error"] s
  | Return false => log_line [LogError "Modbus connection failed sensor reader loop"] s
  | Return true =>
      let '(current_data, lg) :=
        read_sensors i rs ({["timestamp" := VStr (timestamp i)]}, station_log s) in
      let l := fresh (dom (heap s)) in                 (* the new dict object *)
      let heap' := <[l := current_data]> (heap s) in
      if Qle_bool csv_interval (clock i - last_csv_time s) then
        Station heap' l (data_queue s ++ [l]) (csv_dir s) lg (clock i)
      else
        Station heap' l (data_queue s) (csv_dir s) lg (last_csv_time s)
  end.

Definition sensor_reader_cycle := sensor_reader_cycle_with sensors.

(** The loop over the inputs of successive cycles; it stops when
    [self.running] is found cleared.  The result lists the station
    after every cycle run. *)
Fixpoint sensor_reader_loop_with (rs : list (string * reader)) (csv_interval : Q)
    (inputs : list cycle_input) (s : station) : list station :=
  match inputs with
  | [] => []
  | i :: rest =>
      if running i then
        let s' := sensor_reader_cycle_with rs csv_interval i s in
        s' :: sensor_reader_loop_with rs csv_interval rest s'
      else []
  end.

Definition sensor_reader_loop := sensor_reader_loop_with sensors.

(** The dictionary a cycle builds from its reads. *)
Definition cycle_snapshot (rs : list (string * reader)) (i : cycle_input) : dict :=
  (read_sensors i rs ({["timestamp" := VStr (timestamp i)]}, [])).1.

(** A register read that did not deliver: the call raised, or the
    result is an error, or it holds fewer than the [count] registers
    the reader indexes. *)
Definition modbus_failed (count : nat) (resp : modbus_response) : bool :=
  match resp with
  | ModbusRaises | ModbusError => true
  | Registers registers => (length registers <? count)%nat
  end.

Definition aqi_failed (src : aqi_file) : bool :=
  match src with
  | AqiClosestRow _ _ _ _ _ _ _ => false
  | _ => true
  end.

(** [current_data.update(data)] for a reader's return value, [None]
    (or a raised exception) leaving the dictionary alone. *)
Definition merge_reading (out : outcome (option dict)) (current_data : dict) : dict :=
  match out with
  | Return (Some data) => data ∪ current_data
  | _ => current_data
  end.

(** *** The older variant, [awos.py]

    Its readers return [None] on every failure and its AQI reader takes
    seven registers from the serial link.  [_degrees_to_cardinal],
    [read_wind_direction] and [read_rainfall] are the same text in the
    two files.  Its loop reads the same six sensors in the same order,
    updates [current_data] under the same [if data:] test and ends with
    the same two statements, so its body is
    [sensor_reader_cycle_with Legacy.sensors]. *)
Module Legacy.

Definition read_environment_sensor (resp : modbus_response) : list log_entry * option dict :=
  match resp with
  | ModbusRaises => ([LogError "Environment sensor error"], None)
  | ModbusError => ([], None)
  | Registers registers =>
      match registers !! 0%nat, registers !! 1%nat, registers !! 2%nat with
      | Some r0, Some r1, Some r2 =>
          ([], Some (list_to_map [("temperature", scaled r0 10.0); ("humidity", scaled r1 10.0);
                                  ("pressure", scaled r2 10.0)]))
      | _, _, _ => ([LogError "Environment sensor error"], None)
      end
  end.

Definition read_uv_sensor (resp : modbus_response) : list log_entry * option dict :=
  match resp with
  | ModbusRaises => ([LogError "UV sensor error"], None)
  | ModbusError => ([], None)
  | Registers registers =>
      match registers !! 0%nat with
      | Some r0 => ([], Some {["uv_index" := scaled r0 100.0]})
      | None => ([LogError "UV sensor error"], None)
      end
  end.

Definition read_aqi_sensor (resp : modbus_response) : list log_entry * option dict :=
  match resp with
  | ModbusRaises => ([LogError "AQI sensor error"], None)
  | ModbusError => ([], None)
  | Registers registers =>
      match registers !! 0%nat, registers !! 1%nat, registers !! 2%nat, registers !! 3%nat,
            registers !! 4%nat, registers !! 5%nat, registers !! 6%nat with
      | Some r0, Some r1, Some r2, Some r3, Some r4, Some r5, Some r6 =>
          ([], Some (list_to_map
                 [("co2", VInt r0); ("formaldehyde", VInt r1); ("tvoc", VInt r2);
                  ("pm2_5", VInt r3); ("pm10", VInt r4);
                  ("aqi_temperature", scaled r5 10.0); ("aqi_humidity", scaled r6 10.0)]))
      | _, _, _, _, _, _, _ => ([LogError "AQI sensor error"], None)
      end
  end.

Definition read_wind_speed (resp : modbus_response) : list log_entry * option dict :=
  match resp with
  | ModbusRaises => ([LogError "Wind speed sensor error"], None)
  | ModbusError => ([], None)
  | Registers registers =>
      match registers !! 0%nat with
      | Some r0 => ([], Some {["wind_speed" := scaled r0 10.0]})
      | None => ([LogError "Wind speed sensor error"], None)
      end
  end.

Definition sensors : list (string * reader) :=
  [ ("environment", fun i => let '(l, d) := read_environment_sensor (environment_resp i) in
                             (l, Return d));
    ("uv", fun i => let '(l, d) := read_uv_sensor (uv_resp i) in (l, Return d));
    ("aqi", fun i => let '(l, d) := read_aqi_sensor (aqi_resp i) in (l, Return d));
    ("wind_speed", fun i => let '(l, d) := read_wind_speed (wind_speed_resp i) in
                            (l, Return d));
    ("wind_direction", fun i => let '(l, d) := read_wind_direction (wind_direction_resp i) in
                                (l, Return d));
    ("rainfall", fun i => let '(l, d) := read_rainfall (rainfall_resp i) in (l, Return d)) ].

Definition sensor_reader_cycle := sensor_reader_cycle_with sensors.

End Legacy.

(** A write through a reference: [d[key] = v] on the object at [l]. *)
Definition mutate (l : loc) (key : string) (v : value) (s : station) : station :=
  Station (alter (insert key v) l (heap s)) (sensor_data s) (data_queue s) (csv_dir s)
    (station_log s) (last_csv_time s).

(** ** Persistence writer ([csv_writer_loop]) *)

Definition csv_columns : list string :=
  [ "timestamp"; "temperature"; "humidity"; "pressure"; "uv_index";
    "co2"; "formaldehyde"; "tvoc"; "pm2_5"; "pm10";
    "aqi_temperature"; "aqi_humidity";
    "wind_speed"; "wind_dir_degrees"; "wind_dir_cardinal";
    "rainfall" ].

Definition csv_header : row := VStr <$> csv_columns.

(** [data.get(key, '')] *)
Definition get_or_empty (data : dict) (key : string) : value :=
  default (VStr "") (data !! key).

(** The list passed to [writer.writerow]; [ts] is [data['timestamp']]. *)
Definition csv_row (ts : value) (data : dict) : row :=
  [ ts;
    get_or_empty data "temperature";
    get_or_empty data "humidity";
    get_or_empty data "pressure";
    get_or_empty data "uv_index";
    get_or_empty data "co2";
    get_or_empty data "formaldehyde";
    get_or_empty data "tvoc";
    get_or_empty data "pm2_5";
    get_or_empty data "pm10";
    get_or_empty data "aqi_temperature";
    get_or_empty data "aqi_humidity";
    get_or_empty data "wind_speed";
    get_or_empty data "wind_dir_degrees";
    get_or_empty data "wind_dir_cardinal";
    get_or_empty data "rainfall" ].

Definition csv_file_name (today : date) : string :=
  ("weather_data_" ++ strftime today ++ ".csv")%string.

(** One turn of [while self.running] in the writer.  [today] is the
    date of [datetime.now()]; an empty queue is the [queue.Empty] of
    the timed-out [get]. *)
Definition csv_writer_iteration (today : date) (s : station) : station :=
  match data_queue s with
  | [] => s
  | l :: queue' =>
      let csv_file := csv_file_name today in
      let '(dir1, lg1) :=
        match csv_dir s !! csv_file with
        | None =>
            let '(d, lines) := cleanup_old_csv today (<[csv_file := [csv_header]]> (csv_dir s)) in
            (d, station_log s ++ lines)
        | Some _ => (csv_dir s, station_log s)
        end in
      (* open(csv_file, 'a') creates the file when it is not there *)
      let rows := default [] (dir1 !! csv_file) in
      match heap s !! l ≫= fun data => (fun ts => (ts, data)) <$> data !! "timestamp" with
      | Some (ts, data) =>
          Station (heap s) (sensor_data s) queue'
            (<[csv_file := rows ++ [csv_row ts data]]> dir1) lg1 (last_csv_time s)
      | None =>
          Station (heap s) (sensor_data s) queue'
            (<[csv_file := rows]> dir1) (lg1 ++ [LogError "CSV write error"]) (last_csv_time s)
      end
  end.

Fixpoint csv_writer_loop (days : list (bool * date)) (s : station) : list station :=
  match days with
  | [] => []
  | (run, today) :: rest =>
      if run then
        let s' := csv_writer_iteration today s in
        s' :: csv_writer_loop rest s'
      else []
  end.

(** * Further functions

    The functions around that core: the state widgets of the display,
    the configuration loader, the sun data file and its readers, the
    window placement of [display_manager.py], and the classification
    functions as [awos.py] and the simulator [test_awos/test_gui.py]
    have them. *)

(** ** State widgets ([update_state_displays]) *)

(** [isinstance(v, (int, float))], with the number. *)
Definition as_number (v : value) : option Q :=
  match v with
  | VFloat x => Some x
  | VInt n => Some (inject_Z n)
  | VStr _ => None
  end.

(** The text and the colour given to the three state widgets. *)
Record state_display : Type := StateDisplay {
  humidity_state : string * string;
  uv_state : string * string;
  aqi_state : string * string
}.

(** [sensor_data] is the live snapshot.  A key bound to [None], as in
    the dictionary [init_data_structures] builds, reads through [get]
    like a missing one. *)
Definition update_state_displays (sensor_data : dict) : state_display :=
  let state_of (classify : Q -> string * string) (key : string) : string * string :=
    match sensor_data !! key ≫= as_number with
    | None => ("N/A", "#FFFFFF")
    | Some x => classify x
    end in
  StateDisplay
    (state_of (fun humidity => get_humidity_state (Some humidity)) "humidity")
    (state_of (fun uv => get_uv_state (Some uv)) "uv_index")
    (state_of (fun pm2_5 => get_aqi_state (calculate_aqi (Some pm2_5))) "pm2_5").

(** ** The display's rainfall calls

    Every refresh of the display runs the rain parser, which calls
    [process_rainfall] on the reading of the live snapshot; a run of
    such calls, each at its clock date. *)
Fixpoint process_calls (calls : list (date * option Q)) (w : rain_world)
    : rain_world * list (outcome (option Q)) :=
  match calls with
  | [] => (w, [])
  | (now, current_rain) :: rest =>
      let '(w1, out) := process_rainfall now current_rain w in
      let '(w2, outs) := process_calls rest w1 in
      (w2, out :: outs)
  end.

(** The same-day branch of [process_rainfall] on binary64 floats, to
    run it with the rounding Python has; the pair is
    [(daily_rain_total, last_rain_value)]. *)
Module Binary64Rain.
Import PrimFloat.
Local Open Scope float_scope.
Local Set Warnings "-inexact-float".

Definition same_day_step (st : float * float) (current_rain : float) : float * float :=
  let rain_increment := current_rain - snd st in
  if 0 <=? rain_increment then (fst st + rain_increment, current_rain)
  else (fst st, current_rain).

(** The readings of the registers 0, 2 and 9, in tenths of a
    millimetre, with the sum of their increments and the advance of
    the counter. *)
Definition readings : list float := [0 / 10.0; 2 / 10.0; 9 / 10.0]%list.
Definition sum_of_increments : float := 0.8999999999999999.
Definition counter_advance : float := 0.9.

End Binary64Rain.

(** The station as [init_data_structures] leaves it, before any
    totals file is written. *)
Definition init_rain_world : rain_world := RainWorld init_rain_state None [].

(** ** The classification bands of [awos.py] *)

Module LegacyGui.

Definition get_aqi_state (aqi : Q) : string * string :=
  if between 0 aqi 50 then ("Good", "#00E400")
  else if between 51 aqi 100 then ("Moderate", "#FFFF00")
  else if between 101 aqi 150 then ("Unhealthy", "#FF7E00")
  else if between 151 aqi 200 then ("Unhealthy", "#FF0000")
  else if between 201 aqi 300 then ("Very Unhealthy", "#8F3F97")
  else ("Hazardous", "#7E0023").

Definition get_uv_state (uv : Q) : string * string :=
  if between 0 uv 2 then ("Low", "#3EA72D")
  else if between 3 uv 5 then ("Moderate", "#FFF300")
  else if between 6 uv 7 then ("High", "#F18B00")
  else if between 8 uv 10 then ("Very High", "#E53210")
  else ("Extreme", "#B567A4").

Definition get_humidity_state (humidity : Q) : string * string :=
  if between 0 humidity 30 then ("Low", "#ADD8E6")
  else if between 31 humidity 50 then ("Normal", "#00FF00")
  else if between 51 humidity 60 then ("Slightly High", "#FFFF00")
  else if between 61 humidity 70 then ("High", "#FFA500")
  else ("Very High", "#FF0000").

End LegacyGui.

(** [d + timedelta(days=1)], for a date before the last day of the
    year 9999 (where Python raises). *)
Definition tomorrow (d : date) : date :=
  if (day d <? days_in_month (year d) (month d))%Z then Date (year d) (month d) (day d + 1)
  else if (month d <? 12)%Z then Date (year d) (month d + 1) 1
       else Date (year d + 1) 1 1.

(** ** The simulator, [test_awos/test_gui.py] *)

Module TestGui.

(** No range test here: every number is given a compass point.  As in
    [_degrees_to_cardinal] of the station, [degrees] is the exact value
    of the float and the quotient is taken exactly; a sum such as
    [degrees + 360], which binary64 rounds, is none of its
    operations. *)
Definition _degrees_to_cardinal (degrees : Q) : string :=
  let index :=
    (py_round (degrees / (360 / inject_Z (Z.of_nat (length directions))))
     mod Z.of_nat (length directions))%Z in
  nth (Z.to_nat index) directions "IndexError".

Definition get_aqi_state (aqi : option Q) : string * string :=
  match aqi with
  | None => ("N/A", "#FFFFFF")
  | Some aqi_float =>
      if between 0.0 aqi_float 50.0 then ("GOOD", "#39FF14")
      else if between 50.1 aqi_float 100.0 then ("MODERATE", "#FFFF00")
      else if between 100.1 aqi_float 150.0 then ("UNHEALTHY", "#FF7E00")
      else if between 150.1 aqi_float 200.0 then ("UNHEALTHY", "#FF0000")
      else if between 200.1 aqi_float 300.0 then ("VERY UNHEALTHY", "#8F3F97")
      else ("HAZARDOUS", "#7E0023")
  end.

Definition get_uv_state (uv : option Q) : string * string :=
  match uv with
  | None => ("N/A", "#FFFFFF")
  | Some uv_float =>
      if between 0.0 uv_float 2.0 then ("LOW", "#39FF14")
      else if between 2.1 uv_float 5.0 then ("MODERATE", "#FFFF00")
      else if between 5.1 uv_float 7.0 then ("HIGH", "#FF7E00")
      else if between 7.1 uv_float 10.0 then ("VERY HIGH", "#FF0000")
      else ("EXTREME", "#8F3F97")
  end.

Definition get_humidity_state (humidity : option Q) : string * string :=
  match humidity with
  | None => ("N/A", "#FFFFFF")
  | Some humidity_float =>
      if between 0.0 humidity_float 30.0 then ("LOW", "#3EC1EC")
      else if between 30.1 humidity_float 50.0 then ("NORMAL", "#39FF14")
      else if between 50.1 humidity_float 60.0 then ("SLIGHTLY HIGH", "#FFFF00")
      else if between 60.1 humidity_float 70.0 then ("HIGH", "#FF7E00")
      else ("VERY HIGH", "#FF0000")
  end.

(** The date the simulator shows: each update moves it a day on, and
    from the first of March back to the first of January. *)
Definition update_static_elements (custom_date : date) : date :=
  let custom_date := tomorrow custom_date in
  if ((month custom_date =? 3) && (day custom_date =? 1))%Z
  then Date (year custom_date) 1 1
  else custom_date.

(** The base times are the literals of the source, given here by
    their hour and minute fields; the result is formatted
    [f"{h:02d}:{m:02d}"]. *)
Definition calculate_sun_times (date : date) : string * string :=
  let '(sunrise, sunset) :=
    if (month date =? 1)%Z then ((7, 45), (16, 30))%Z
    else if (month date =? 2)%Z then ((7, 15), (17, 15))%Z
    else ((6, 0), (18, 0))%Z in
  let day_variation := (day date mod 15)%Z in
  let sunrise_min := (sunrise.2 + day_variation)%Z in
  let sunset_min := (sunset.2 + day_variation)%Z in
  let '(sunrise_h, sunrise_min) :=
    if (60 <=? sunrise_min)%Z then (sunrise.1 + 1, sunrise_min - 60)%Z
    else (sunrise.1, sunrise_min) in
  let '(sunset_h, sunset_min) :=
    if (60 <=? sunset_min)%Z then (sunset.1 + 1, sunset_min - 60)%Z
    else (sunset.1, sunset_min) in
  ((zero_padded 2 sunrise_h ++ ":" ++ zero_padded 2 sunrise_min)%string,
   (zero_padded 2 sunset_h ++ ":" ++ zero_padded 2 sunset_min)%string).

End TestGui.

(** ** Sunrise and sunset ([generate_sun_data], [get_sun_info]) *)

(** [a <= b] on dates *)
Definition date_leb (a b : date) : bool :=
  ((year a <? year b)
   || (year a =? year b) && ((month a <? month b)
                             || (month a =? month b) && (day a <=? day b)))%Z.

(** [d.strftime('%m-%d')] *)
Definition strftime_md (d : date) : string :=
  (zero_padded 2 (month d) ++ "-" ++ zero_padded 2 (day d))%string.

(** A file of sun data is the list of its rows, a row the list of its
    fields. *)
Abbreviation sun_file := (list (list string)).

Definition sun_header : list string := ["date"; "sunrise"; "sunset"].

(** The [while current_date <= end_date] loop.  [sun] stands for
    astral's computation, formatted [%H:%M]; [None] is for a loop that
    is still running when the fuel is used up. *)
Fixpoint sun_rows (fuel : nat) (sun : date -> string * string)
    (current_date end_date : date) : option sun_file :=
  match fuel with
  | O => None
  | S fuel =>
      if date_leb current_date end_date then
        let s := sun current_date in
        cons [strftime_md current_date; s.1; s.2]
          <$> sun_rows fuel sun (tomorrow current_date) end_date
      else Some []
  end.

Definition generate_sun_data (fuel : nat) (sun : date -> string * string)
    : option sun_file :=
  cons sun_header <$> sun_rows fuel sun (Date 2025 1 1) (Date 2025 12 31).

(** What [get_sun_info] reports besides its result. *)
Inductive sun_report : Type :=
  | SunFileNotFound
  | NoSunData (current_date : string)
  | SunReadError (exn : string).

(** The result, [{'sunrise': ..., 'sunset': ...}]; a field of a short
    row is [None]. *)
Abbreviation sun_info := (option string * option string)%type.

Definition default_sun_info : sun_info := (Some "06:00", Some "18:00").

(** [row[key]] on a row of [csv.DictReader]: the last column of that
    name, [None] when the row is too short to have it, [KeyError] when
    no column has the name. *)
Fixpoint row_get (fieldnames row : list string) (key : string) : outcome (option string) :=
  match fieldnames with
  | [] => Raise "KeyError"
  | f :: fs =>
      match row_get fs (tail row) key with
      | Return v => Return v
      | Raise e => if String.eqb f key then Return (head row) else Raise e
      end
  end.

(** The loop over the reader's rows; the reader passes over empty
    rows. *)
Fixpoint find_sun_row (fieldnames : list string) (rows : sun_file) (current_date : string)
    : outcome (option sun_info) :=
  match rows with
  | [] => Return None
  | [] :: rest => find_sun_row fieldnames rest current_date
  | row :: rest =>
      match row_get fieldnames row "date" with
      | Raise e => Raise e
      | Return d =>
          if bool_decide (d = Some current_date) then
            match row_get fieldnames row "sunrise", row_get fieldnames row "sunset" with
            | Return sunrise, Return sunset => Return (Some (sunrise, sunset))
            | Raise e, _ | _, Raise e => Raise e
            end
          else find_sun_row fieldnames rest current_date
      end
  end.

(** The loop of [get_sun_info] over the rows of its [csv.DictReader].
    [now] is the clock date; [file] holds the rows [csv.reader] makes
    of the text ([Csv.reader_rows] below), the first of which names the
    columns; it is [None] when there is no such file. *)
Definition get_sun_info (now : date) (file : option sun_file) : list sun_report * sun_info :=
  let current_date := strftime_md now in
  match file with
  | None => ([SunFileNotFound], default_sun_info)
  | Some [] => ([NoSunData current_date], default_sun_info)
  | Some (fieldnames :: rows) =>
      match find_sun_row fieldnames rows current_date with
      | Return (Some info) => ([], info)
      | Return None => ([NoSunData current_date], default_sun_info)
      | Raise e => ([SunReadError e], default_sun_info)
      end
  end.

(** ** Text files *)

Definition LF : ascii := ascii_of_nat 10.
Definition CR : ascii := ascii_of_nat 13.

(** A file opened with [open(path, 'r')] is read with universal
    newlines: a carriage return, together with the line feed after it
    if there is one, arrives as one line feed.  The bytes are taken to
    decode; a character is a code point below 256. *)
Fixpoint universal_newlines (text : string) : string :=
  match text with
  | EmptyString => EmptyString
  | String c rest =>
      if Ascii.eqb c CR then
        String LF
          match rest with
          | String c' rest' =>
              if Ascii.eqb c' LF then universal_newlines rest' else universal_newlines rest
          | EmptyString => EmptyString
          end
      else String c (universal_newlines rest)
  end.

(** Iterating over the file: its lines, each with its line feed; the
    last one may lack it. *)
Fixpoint lines (text : string) : list string :=
  match text with
  | EmptyString => []
  | String c rest =>
      if Ascii.eqb c LF then String c EmptyString :: lines rest
      else
        match lines rest with
        | [] => [String c EmptyString]
        | line :: more => String c line :: more
        end
  end.

(** [s.strip(chars)] *)
Fixpoint lstrip (chars : list ascii) (s : string) : string :=
  match s with
  | String a t => if existsb (Ascii.eqb a) chars then lstrip chars t else s
  | EmptyString => EmptyString
  end.

Fixpoint rstrip (chars : list ascii) (s : string) : string :=
  match s with
  | EmptyString => EmptyString
  | String a t =>
      match rstrip chars t with
      | EmptyString => if existsb (Ascii.eqb a) chars then EmptyString else String a EmptyString
      | t' => String a t'
      end
  end.

Definition strip (chars : list ascii) (s : string) : string := rstrip chars (lstrip chars s).

(** The characters [s.strip()] removes, among the code points below
    256. *)
Definition whitespace : list ascii :=
  ascii_of_nat <$> [9; 10; 11; 12; 13; 28; 29; 30; 31; 32; 133; 160]%nat.

(** [s.split(sep)] for a separator of one character. *)
Fixpoint split (sep : ascii) (s : string) : list string :=
  match s with
  | EmptyString => [EmptyString]
  | String c rest =>
      if Ascii.eqb c sep then EmptyString :: split sep rest
      else
        match split sep rest with
        | [] => [String c EmptyString]
        | first :: more => String c first :: more
        end
  end.

(** ** [csv.reader]

    The reader of the [csv] module with the dialect it has by default:
    the delimiter is the comma and the quote character the double
    quote, a doubled quote inside quotes stands for one, there is no
    escape character, initial spaces are kept, and the reader is not
    strict.  After [parse_process_char] and [Reader_iternext] of
    CPython 3.11 ([Modules/_csv.c]). *)
Module Csv.

Inductive parser_state : Type :=
  | START_RECORD
  | START_FIELD
  | IN_FIELD
  | IN_QUOTED_FIELD
  | QUOTE_IN_QUOTED_FIELD
  | EAT_CRNL.

(** The fields of the record so far and the characters of the field
    being read. *)
Record reader : Type := Reader {
  state : parser_state;
  fields : list string;
  field : string
}.

Definition delimiter : ascii := ascii_of_nat 44.
Definition quotechar : ascii := ascii_of_nat 34.
Definition field_limit : Z := 131072.

Definition parse_reset : reader := Reader START_RECORD [] EmptyString.

Definition parse_save_field (r : reader) : reader :=
  Reader (state r) (fields r ++ [field r]) EmptyString.

Definition parse_add_char (c : ascii) (r : reader) : outcome reader :=
  if (field_limit <=? Z.of_nat (String.length (field r)))%Z then Raise "Error"
  else Return (Reader (state r) (fields r) (field r ++ String c EmptyString)).

Definition goto (s : parser_state) (r : reader) : reader := Reader s (fields r) (field r).

Definition add_char_goto (s : parser_state) (c : ascii) (r : reader) : outcome reader :=
  match parse_add_char c r with
  | Return r' => Return (goto s r')
  | Raise e => Raise e
  end.

Definition is_newline (c : ascii) : bool := Ascii.eqb c LF || Ascii.eqb c CR.

(** One character of a line, or the end of the line, [None]. *)
Definition parse_process_char (c : option ascii) (r : reader) : outcome reader :=
  let start_field (r : reader) :=
    match c with
    | None => Return (goto START_RECORD (parse_save_field r))
    | Some ch =>
        if is_newline ch then Return (goto EAT_CRNL (parse_save_field r))
        else if Ascii.eqb ch quotechar then Return (goto IN_QUOTED_FIELD r)
        else if Ascii.eqb ch delimiter then Return (parse_save_field r)
        else add_char_goto IN_FIELD ch r
    end in
  match state r with
  | START_RECORD =>
      match c with
      | None => Return r
      | Some ch =>
          if is_newline ch then Return (goto EAT_CRNL r)
          else start_field (goto START_FIELD r)
      end
  | START_FIELD => start_field r
  | IN_FIELD =>
      match c with
      | None => Return (goto START_RECORD (parse_save_field r))
      | Some ch =>
          if is_newline ch then Return (goto EAT_CRNL (parse_save_field r))
          else if Ascii.eqb ch delimiter then Return (goto START_FIELD (parse_save_field r))
          else parse_add_char ch r
      end
  | IN_QUOTED_FIELD =>
      match c with
      | None => Return r
      | Some ch =>
          if Ascii.eqb ch quotechar then Return (goto QUOTE_IN_QUOTED_FIELD r)
          else parse_add_char ch r
      end
  | QUOTE_IN_QUOTED_FIELD =>
      match c with
      | None => Return (goto START_RECORD (parse_save_field r))
      | Some ch =>
          if Ascii.eqb ch quotechar then add_char_goto IN_QUOTED_FIELD ch r
          else if Ascii.eqb ch delimiter then Return (goto START_FIELD (parse_save_field r))
          else if is_newline ch then Return (goto EAT_CRNL (parse_save_field r))
          else add_char_goto IN_FIELD ch r
      end
  | EAT_CRNL =>
      match c with
      | None => Return (goto START_RECORD r)
      | Some ch => if is_newline ch then Return r else Raise "Error"
      end
  end.

(** The characters of a line and then its end. *)
Fixpoint process_line (line : string) (r : reader) : outcome reader :=
  match line with
  | EmptyString => parse_process_char None r
  | String c rest =>
      match parse_process_char (Some c) r with
      | Return r' => process_line rest r'
      | Raise e => Raise e
      end
  end.

(** The rows the reader yields, one for each call of [next], and the
    exception that ends the iteration if one does.  A record goes on
    over the following lines while the parser is inside quotes; when
    the lines run out there, what was read is the last row. *)
Fixpoint rows_from (r : reader) (input : list string) : list (list string) * option string :=
  match input with
  | [] =>
      match field r, state r with
      | String _ _, _ | EmptyString, IN_QUOTED_FIELD => ([fields (parse_save_field r)], None)
      | EmptyString, _ => ([], None)
      end
  | line :: rest =>
      match process_line line r with
      | Raise e => ([], Some e)
      | Return r' =>
          match state r' with
          | START_RECORD =>
              let '(rows, e) := rows_from parse_reset rest in (fields r' :: rows, e)
          | _ => rows_from r' rest
          end
      end
  end.

Definition reader_rows (input : list string) : list (list string) * option string :=
  rows_from parse_reset input.

End Csv.

(** [get_sun_info] on the text of the file: the rows are those of
    [csv.reader] over the lines; an exception of the reader is met
    only when the loop gets that far. *)
Definition get_sun_info_text (now : date) (file : option string)
    : list sun_report * sun_info :=
  match file with
  | None => get_sun_info now None
  | Some text =>
      let '(rows, error) := Csv.reader_rows (lines (universal_newlines text)) in
      match error with
      | None => get_sun_info now (Some rows)
      | Some e =>
          match get_sun_info now (Some rows) with
          | ([NoSunData _], _) => ([SunReadError e], default_sun_info)
          | result => result
          end
      end
  end.

(** [awos.py] reads the file by hand: it drops the first line and
    unpacks every other line into three fields. *)
Module LegacySun.

Fixpoint find_sun_line (lines : sun_file) (current_date : string)
    : outcome (option sun_info) :=
  match lines with
  | [] => Return None
  | [date; sunrise; sunset] :: rest =>
      if String.eqb date current_date then Return (Some (Some sunrise, Some sunset))
      else find_sun_line rest current_date
  | _ :: _ => Raise "ValueError"
  end.

(** The loop over the lines.  [file] holds for each line what this
    variant makes of it, [line.strip().split(',')], which is not in
    general the row [csv.reader] makes of the line. *)
Definition get_sun_info (now : date) (file : option sun_file) : list sun_report * sun_info :=
  let current_date := strftime_md now in
  match file with
  | None => ([SunReadError "FileNotFoundError"], default_sun_info)
  | Some [] => ([SunReadError "StopIteration"], default_sun_info)
  | Some (_ :: lines) =>
      match find_sun_line lines current_date with
      | Return (Some info) => ([], info)
      | Return None => ([], default_sun_info)
      | Raise e => ([SunReadError e], default_sun_info)
      end
  end.

(** [get_sun_info] on the text of the file. *)
Definition get_sun_info_text (now : date) (file : option string)
    : list sun_report * sun_info :=
  get_sun_info now
    ((fun text =>
        (fun line => split Csv.delimiter (strip whitespace line))
          <$> lines (universal_newlines text)) <$> file).

End LegacySun.

(** A printable ASCII character other than the space, the comma and
    the double quote. *)
Definition plain_char (c : ascii) : bool :=
  let n := N_of_ascii c in
  ((33 <=? n) && (n <=? 126) && negb (n =? 44) && negb (n =? 34))%N.

(** A field of such characters that the reader's limit admits. *)
Definition plain_field (f : string) : bool :=
  forallb plain_char (list_ascii_of_string f)
  && (Z.of_nat (String.length f) <=? Csv.field_limit)%Z.

(** The line [csv.writer] writes for fields that need no quotes: the
    fields with commas between them, then a carriage return and a line
    feed. *)
Definition sun_line (fields : list string) : string :=
  (String.concat "," fields ++ String CR (String LF EmptyString))%string.

(** The text of a file of such lines. *)
Definition sun_text (rows : sun_file) : string :=
  foldr (fun fields rest => (sun_line fields ++ rest)%string) EmptyString rows.

(** The line as it is read, its end translated to a line feed. *)
Definition read_line (fields : list string) : string :=
  (String.concat "," fields ++ String LF EmptyString)%string.

(** The characters of such a line before its end: those of plain
    fields, and commas. *)
Definition line_char (c : ascii) : Prop := plain_char c = true \/ c = Csv.delimiter.

(** A row of three plain fields. *)
Definition plain_row (r : list string) : Prop :=
  length r = 3%nat /\ forallb plain_field r = true.

(** [s] between double quotes. *)
Definition quoted (s : string) : string :=
  String Csv.quotechar (s ++ String Csv.quotechar EmptyString).

(** ** Window placement ([display_manager.py]) *)

Module DisplayManager.

(** A monitor as [screeninfo] reports it. *)
Record monitor : Type := Monitor { x : Z; y : Z; width : Z; height : Z }.

(** The numbers of the geometry string
    [f"{window_width}x{window_height}+{x}+{y}"], and whether the window
    is made a dock without decorations. *)
Record geometry : Type := Geometry {
  window_width : Z; window_height : Z; window_x : Z; window_y : Z; dock : bool
}.

Definition setup_single_display (display : monitor) : geometry :=
  let window_width := Z.min 256 (width display) in
  let window_height := Z.min 192 (height display) in
  let x := (x display + (width display - window_width) / 2)%Z in
  let y := (y display + (height display - window_height) / 2)%Z in
  Geometry window_width window_height x y false.

(** [sorted(l, key=key)]: the sort is stable. *)
Fixpoint insert_by {A} (key : A -> Z) (a : A) (l : list A) : list A :=
  match l with
  | [] => [a]
  | b :: rest => if (key a <=? key b)%Z then a :: l else b :: insert_by key a rest
  end.

Definition sorted {A} (l : list A) (key : A -> Z) : list A :=
  foldr (insert_by key) [] l.

Definition setup_dual_display (monitors : list monitor) : outcome geometry :=
  match sorted monitors (fun m => (width m * height m)%Z) with
  | p5_display :: _ => Return (Geometry 256 192 (x p5_display) (y p5_display) true)
  | [] => Raise "IndexError"
  end.

Definition setup_display (monitors : list monitor) : outcome geometry :=
  match monitors with
  | [] => Raise "RuntimeError"
  | [display] => Return (setup_single_display display)
  | _ => setup_dual_display monitors
  end.

End DisplayManager.

(** ** Configuration ([load_config]) *)

Inductive cfg_value : Type :=
  | CInt (n : Z)
  | CFloat (v : Q)
  | CStr (s : string).

(** Whether two settings are of one type. *)
Definition same_type (a b : cfg_value) : bool :=
  match a, b with
  | CInt _, CInt _ | CFloat _, CFloat _ | CStr _, CStr _ => true
  | _, _ => false
  end.

Abbreviation config := (gmap string (gmap string cfg_value)).

Definition default_config : config :=
  list_to_map
    [ ("modbus",
       (list_to_map
          [ ("port", CStr "/dev/ttyUSB0"); ("baudrate", CInt 9600); ("parity", CStr "N");
            ("stopbits", CInt 1); ("timeout", CInt 2); ("retries", CInt 3) ]
        : gmap string cfg_value));
      ("sensors",
       list_to_map
         [ ("environment", CInt 1); ("uv", CInt 2); ("aqi", CInt 3); ("wind_speed", CInt 4);
           ("wind_direction", CInt 5); ("rainfall", CInt 6) ]);
      ("logging",
       list_to_map
         [ ("log_file", CStr "weather_station.log"); ("max_log_entries", CInt 1000);
           ("csv_file", CStr "weather_data.csv"); ("csv_interval", CInt 30);
           ("log_rotate_size", CInt 1000000); ("log_backup_count", CInt 5) ]);
      ("gui",
       list_to_map
         [ ("update_interval", CInt 1000); ("background_image", CStr "final_blank.png");
           ("font", CStr "Digital-7"); ("rain_reset_threshold", CFloat 0.1);
           ("rain_reset_time", CInt 12) ]);
      ("location",
       list_to_map
         [ ("sun_data_file", CStr "karachi_sun_data.csv"); ("default_sunrise", CStr "06:00");
           ("default_sunset", CStr "18:00") ]) ].

(** The file [weather_station.ini] as [load_config] meets it.
    - [IniAbsent]: [os.path.exists] answers no.
    - [IniUnreadable]: the file is there and cannot be opened;
      [ConfigParser.read] passes over such a file in silence and the
      parser is left without sections.
    - [IniMalformed]: [ConfigParser.read] raises on the contents (a
      line outside every section, a section or a key given twice).
    - [IniSections]: the parser holds the sections, each with the keys
      and the raw values [config[section]] shows. *)
Inductive ini_file : Type :=
  | IniAbsent
  | IniUnreadable
  | IniMalformed
  | IniSections (sections : list (string * list (string * string))).

(** The two quote characters of the [strip] call. *)
Definition quote_chars : list ascii := [ascii_of_nat 34; ascii_of_nat 39].

Section LoadConfig.

(** Python's [int(s)] and [float(s)] on a string; [None] is for
    [ValueError]. *)
Variables (py_int : string -> option Z) (py_float : string -> option Q).

(** The body of the two loops, for one key of one section. *)
Definition set_option (section key raw : string) (cfg : config) : outcome config :=
  match cfg !! section with
  | None => Return cfg
  | Some settings =>
      match settings !! key with
      | None => Return cfg
      | Some old =>
          let value := strip quote_chars raw in
          let store (v : cfg_value) := Return (<[section := <[key := v]> settings]> cfg) in
          match old with
          | CInt _ =>
              match py_int value with
              | Some n => store (CInt n)
              | None => Raise "ValueError"
              end
          | CFloat _ =>
              match py_float value with
              | Some v => store (CFloat v)
              | None => Raise "ValueError"
              end
          | CStr _ => store (CStr value)
          end
      end
  end.

Fixpoint read_keys (section : string) (keys : list (string * string)) (cfg : config)
    : outcome config :=
  match keys with
  | [] => Return cfg
  | (key, raw) :: rest =>
      match set_option section key raw cfg with
      | Return cfg' => read_keys section rest cfg'
      | Raise e => Raise e
      end
  end.

Fixpoint read_sections (sections : list (string * list (string * string))) (cfg : config)
    : outcome config :=
  match sections with
  | [] => Return cfg
  | (section, keys) :: rest =>
      match read_keys section keys cfg with
      | Return cfg' => read_sections rest cfg'
      | Raise e => Raise e
      end
  end.

(** [load_config] is the first call of [__init__]; [setup_logging],
    which makes [self.logger], runs after it.  The handler of
    [load_config] calls [self.log], that is
    [self.logger.log(level, message)], and so raises itself for want of
    the attribute.  A file that cannot be opened does not reach the
    handler: the parser has no sections and the loops do nothing. *)
Definition load_config (ini : ini_file) : outcome config :=
  match ini with
  | IniAbsent => Return default_config
  | IniUnreadable => read_sections [] default_config
  | IniMalformed => Raise "AttributeError"
  | IniSections sections =>
      match read_sections sections default_config with
      | Return cfg => Return cfg
      | Raise _ => Raise "AttributeError"
      end
  end.

End LoadConfig.

(** ** The two loops side by side

    The acquisition loop and the writer run as two threads over the
    same queue; a schedule lists whose turn it is. *)
Inductive turn : Type :=
  | Acquire (i : cycle_input)
  | Persist (today : date).

Definition take_turn (rs : list (string * reader)) (csv_interval : Q)
    (s : station) (t : turn) : station :=
  match t with
  | Acquire i => sensor_reader_cycle_with rs csv_interval i s
  | Persist today => csv_writer_iteration today s
  end.

Definition run_turns (rs : list (string * reader)) (csv_interval : Q)
    (schedule : list turn) (s : station) : station :=
  foldl (take_turn rs csv_interval) s schedule.

(** Every reference on the queue points at a dictionary that holds its
    timestamp. *)
Definition queue_ok (s : station) : Prop :=
  Forall (fun l => exists data ts, heap s !! l = Some data /\ data !! "timestamp" = Some ts)
    (data_queue s).

(** The row the writer makes of the dictionary at a location. *)
Definition snapshot_row (h : gmap loc dict) (l : loc) : option row :=
  data ← h !! l; ts ← data !! "timestamp"; Some (csv_row ts data).

(** The line a cycle logs for a reader's return value: none for
    [None]. *)
Definition sensor_line (sensor_name : string) (data : option dict) : list log_entry :=
  match data with
  | Some d => [LogSensor sensor_name d]
  | None => []
  end.

(** The days of a year, in order. *)
Definition year_days (y : Z) : list date :=
  m ← seqZ 1 12; (fun d => Date y m d) <$> seqZ 1 (days_in_month y m).

(** The month and day numbers a date can have. *)
Definition month_days : list (Z * Z) := m ← seqZ 1 12; (fun d => (m, d)) <$> seqZ 1 31.

(** [cfg[section][key]], when it is there. *)
Definition setting (cfg : config) (section key : string) : option cfg_value :=
  cfg !! section ≫= (.!! key).

(** Two configurations with the same settings, each of the same type
    in both. *)
Definition same_shape (a b : config) : Prop :=
  forall section key,
    match setting a section key, setting b section key with
    | Some v, Some v' => same_type v v' = true
    | None, None => True
    | _, _ => False
    end.

(** * Properties *)

(** ** Numeric helpers *)

Lemma between_spec lo x hi : between lo x hi = true <-> (lo <= x /\ x <= hi)%Q.
Proof. unfold between. rewrite andb_true_iff, !Qle_bool_iff. tauto. Qed.

Lemma Qle_bool_false x y : Qle_bool x y = false <-> (y < x)%Q.
Proof.
  split; intros H.
  - apply Qnot_le_lt. intros Hle. apply Qle_bool_iff in Hle. congruence.
  - destruct (Qle_bool x y) eqn:E; [|done]. apply Qle_bool_iff in E. lra.
Qed.

Lemma between_false lo x hi : between lo x hi = false <-> (x < lo \/ hi < x)%Q.
Proof.
  unfold between. rewrite andb_false_iff, !Qle_bool_false. tauto.
Qed.

(** [round] does not depend on how the rational is written. *)
Lemma py_round_comp x y : (x == y)%Q -> py_round x = py_round y.
Proof.
  intros H. unfold py_round.
  assert (Hf : Qfloor x = Qfloor y) by (by apply Qfloor_comp).
  rewrite Hf.
  assert (Hc : (x - inject_Z (Qfloor y) ?= 1 # 2)%Q = (y - inject_Z (Qfloor y) ?= 1 # 2)%Q).
  { apply Qcompare_comp; [by rewrite H | reflexivity]. }
  by rewrite Hc.
Qed.

(** [round] returns a nearest integer. *)
Lemma py_round_nearest q : (Qabs (inject_Z (py_round q) - q) <= 1 # 2)%Q.
Proof.
  unfold py_round.
  pose proof (Qfloor_le q) as Hlo. pose proof (Qlt_floor q) as Hhi.
  rewrite inject_Z_plus in Hhi. change (inject_Z 1) with 1%Q in Hhi.
  apply Qabs_Qle_condition.
  destruct (q - inject_Z (Qfloor q) ?= 1 # 2)%Q eqn:E.
  - apply Qeq_alt in E.
    destruct (Z.even (Qfloor q)); rewrite ?inject_Z_plus;
      change (inject_Z 1) with 1%Q; split; lra.
  - apply Qlt_alt in E. split; lra.
  - apply Qgt_alt in E. rewrite inject_Z_plus. change (inject_Z 1) with 1%Q. split; lra.
Qed.

(** [round] of an integer is that integer. *)
Lemma py_round_inject_Z z : py_round (inject_Z z) = z.
Proof.
  unfold py_round. rewrite Qfloor_Z.
  assert (E : (inject_Z z - inject_Z z ?= 1 # 2)%Q = Lt) by (apply (proj1 (Qlt_alt _ _)); lra).
  by rewrite E.
Qed.

(** ** Classification bands *)

(** Decide every band test of a goal, leaving the arithmetic to [lra]. *)
Ltac band_cases :=
  repeat match goal with
    | |- context [between ?a ?x ?b] =>
        let E := fresh "E" in
        destruct (between a x b) eqn:E;
        [apply between_spec in E | apply between_false in E]
    | |- context [Qle_bool ?a ?b] =>
        let E := fresh "E" in
        destruct (Qle_bool a b) eqn:E;
        [apply Qle_bool_iff in E | apply Qle_bool_false in E]
    end.

(** C10: each classification function returns one of its band labels
    on every number, and on every negative number it returns the
    highest band: EXTREME for UV, HAZARDOUS for AQI, VERY HIGH for
    humidity. *)
Theorem C10_negative_input_highest_band (x : Q) :
  ((get_uv_state (Some x)).1 ∈ uv_labels
   /\ (get_aqi_state (Some x)).1 ∈ aqi_labels
   /\ (get_humidity_state (Some x)).1 ∈ humidity_labels)
  /\ ((x < 0)%Q ->
      get_uv_state (Some x) = ("EXTREME", "#8F3F97")
      /\ get_aqi_state (Some x) = ("HAZARDOUS", "#7E0023")
      /\ get_humidity_state (Some x) = ("VERY HIGH", "#FF0000")).
Proof.
  split.
  - unfold get_uv_state, get_aqi_state, get_humidity_state,
      uv_labels, aqi_labels, humidity_labels.
    repeat split; band_cases; cbn [fst]; apply list_elem_of_In; cbn; tauto.
  - intros Hneg. unfold get_uv_state, get_aqi_state, get_humidity_state.
    repeat split; band_cases; try reflexivity; lra.
Qed.

Lemma C10_negative_input_witness :
  (-1 < 0)%Q
  /\ get_uv_state (Some (-1)%Q) = ("EXTREME", "#8F3F97")
  /\ get_aqi_state (Some (-1)%Q) = ("HAZARDOUS", "#7E0023")
  /\ get_humidity_state (Some (-1)%Q) = ("VERY HIGH", "#FF0000").
Proof.
  assert (H : (-1 < 0)%Q) by reflexivity.
  split; [exact H | exact (proj2 (C10_negative_input_highest_band (-1)) H)].
Defined.

(** ** AQI *)

(** C3: on every PM2.5 value inside one of the five EPA bands
    [calculate_aqi] returns the band formula
    [low_aqi + (v - low_conc) / (high_conc - low_conc) * (high_aqi - low_aqi)];
    above 250.4 it returns the formula of the 250.5-500.4 band; it
    returns 50 at 12.0 and 51 at 12.1; and it returns [None] on [None]. *)
Theorem C3_calculate_aqi_band_formula :
  (forall b v, In b epa_bands -> in_band b v ->
     exists r, calculate_aqi (Some v) = Some r /\ (r == band_formula b v)%Q)
  /\ (forall v, (250.4 < v)%Q ->
     exists r, calculate_aqi (Some v) = Some r /\ (r == band_formula extrapolation_band v)%Q)
  /\ (exists r, calculate_aqi (Some 12.0%Q) = Some r /\ (r == 50)%Q)
  /\ (exists r, calculate_aqi (Some 12.1%Q) = Some r /\ (r == 51)%Q)
  /\ calculate_aqi None = None.
Proof.
  split; [|split; [|split; [|split]]].
  - intros b v Hb [Hlo Hhi]. eexists. split; [reflexivity|].
    cbn in Hb.
    destruct Hb as [<-|[<-|[<-|[<-|[<-|[]]]]]];
      cbn in Hlo, Hhi; unfold band_formula; cbn [low_conc high_conc low_aqi high_aqi];
      band_cases; try lra; field.
  - intros v Hv. eexists. split; [reflexivity|].
    unfold band_formula, extrapolation_band; cbn [low_conc high_conc low_aqi high_aqi].
    band_cases; try lra; field.
  - eexists. split; [reflexivity|]. reflexivity.
  - eexists. split; [reflexivity|]. reflexivity.
  - reflexivity.
Qed.

(** On binary64 floats the band boundaries give the band ends
    exactly. *)
Lemma calculate_aqi_boundaries_binary64 :
  List.map Binary64.calculate_aqi Binary64.boundaries = Binary64.boundary_aqi.
Proof. reflexivity. Qed.

Lemma C3_calculate_aqi_witness :
  exists r, calculate_aqi (Some 20%Q) = Some r
            /\ (r == band_formula (Band 12.1 35.4 51 100) 20)%Q.
Proof.
  apply (proj1 C3_calculate_aqi_band_formula (Band 12.1 35.4 51 100) 20%Q).
  - right; left; reflexivity.
  - split; cbn; lra.
Defined.

(** ** Cardinal direction *)

Lemma directions_sector : (360 / inject_Z (Z.of_nat (length directions)) == 22.5)%Q.
Proof. reflexivity. Qed.

Lemma cardinal_index_in_range (q : Q) :
  (Z.to_nat (py_round q mod Z.of_nat (length directions)) < length directions)%nat.
Proof.
  change (length directions) with 16%nat.
  pose proof (Z.mod_pos_bound (py_round q) (Z.of_nat 16)). lia.
Qed.

Lemma degrees_to_cardinal_in_range (d : Q) :
  (0 <= d)%Q -> (d <= 360)%Q ->
  directions !! Z.to_nat (py_round (d / 22.5) mod 16) = Some (_degrees_to_cardinal (Some d)).
Proof.
  intros H0 H1. unfold _degrees_to_cardinal.
  assert (E : between 0 d 360 = true) by (by apply between_spec).
  rewrite E. cbn [negb].
  assert (Ei : py_round (d / (360 / inject_Z (Z.of_nat (length directions))))
               = py_round (d / 22.5)).
  { apply py_round_comp. by rewrite directions_sector. }
  rewrite Ei. change (Z.of_nat (length directions)) with 16%Z.
  rewrite nth_lookup.
  destruct (lookup_lt_is_Some_2 directions (Z.to_nat (py_round (d / 22.5) mod 16)))
    as [s Hs].
  { pose proof (cardinal_index_in_range (d / 22.5)) as Hr.
    change (Z.of_nat (length directions)) with 16%Z in Hr. exact Hr. }
  by rewrite Hs.
Qed.

Lemma degrees_to_cardinal_out_of_range (d : Q) :
  (d < 0 \/ 360 < d)%Q -> _degrees_to_cardinal (Some d) = "Unknown".
Proof.
  intros H. unfold _degrees_to_cardinal.
  assert (E : between 0 d 360 = false) by (by apply between_false).
  by rewrite E.
Qed.

(** C6: a degrees value in [0, 360] is mapped to the compass label at
    index [round(d / 22.5) mod 16] of the 16-point table, whose index 0
    is N; [None] and every value outside [0, 360] are mapped to
    Unknown; in particular 0 gives N, 180 gives S, 361 and -1 give
    Unknown. *)
Theorem C6_degrees_to_cardinal (d : Q) :
  ((0 <= d /\ d <= 360)%Q ->
     (0 <= py_round (d / 22.5) mod 16 < 16)%Z
     /\ directions !! Z.to_nat (py_round (d / 22.5) mod 16)
        = Some (_degrees_to_cardinal (Some d)))
  /\ ((d < 0 \/ 360 < d)%Q -> _degrees_to_cardinal (Some d) = "Unknown")
  /\ _degrees_to_cardinal None = "Unknown"
  /\ length directions = 16%nat
  /\ directions !! 0%nat = Some "N"
  /\ _degrees_to_cardinal (Some 0%Q) = "N"
  /\ _degrees_to_cardinal (Some 180%Q) = "S"
  /\ _degrees_to_cardinal (Some 361%Q) = "Unknown"
  /\ _degrees_to_cardinal (Some (-1)%Q) = "Unknown".
Proof.
  split; [|split].
  - intros [H0 H1]. split.
    + apply Z.mod_pos_bound. lia.
    + by apply degrees_to_cardinal_in_range.
  - apply degrees_to_cardinal_out_of_range.
  - repeat split; reflexivity.
Qed.

Lemma C6_degrees_to_cardinal_witness :
  directions !! Z.to_nat (py_round (90 / 22.5) mod 16) = Some (_degrees_to_cardinal (Some 90%Q))
  /\ _degrees_to_cardinal (Some 400%Q) = "Unknown".
Proof.
  split.
  - apply (proj1 (C6_degrees_to_cardinal 90)). split; [apply Qle_bool_iff | apply Qle_bool_iff];
      reflexivity.
  - apply (proj1 (proj2 (C6_degrees_to_cardinal 400))). right. reflexivity.
Defined.

(** ** Wind direction reader *)

Lemma wind_avg_scaled (reg_0 reg_2 : Z) :
  (inject_Z (reg_0 + reg_2) / 2.0 / 10.0 == (inject_Z reg_0 + inject_Z reg_2) / 2 / 10)%Q.
Proof. rewrite inject_Z_plus. field. Qed.

(** C7: when the register read succeeds, the degrees value is the
    average of register 0 and register 2, divided by 10 and rounded to
    a nearest integer; it is reported (with its cardinal label) when it
    lies in [0, 360], and otherwise the reader returns [None]: nothing
    is clamped. *)
Theorem C7_read_wind_direction (registers : list Z) (reg_0 reg_2 : Z) :
  registers !! 0%nat = Some reg_0 ->
  registers !! 2%nat = Some reg_2 ->
  let degrees := py_round ((inject_Z reg_0 + inject_Z reg_2) / 2 / 10) in
  (Qabs (inject_Z degrees - (inject_Z reg_0 + inject_Z reg_2) / 2 / 10) <= 1 # 2)%Q
  /\ ((0 <= degrees <= 360)%Z ->
      exists data,
        (read_wind_direction (Registers registers)).2 = Some data
        /\ data !! "wind_dir_degrees" = Some (VInt degrees)
        /\ data !! "wind_dir_cardinal"
           = Some (VStr (_degrees_to_cardinal (Some (inject_Z degrees)))))
  /\ (~ (0 <= degrees <= 360)%Z ->
      (read_wind_direction (Registers registers)).2 = None).
Proof.
  intros H0 H2 degrees. split; [apply py_round_nearest|].
  unfold read_wind_direction. rewrite H0, H2.
  rewrite (py_round_comp _ _ (wind_avg_scaled reg_0 reg_2)). fold degrees.
  split; intros Hr.
  - assert (E : ((0 <=? degrees) && (degrees <=? 360))%Z = true).
    { apply andb_true_iff. split; apply Z.leb_le; lia. }
    rewrite E. eexists. split; [reflexivity|]. split; reflexivity.
  - assert (E : ((0 <=? degrees) && (degrees <=? 360))%Z = false).
    { apply andb_false_iff.
      destruct (Z.leb_spec 0 degrees); [|by left].
      destruct (Z.leb_spec degrees 360); [lia | by right]. }
    by rewrite E.
Qed.

Lemma C7_read_wind_direction_witness :
  exists data,
    (read_wind_direction (Registers [900; 0; 905]%Z)).2 = Some data
    /\ data !! "wind_dir_degrees" = Some (VInt 90)
    /\ data !! "wind_dir_cardinal" = Some (VStr "E").
Proof.
  apply (proj1 (proj2 (C7_read_wind_direction [900; 0; 905]%Z 900 905 eq_refl eq_refl))).
  vm_compute. split; discriminate.
Defined.

(** ** Rainfall accumulator *)

Lemma process_rainfall_same_day (now : date) (w : rain_world) (total current_rain : Q) :
  last_rain_reset_day (rain w) = Some (day now) ->
  daily_rain_total (rain w) = Some total ->
  process_rainfall now (Some current_rain) w =
    (RainWorld
       (RainState (Some (day now))
          (Some (spec_same_day_step (total, last_rain_value (rain w)) current_rain).1)
          (spec_same_day_step (total, last_rain_value (rain w)) current_rain).2)
       (totals_file w)
       (rain_log w ++ if Qle_bool 0 (current_rain - last_rain_value (rain w)) then []
                      else [LogInfo "Rain sensor reset or error"]),
     Return (Some (spec_same_day_step (total, last_rain_value (rain w)) current_rain).1)).
Proof.
  intros Hd Ht. unfold process_rainfall, spec_same_day_step.
  rewrite Hd, Z.eqb_refl. cbn [negb]. rewrite Ht, Hd.
  destruct (Qle_bool 0 (current_rain - last_rain_value (rain w))); [|reflexivity].
  by rewrite app_nil_r.
Qed.

(** The first reading of a day: the pending total, if there is one, is
    stored under the date the clock shows, and the accumulator restarts
    from the current reading. *)
Lemma process_rainfall_new_day (now : date) (w : rain_world) (current_rain : Q) :
  last_rain_reset_day (rain w) <> Some (day now) ->
  process_rainfall now (Some current_rain) w =
    (RainWorld
       (RainState (Some (day now)) (Some (0 + (current_rain - current_rain))%Q) current_rain)
       (match daily_rain_total (rain w) with
        | Some total => store_daily_rainfall now total (totals_file w)
        | None => totals_file w
        end)
       (match daily_rain_total (rain w) with
        | Some _ => rain_log w ++ [LogInfo "Rainfall reset at midnight"]
        | None => rain_log w
        end),
     Return (Some (0 + (current_rain - current_rain))%Q)).
Proof.
  intros Hd. unfold process_rainfall.
  assert (E : match last_rain_reset_day (rain w) with
              | Some d => negb (day now =? d)%Z
              | None => true
              end = true).
  { destruct (last_rain_reset_day (rain w)) as [d|]; [|done].
    destruct (Z.eqb_spec (day now) d); [congruence | done]. }
  rewrite E.
  assert (Hinc : Qle_bool 0 (current_rain - current_rain) = true)
    by (apply Qle_bool_iff; lra).
  destruct (daily_rain_total (rain w)) as [total|]; cbn; by rewrite Hinc.
Qed.

(** Whatever the day, a reading is answered with the running total of
    the state the call leaves behind. *)
Lemma process_rainfall_returns_total (now : date) (w : rain_world) (current_rain : Q) :
  rain_wf (rain w) ->
  (process_rainfall now (Some current_rain) w).2
  = Return (daily_rain_total (rain (process_rainfall now (Some current_rain) w).1))
  /\ is_Some (daily_rain_total (rain (process_rainfall now (Some current_rain) w).1))
  /\ rain_wf (rain (process_rainfall now (Some current_rain) w).1).
Proof.
  intros Hwf.
  destruct (decide (last_rain_reset_day (rain w) = Some (day now))) as [Hd|Hd].
  - destruct (Hwf (mk_is_Some _ _ Hd)) as [total Ht].
    rewrite (process_rainfall_same_day now w total current_rain Hd Ht). cbn.
    split; [done|]. split; [by eexists|]. intros _. by eexists.
  - rewrite (process_rainfall_new_day now w current_rain Hd). cbn.
    split; [done|]. split; [by eexists|]. intros _. by eexists.
Qed.

(** A run of same-day readings is the specification step folded over
    them; nothing is written to the totals file. *)
Lemma process_readings_same_day (now : date) (readings : list Q) :
  forall (w : rain_world) (total : Q),
    last_rain_reset_day (rain w) = Some (day now) ->
    daily_rain_total (rain w) = Some total ->
    rain (process_readings now readings w).1
    = RainState (Some (day now))
        (Some (foldl spec_same_day_step (total, last_rain_value (rain w)) readings).1)
        (foldl spec_same_day_step (total, last_rain_value (rain w)) readings).2
    /\ totals_file (process_readings now readings w).1 = totals_file w
    /\ (process_readings now readings w).2
       = (fun t => Return (Some t))
           <$> spec_running_totals (total, last_rain_value (rain w)) readings.
Proof.
  induction readings as [|r rest IH]; intros w total Hd Ht.
  - cbn. destruct w as [[d t l] f lg]; cbn in *. by subst.
  - cbn [process_readings foldl spec_running_totals].
    rewrite (process_rainfall_same_day now w total r Hd Ht).
    set (st1 := spec_same_day_step (total, last_rain_value (rain w)) r).
    set (w1 := RainWorld _ _ _).
    specialize (IH w1 st1.1 eq_refl eq_refl).
    change (last_rain_value (rain w1)) with st1.2 in IH.
    rewrite <- surjective_pairing in IH.
    destruct (process_readings now rest w1) as [w2 outs].
    cbn [fst snd] in *. destruct IH as (-> & -> & ->). done.
Qed.

(** While the day number stays the same each reading moves the
    accumulator by [delta = currentRaw - lastRawValue]: a non-negative
    delta is added to the stored total, a negative one is discarded,
    and in both cases [lastRawValue] becomes the current reading; the
    value returned is the stored total.  The readings 10, 12, 15
    return 0, 2, 5, and a following 3 leaves the total at 5 with
    [lastRawValue] 3. *)
Lemma same_day_accumulation :
  (forall (now : date) (w : rain_world) (total current_rain : Q),
     last_rain_reset_day (rain w) = Some (day now) ->
     daily_rain_total (rain w) = Some total ->
     let delta := (current_rain - last_rain_value (rain w))%Q in
     let w' := (process_rainfall now (Some current_rain) w).1 in
     ((0 <= delta)%Q -> daily_rain_total (rain w') = Some (total + delta)%Q)
     /\ ((delta < 0)%Q -> daily_rain_total (rain w') = Some total)
     /\ last_rain_value (rain w') = current_rain
     /\ (process_rainfall now (Some current_rain) w).2 = Return (daily_rain_total (rain w'))
     /\ totals_file w' = totals_file w)
  /\ (forall (now : date) (readings : list Q) (w : rain_world) (total : Q),
     last_rain_reset_day (rain w) = Some (day now) ->
     daily_rain_total (rain w) = Some total ->
     let w' := (process_readings now readings w).1 in
     let st := foldl spec_same_day_step (total, last_rain_value (rain w)) readings in
     daily_rain_total (rain w') = Some st.1
     /\ last_rain_value (rain w') = st.2
     /\ (process_readings now readings w).2
        = (fun t => Return (Some t))
            <$> spec_running_totals (total, last_rain_value (rain w)) readings)
  /\ (forall (now : date) (w : rain_world) (current_rain : Q),
     rain_wf (rain w) ->
     (process_rainfall now (Some current_rain) w).2
     = Return (daily_rain_total (rain (process_rainfall now (Some current_rain) w).1))
     /\ is_Some (daily_rain_total (rain (process_rainfall now (Some current_rain) w).1)))
  /\ (forall now : date,
     let run := process_readings now [10; 12; 15]%Q (RainWorld init_rain_state None []) in
     run.2 = [Return (Some 0%Q); Return (Some 2%Q); Return (Some 5%Q)]
     /\ daily_rain_total (rain run.1) = Some 5%Q
     /\ last_rain_value (rain run.1) = 15%Q
     /\ totals_file run.1 = None
     /\ (process_rainfall now (Some 3%Q) run.1).2 = Return (Some 5%Q)
     /\ daily_rain_total (rain (process_rainfall now (Some 3%Q) run.1).1) = Some 5%Q
     /\ last_rain_value (rain (process_rainfall now (Some 3%Q) run.1).1) = 3%Q
     /\ totals_file (process_rainfall now (Some 3%Q) run.1).1 = None).
Proof.
  split; [|split; [|split]].
  - intros now w total r Hd Ht delta w'. subst delta w'.
    rewrite (process_rainfall_same_day now w total r Hd Ht).
    unfold spec_same_day_step.
    destruct (Qle_bool 0 (r - last_rain_value (rain w))) eqn:E; cbn.
    + apply Qle_bool_iff in E. repeat split; try done. intros; lra.
    + apply Qle_bool_false in E. repeat split; try done. intros; lra.
  - intros now readings w total Hd Ht w' st. subst w' st.
    destruct (process_readings_same_day now readings w total Hd Ht) as (Hr & _ & Ho).
    rewrite Hr. done.
  - intros now w r Hwf.
    pose proof (process_rainfall_returns_total now w r Hwf) as H. tauto.
  - intros now run. subst run.
    change (process_readings now [10; 12; 15]%Q (RainWorld init_rain_state None []))
      with (let '(w1, out) :=
              process_rainfall now (Some 10%Q) (RainWorld init_rain_state None []) in
            let '(w2, outs) := process_readings now [12; 15]%Q w1 in
            (w2, out :: outs)).
    rewrite (process_rainfall_new_day now (RainWorld init_rain_state None []) 10%Q)
      by discriminate.
    cbv beta iota zeta.
    set (w1 := RainWorld _ _ _).
    destruct (process_readings_same_day now [12; 15]%Q w1 (0 + (10 - 10))%Q
                eq_refl eq_refl) as (Hr & Hf & Ho).
    destruct (process_readings now [12; 15]%Q w1) as [w2 outs].
    cbn [fst snd] in *. subst outs.
    destruct w2 as [r2 f2 lg2]. cbn [rain totals_file] in *. subst r2 f2.
    match goal with
    | |- context [process_rainfall now (Some 3%Q) ?w] =>
        rewrite (process_rainfall_same_day now w _ 3%Q eq_refl eq_refl)
    end.
    vm_compute. repeat split.
Qed.

Lemma same_day_accumulation_example :
  let w := RainWorld (RainState (Some 15%Z) (Some 2%Q) 12%Q) None [] in
  let w' := (process_rainfall (Date 2024 3 15) (Some 15%Q) w).1 in
  daily_rain_total (rain w') = Some (2 + (15 - 12))%Q
  /\ last_rain_value (rain w') = 15%Q.
Proof.
  intros w w'.
  destruct (proj1 same_day_accumulation (Date 2024 3 15) w 2%Q 15%Q eq_refl eq_refl)
    as (Hadd & _ & Hlast & _).
  split; [apply Hadd; vm_compute; discriminate | exact Hlast].
Qed.

(** At a day boundary with a total pending, one row is appended to the
    totals file: the date the clock shows at that first reading, and
    the pending total. *)
Lemma process_rainfall_day_boundary (now : date) (w : rain_world) (d : Z)
    (total current_rain : Q) (rows : list row) :
  last_rain_reset_day (rain w) = Some d -> d <> day now ->
  daily_rain_total (rain w) = Some total ->
  totals_file w = Some rows ->
  totals_file (process_rainfall now (Some current_rain) w).1
  = Some (rows ++ [[VStr (strftime now); VStr (format_1f total)]]).
Proof.
  intros Hd Hne Ht Hf.
  rewrite process_rainfall_new_day by (rewrite Hd; congruence).
  cbn [fst totals_file]. by rewrite Ht, Hf.
Qed.

(** C1, run at a day boundary: on 2024-03-15, with 7.5 mm pending from
    the 14th, the first reading appends exactly one row to the totals
    file, resets the total to 0 and takes the reading as the last raw
    value.  The row's value is 7.5; its date field is 2024-03-15, the
    date of the new day, not yesterday's 2024-03-14. *)
Theorem C1_day_boundary_row_date :
  let now := Date 2024 3 15 in
  let w := RainWorld (RainState (Some 14%Z) (Some 7.5%Q) 20%Q)
             (Some [rainfall_header]) [] in
  let res := process_rainfall now (Some 20%Q) w in
  totals_file res.1 = Some [rainfall_header; [VStr "2024-03-15"; VStr "7.5"]]
  /\ strftime (yesterday now) = "2024-03-14"
  /\ daily_rain_total (rain res.1) = Some 0%Q
  /\ last_rain_value (rain res.1) = 20%Q
  /\ res.2 = Return (Some 0%Q).
Proof. vm_compute. repeat split. Qed.


(** The day boundary is recognised by the day-of-month number alone: a
    first reading on the 15th of March after a last reading on the 15th
    of February is taken as one more reading of the same day. *)
Lemma process_rainfall_same_day_number :
  let w := RainWorld (RainState (Some 15%Z) (Some 7.5%Q) 20%Q)
             (Some [rainfall_header]) [] in
  let res := process_rainfall (Date 2024 3 15) (Some 30%Q) w in
  totals_file res.1 = Some [rainfall_header]
  /\ res.2 = Return (Some (7.5 + (30 - 20))%Q).
Proof. vm_compute. split; reflexivity. Qed.

(** C2, run across a month.  The station is in the state the readings
    12.5 and 20.0 of 2024-02-15 leave: reset day 15, 7.5 mm
    accumulated, last raw value 20.0.  No reading arrives from 16
    February to 14 March (the calls return [None] and change nothing),
    and on 2024-03-15 the sensor reads 30.0.  The call returns 17.5:
    the day number is 15 as before, so nothing is reset and no row is
    stored, and the value returned adds the 7.5 mm of 15 February to
    the advance of the counter since.  It is not the running total of
    the current day, which the reset at midnight starts at 0, as the
    same reading gets when it arrives one day later. *)
Theorem C2_total_outlives_its_day :
  let start := RainWorld init_rain_state (Some [rainfall_header]) [] in
  let feb_15 := process_readings (Date 2024 2 15) [12.5; 20]%Q start in
  let w := RainWorld (RainState (Some 15%Z) (Some 7.5%Q) 20%Q)
             (Some [rainfall_header]) [] in
  let quiet_days :=
    ((fun d => Date 2024 2 d) <$> seqZ 16 14) ++ ((fun d => Date 2024 3 d) <$> seqZ 1 14) in
  let run :=
    process_calls (((fun d => (d, None)) <$> quiet_days) ++ [(Date 2024 3 15, Some 30%Q)]) w in
  (last_rain_reset_day (rain feb_15.1) = last_rain_reset_day (rain w)
   /\ match daily_rain_total (rain feb_15.1) with
      | Some total => (total == 7.5)%Q
      | None => False
      end
   /\ last_rain_value (rain feb_15.1) = last_rain_value (rain w)
   /\ totals_file feb_15.1 = totals_file w)
  /\ length quiet_days = 28%nat
  /\ run.2 = replicate 28 (Return None) ++ [Return (Some 17.5%Q)]
  /\ rain run.1 = RainState (Some 15%Z) (Some 17.5%Q) 30%Q
  /\ totals_file run.1 = Some [rainfall_header]
  /\ rain_log run.1 = []
  /\ process_rainfall (Date 2024 3 16) (Some 30%Q) w
     = (RainWorld (RainState (Some 16%Z) (Some 0%Q) 30%Q)
          (Some [rainfall_header; [VStr "2024-03-16"; VStr "7.5"]])
          (rain_log w ++ [LogInfo "Rainfall reset at midnight"]),
        Return (Some 0%Q)).
Proof. vm_compute. repeat split. Qed.

(** ** Strings and dates *)

Section StringLemmas.
Local Open Scope string_scope.

Lemma digit_cases (k : Z) : (0 <= k < 10)%Z ->
  k = 0%Z \/ k = 1%Z \/ k = 2%Z \/ k = 3%Z \/ k = 4%Z \/ k = 5%Z \/ k = 6%Z \/ k = 7%Z
  \/ k = 8%Z \/ k = 9%Z.
Proof. lia. Qed.

Ltac each_digit H :=
  apply digit_cases in H;
  repeat (destruct H as [-> | H]); [..| subst]; try reflexivity.

Lemma digit_val_chr (k : Z) : (0 <= k < 10)%Z -> digit_val (digit_chr k) = Some k.
Proof. intros H. each_digit H. Qed.

Lemma digit_chr_not (a : ascii) (k : Z) :
  digit_val a = None -> (0 <= k < 10)%Z -> Ascii.eqb a (digit_chr k) = false.
Proof.
  intros Ha H. destruct (Ascii.eqb_spec a (digit_chr k)) as [->|]; [|done].
  rewrite digit_val_chr in Ha by done. discriminate.
Qed.

Lemma append_cons (a : ascii) (s t : string) : String a s ++ t = String a (s ++ t).
Proof. reflexivity. Qed.

Lemma append_nil_l (t : string) : "" ++ t = t.
Proof. reflexivity. Qed.

Lemma append_assoc (s t u : string) : s ++ (t ++ u) = (s ++ t) ++ u.
Proof. induction s as [|c s IH]; [done|]. by rewrite !append_cons, IH. Qed.

Lemma startswith_app (p s : string) : startswith (p ++ s) p = true.
Proof.
  induction p as [|a p IH]; [by destruct s|].
  rewrite append_cons. cbn [startswith]. by rewrite Ascii.eqb_refl, IH.
Qed.

Lemma remove_from_skip (old p s : string) :
  remove_from old (String.length p) (p ++ s) = remove_from old 0 s.
Proof.
  induction p as [|a p IH]; [done|].
  rewrite append_cons. cbn [String.length remove_from]. exact IH.
Qed.

Lemma remove_all_match (a : ascii) (old s : string) :
  remove_all (String a old) (String a old ++ s) = remove_all (String a old) s.
Proof.
  unfold remove_all. pose proof (startswith_app (String a old) s) as Hs.
  rewrite append_cons in *. cbn [remove_from]. rewrite Hs.
  replace (String.length (String a old) - 1)%nat with (String.length old)
    by (cbn [String.length]; lia).
  apply remove_from_skip.
Qed.

Lemma remove_all_no_char (a : ascii) (old s t : string) :
  no_char a s = true ->
  remove_all (String a old) (s ++ t) = s ++ remove_all (String a old) t.
Proof.
  unfold remove_all. induction s as [|c s IH]; intros H; [done|].
  cbn [no_char] in H. apply andb_true_iff in H as [Hc Hs].
  rewrite !append_cons. cbn [remove_from startswith].
  destruct (Ascii.eqb a c); [done|]. cbn [andb]. by rewrite IH.
Qed.

Lemma remove_all_nil old : remove_all old "" = "".
Proof. done. Qed.

Lemma no_char_app a s t : no_char a (s ++ t) = no_char a s && no_char a t.
Proof.
  induction s as [|c s IH]; [done|].
  rewrite append_cons. cbn [no_char]. by rewrite IH, andb_assoc.
Qed.

Lemma strftime_chars (d : date) :
  strftime d =
    String (digit_chr (year d / 10 / 10 / 10 mod 10))
   (String (digit_chr (year d / 10 / 10 mod 10))
   (String (digit_chr (year d / 10 mod 10))
   (String (digit_chr (year d mod 10))
   (String "-" (zero_padded 2 (month d) ++ String "-" (zero_padded 2 (day d))))))).
Proof. reflexivity. Qed.

Lemma no_char_zero_padded (a : ascii) (w : nat) (n : Z) :
  digit_val a = None -> no_char a (zero_padded w n) = true.
Proof.
  intros Ha. revert n. induction w as [|w IH]; intros n; [done|].
  cbn [zero_padded]. rewrite no_char_app, IH. cbn.
  rewrite digit_chr_not; [done | done | by apply Z.mod_pos_bound].
Qed.

Lemma no_char_strftime (a : ascii) (d : date) :
  digit_val a = None -> Ascii.eqb a "-" = false -> no_char a (strftime d) = true.
Proof.
  intros Ha Hd. unfold strftime.
  rewrite !no_char_app, !no_char_zero_padded by done. cbn. by rewrite Hd.
Qed.

Lemma append_nil_r (s : string) : s ++ "" = s.
Proof. induction s as [|c s IH]; [done|]. by rewrite append_cons, IH. Qed.

Lemma remove_all_absent (a : ascii) (old s : string) :
  no_char a s = true -> remove_all (String a old) s = s.
Proof.
  intros H. rewrite <- (append_nil_r s) at 1.
  rewrite remove_all_no_char by done. apply append_nil_r.
Qed.

Lemma remove_all_self (a : ascii) (old : string) :
  remove_all (String a old) (String a old) = "".
Proof.
  rewrite <- (append_nil_r (String a old)) at 2. by rewrite remove_all_match.
Qed.

Lemma file_date_pattern_name (prefix' ext' : string) (d : date) :
  no_char "w" (String "." ext') = true ->
  file_date (String "w" prefix') (String "." ext')
    (String "w" prefix' ++ strftime d ++ String "." ext')
  = strptime (strftime d).
Proof.
  intros Hext. unfold file_date. f_equal.
  rewrite remove_all_match.
  rewrite (remove_all_absent "w" prefix' (strftime d ++ String "." ext'))
    by (rewrite no_char_app, Hext, no_char_strftime; done).
  rewrite (remove_all_no_char "." ext' (strftime d)) by (by apply no_char_strftime).
  by rewrite remove_all_self, append_nil_r.
Qed.

Lemma month_cases (m : Z) : (1 <= m <= 12)%Z ->
  (m = 1 \/ m = 2 \/ m = 3 \/ m = 4 \/ m = 5 \/ m = 6 \/ m = 7 \/ m = 8 \/ m = 9
   \/ m = 10 \/ m = 11 \/ m = 12)%Z.
Proof. lia. Qed.

Lemma parse_month_padded (m : Z) (rest : string) :
  (1 <= m <= 12)%Z ->
  parse_month (zero_padded 2 m ++ String "-" rest) = Some (m, rest).
Proof.
  intros H. apply month_cases in H.
  repeat (destruct H as [-> | H]); [..| subst]; reflexivity.
Qed.

Lemma parse_day_padded (d : Z) :
  (1 <= d <= 31)%Z -> parse_day (zero_padded 2 d) = Some d.
Proof.
  intros H.
  assert (Hn : exists n : nat, (n < 31)%nat /\ d = Z.of_nat (S n)).
  { exists (Z.to_nat (d - 1)). lia. }
  destruct Hn as (n & Hn & ->).
  do 31 (destruct n as [|n]; [reflexivity|]). lia.
Qed.

Lemma days_in_month_le (y m : Z) : (days_in_month y m <= 31)%Z.
Proof.
  unfold days_in_month.
  repeat match goal with
         | |- context [match ?x with _ => _ end] => destruct x
         end; lia.
Qed.

(** Printing a date and parsing it back gives the date. *)
Lemma strptime_strftime (d : date) :
  valid_date d = true -> (1000 <= year d)%Z -> strptime (strftime d) = Some d.
Proof.
  intros Hv Hy. pose proof Hv as Hv'. unfold valid_date in Hv'.
  repeat (apply andb_true_iff in Hv' as [Hv' ?]).
  repeat match goal with H : (_ <=? _)%Z = true |- _ => apply Z.leb_le in H end.
  pose proof (days_in_month_le (year d) (month d)).
  rewrite strftime_chars. cbn [strptime].
  rewrite !digit_val_chr by (apply Z.mod_pos_bound; lia).
  rewrite parse_month_padded by lia.
  rewrite parse_day_padded by lia.
  replace (1000 * ((year d / 10 / 10 / 10) mod 10) + 100 * ((year d / 10 / 10) mod 10)
           + 10 * ((year d / 10) mod 10) + (year d) mod 10)%Z with (year d)
    by (clear -Hy H3; Z.div_mod_to_equations; lia).
  destruct d as [y m dd]. cbn [year month day] in *. by rewrite Hv.
Qed.

Lemma substring_skip (s t : string) (m : nat) :
  substring (String.length s) m (s ++ t) = substring 0 m t.
Proof.
  induction s as [|c s IH]; [done|].
  rewrite append_cons. cbn [String.length substring]. exact IH.
Qed.

Lemma substring_take (s t : string) :
  substring 0 (String.length s) (s ++ t) = s.
Proof.
  induction s as [|c s IH]; [by destruct t|].
  rewrite append_cons. cbn [String.length substring]. by rewrite IH.
Qed.

Lemma length_append (s t : string) :
  String.length (s ++ t) = (String.length s + String.length t)%nat.
Proof.
  induction s as [|c s IH]; [done|].
  rewrite append_cons. cbn [String.length]. by rewrite IH.
Qed.

Lemma endswith_app (s e : string) : endswith (s ++ e) e = true.
Proof.
  unfold endswith. rewrite length_append.
  apply andb_true_iff. split; [apply Nat.leb_le; lia|].
  replace (String.length s + String.length e - String.length e)%nat
    with (String.length s) by lia.
  rewrite substring_skip.
  rewrite <- (append_nil_r e) at 2. rewrite substring_take.
  apply String.eqb_refl.
Qed.

Lemma is_digit_chr (k : Z) : (0 <= k < 10)%Z -> is_digit (digit_chr k) = true.
Proof.
  intros H. unfold is_digit. rewrite digit_val_chr by done.
  apply bool_decide_eq_true_2. by eexists.
Qed.

Lemma iso_shaped_strftime (d : date) : iso_shaped (strftime d) = true.
Proof.
  rewrite strftime_chars.
  change (zero_padded 2 (month d) ++ String "-" (zero_padded 2 (day d)))
    with (String (digit_chr ((month d / 10) mod 10))
         (String (digit_chr (month d mod 10))
         (String "-"
         (String (digit_chr ((day d / 10) mod 10))
         (String (digit_chr (day d mod 10)) ""))))).
  cbn [iso_shaped].
  by rewrite !is_digit_chr by (by apply Z.mod_pos_bound).
Qed.

Lemma length_strftime (d : date) : String.length (strftime d) = 10%nat.
Proof. reflexivity. Qed.

End StringLemmas.

(** ** The calendar *)

Lemma days_before_month_succ (y m : Z) :
  (1 <= m)%Z ->
  days_before_month y (m + 1) = (days_before_month y m + days_in_month y m)%Z.
Proof.
  intros Hm. unfold days_before_month.
  replace (Z.to_nat (m + 1 - 1)) with (S (Z.to_nat (m - 1))) by lia.
  cbn [days_before_month_aux]. do 2 f_equal. lia.
Qed.

Lemma days_before_next_year (y : Z) :
  days_before_year (y + 1)
  = (days_before_year y + days_before_month y 12 + 31)%Z.
Proof.
  assert (H12 : days_before_month y 12 = if is_leap y then 335%Z else 334%Z).
  { unfold days_before_month. change (Z.to_nat (12 - 1)) with 11%nat.
    cbv beta iota delta -[is_leap Z.add]. by destruct (is_leap y). }
  rewrite H12. unfold days_before_year, is_leap.
  replace (y + 1 - 1)%Z with y by lia.
  destruct (Z.eqb_spec (y mod 4) 0), (Z.eqb_spec (y mod 100) 0), (Z.eqb_spec (y mod 400) 0);
    cbn [negb andb orb]; Z.div_mod_to_equations; lia.
Qed.

(** [yesterday] is the day before: one less in the day count. *)
Lemma toordinal_yesterday (d : date) :
  valid_date d = true -> toordinal (yesterday d) = (toordinal d - 1)%Z.
Proof.
  intros Hv. unfold valid_date in Hv.
  repeat (apply andb_true_iff in Hv as [Hv ?]).
  repeat match goal with H : (_ <=? _)%Z = true |- _ => apply Z.leb_le in H end.
  destruct d as [y m dd]. cbn [year month day] in *.
  unfold yesterday, toordinal. cbn [year month day].
  destruct (Z.ltb_spec 1 dd); cbn [year month day]; [lia|].
  destruct (Z.ltb_spec 1 m); cbn [year month day].
  - pose proof (days_before_month_succ y (m - 1)) as Hs.
    replace (m - 1 + 1)%Z with m in Hs by lia. rewrite Hs by lia. lia.
  - assert (m = 1%Z) by lia. subst m.
    pose proof (days_before_next_year (y - 1)) as Hs.
    replace (y - 1 + 1)%Z with y in Hs by lia. rewrite Hs.
    change (days_before_month y 1) with 0%Z. lia.
Qed.

(** ** Retention sweeps *)

Section Sweep.
Variables (prefix ext : string) (today : date).

Lemma cleanup_file_fst (dir : directory) (lg : list log_entry) (f : string) :
  (cleanup_file prefix ext today (dir, lg) f).1
  = if expired prefix ext today f then delete f dir else dir.
Proof.
  unfold cleanup_file, expired.
  destruct (startswith f prefix && endswith f ext); [|done].
  destruct (file_date prefix ext f) as [d|]; [|done].
  by destruct (days_between today d >? RETENTION_DAYS)%Z.
Qed.

Lemma cleanup_file_snd (dir : directory) (lg : list log_entry) (f : string) :
  (cleanup_file prefix ext today (dir, lg) f).2 = lg ++ sweep_report prefix ext today f.
Proof.
  unfold cleanup_file, sweep_report.
  destruct (startswith f prefix && endswith f ext); [|by rewrite app_nil_r].
  destruct (file_date prefix ext f) as [d|]; [|done].
  destruct (days_between today d >? RETENTION_DAYS)%Z; [done|by rewrite app_nil_r].
Qed.

Lemma cleanup_fold_log (l : list string) :
  forall (dir : directory) (lg : list log_entry),
    (foldl (cleanup_file prefix ext today) (dir, lg) l).2
    = lg ++ (l ≫= sweep_report prefix ext today).
Proof.
  induction l as [|f l IH]; intros dir lg.
  - cbn. by rewrite app_nil_r.
  - cbn [foldl].
    destruct (cleanup_file prefix ext today (dir, lg) f) as [dir1 lg1] eqn:E.
    rewrite IH. pose proof (cleanup_file_snd dir lg f) as Hlg. rewrite E in Hlg.
    cbn [snd] in Hlg. subst lg1. by rewrite <- app_assoc.
Qed.

(** The sweep reports a name as unreadable exactly when the name is in
    the directory, has the prefix and the extension, and its remainder
    is not a date. *)
Lemma cleanup_old_file_errors (dir : directory) (name : string) :
  LogFileError name ∈ (cleanup_old prefix ext today dir).2
  <-> is_Some (dir !! name) /\ startswith name prefix = true /\ endswith name ext = true
      /\ file_date prefix ext name = None.
Proof.
  unfold cleanup_old. rewrite cleanup_fold_log, app_nil_l, list_elem_of_bind.
  assert (Hdir : forall f, f ∈ listdir dir <-> is_Some (dir !! f)).
  { intros f. unfold listdir. rewrite list_elem_of_fmap. split.
    - intros ([k v] & -> & Hkv). apply elem_of_map_to_list in Hkv. by eexists.
    - intros [v Hv]. exists (f, v). split; [done|]. by apply elem_of_map_to_list. }
  split.
  - intros (f & Hin & Hf). unfold sweep_report in Hin.
    destruct (startswith f prefix && endswith f ext) eqn:Hpe;
      [|by apply elem_of_nil in Hin].
    apply andb_true_iff in Hpe as [Hp He].
    destruct (file_date prefix ext f) as [d|] eqn:Hd.
    + destruct (days_between today d >? RETENTION_DAYS)%Z;
        [|by apply elem_of_nil in Hin].
      apply list_elem_of_singleton in Hin. discriminate.
    + apply list_elem_of_singleton in Hin. injection Hin as ->.
      by rewrite <- Hdir.
  - intros (Hin & Hp & He & Hd). exists name. split; [|by apply Hdir].
    unfold sweep_report. rewrite Hp, He, Hd. cbn. by apply list_elem_of_singleton.
Qed.

Lemma cleanup_fold_lookup (l : list string) :
  forall (dir : directory) (lg : list log_entry) (name : string),
    (foldl (cleanup_file prefix ext today) (dir, lg) l).1 !! name
    = if expired prefix ext today name && bool_decide (name ∈ l) then None
      else dir !! name.
Proof.
  induction l as [|f l IH]; intros dir lg name.
  - cbn. by rewrite andb_false_r.
  - cbn [foldl].
    destruct (cleanup_file prefix ext today (dir, lg) f) as [dir1 lg1] eqn:E.
    rewrite IH.
    assert (Hd : dir1 = if expired prefix ext today f then delete f dir else dir).
    { by rewrite <- (cleanup_file_fst dir lg f), E. }
    subst dir1.
    destruct (expired prefix ext today name) eqn:En; cbn [andb].
    + destruct (decide (name = f)) as [->|Hne].
      * rewrite En, lookup_delete_eq.
        rewrite (bool_decide_eq_true_2 (f ∈ f :: l)) by left.
        by destruct (bool_decide (f ∈ l)).
      * rewrite (bool_decide_ext (name ∈ f :: l) (name ∈ l))
          by (rewrite elem_of_cons; tauto).
        destruct (bool_decide (name ∈ l)); [done|].
        destruct (expired prefix ext today f); [by rewrite lookup_delete_ne|done].
    + destruct (expired prefix ext today f) eqn:Ef; [|done].
      rewrite lookup_delete_ne; [done|]. intros ->. congruence.
Qed.

Lemma cleanup_old_lookup (dir : directory) (name : string) :
  (cleanup_old prefix ext today dir).1 !! name
  = if expired prefix ext today name then None else dir !! name.
Proof.
  unfold cleanup_old. rewrite cleanup_fold_lookup.
  destruct (expired prefix ext today name); [|done]. cbn [andb].
  destruct (dir !! name) as [v|] eqn:E; [|by destruct (bool_decide _)].
  rewrite bool_decide_eq_true_2; [done|].
  unfold listdir. apply list_elem_of_fmap. exists (name, v). split; [done|].
  by apply elem_of_map_to_list.
Qed.

Lemma cleanup_old_unexpired (dir : directory) :
  (forall name, is_Some (dir !! name) -> expired prefix ext today name = false) ->
  (cleanup_old prefix ext today dir).1 = dir.
Proof.
  intros H. apply map_eq. intros name. rewrite cleanup_old_lookup.
  destruct (dir !! name) as [v|] eqn:E.
  - rewrite H; [done|]. by rewrite E.
  - by destruct (expired prefix ext today name).
Qed.

Lemma cleanup_old_idempotent (dir : directory) :
  (cleanup_old prefix ext today (cleanup_old prefix ext today dir).1).1
  = (cleanup_old prefix ext today dir).1.
Proof.
  apply cleanup_old_unexpired. intros name [v Hv].
  rewrite cleanup_old_lookup in Hv.
  by destruct (expired prefix ext today name).
Qed.
End Sweep.

Section PatternNames.
Local Open Scope string_scope.

(** A name of the pattern embeds the date it was made from. *)
Lemma pattern_date_strftime (prefix ext : string) (d : date) :
  valid_date d = true -> (1000 <= year d)%Z ->
  pattern_date prefix ext (prefix ++ strftime d ++ ext) = Some d.
Proof.
  intros Hv Hy. unfold pattern_date.
  rewrite startswith_app.
  rewrite append_assoc, endswith_app.
  rewrite <- append_assoc.
  rewrite !length_append, length_strftime.
  rewrite (proj2 (Nat.leb_le _ _)) by lia. cbn [andb].
  replace (String.length prefix + (10 + String.length ext) - String.length prefix
           - String.length ext)%nat with (String.length (strftime d))
    by (rewrite length_strftime; lia).
  rewrite substring_skip, substring_take, iso_shaped_strftime.
  by apply strptime_strftime.
Qed.

(** Such a name is deleted by the two sweeps exactly when its date is
    more than seven days back. *)
Lemma expired_pattern_name (prefix' ext' : string) (today d : date) :
  no_char "w" (String "." ext') = true ->
  valid_date d = true -> (1000 <= year d)%Z ->
  expired (String "w" prefix') (String "." ext') today
    (String "w" prefix' ++ strftime d ++ String "." ext')
  = (days_between today d >? RETENTION_DAYS)%Z.
Proof.
  intros He Hv Hy. unfold expired.
  rewrite startswith_app.
  rewrite append_assoc, endswith_app, <- append_assoc.
  rewrite file_date_pattern_name by done.
  by rewrite strptime_strftime.
Qed.

End PatternNames.

(** C9 (as amended): a sweep deletes exactly the files whose name starts
    with the prefix, ends with the extension and, once every occurrence
    of the prefix and of the extension is removed from it, parses as a
    [%Y-%m-%d] date more than 7 days before the current date; every
    name [<prefix>_<YYYY-MM-DD>.<ext>] of a valid date is of that kind
    when its date is more than 7 days old and is kept otherwise; all
    other files are kept, and those with the prefix and the extension
    whose remainder does not parse are reported; a sweep of a directory
    with no file to delete leaves it unchanged, and a second sweep
    changes nothing. *)
Theorem C9_retention_sweep (sweep : date -> directory -> directory * list log_entry)
    (prefix ext : string) (today : date) (dir : directory) :
  (sweep, prefix, ext) = (cleanup_old_csv, "weather_data_", ".csv")
  \/ (sweep, prefix, ext) = (cleanup_old_logs, "weather_station_", ".log") ->
  (forall name,
     (sweep today dir).1 !! name
     = if expired prefix ext today name then None else dir !! name)
  /\ (forall name,
     expired prefix ext today name = true <->
     startswith name prefix = true /\ endswith name ext = true
     /\ exists d, strptime (remove_all ext (remove_all prefix name)) = Some d
                  /\ (days_between today d > 7)%Z)
  /\ (forall d, valid_date d = true -> (1000 <= year d)%Z ->
     pattern_date prefix ext (prefix ++ strftime d ++ ext)%string = Some d
     /\ expired prefix ext today (prefix ++ strftime d ++ ext)%string
        = bool_decide (days_between today d > 7)%Z)
  /\ (forall name,
     LogFileError name ∈ (sweep today dir).2 <->
     is_Some (dir !! name) /\ startswith name prefix = true /\ endswith name ext = true
     /\ strptime (remove_all ext (remove_all prefix name)) = None)
  /\ ((forall name, is_Some (dir !! name) -> expired prefix ext today name = false) ->
     (sweep today dir).1 = dir)
  /\ (sweep today (sweep today dir).1).1 = (sweep today dir).1.
Proof.
  intros Hsweep.
  assert (Hs : sweep = cleanup_old prefix ext
               /\ exists p e, prefix = String "w" p /\ ext = String "." e
                              /\ no_char "w" ext = true).
  { destruct Hsweep as [E|E]; injection E as -> -> ->;
      (split; [reflexivity | do 2 eexists; repeat split]). }
  destruct Hs as (-> & p & e & -> & -> & Hne). clear Hsweep.
  split; [|split; [|split; [|split; [|split]]]].
  - apply cleanup_old_lookup.
  - intros name. unfold expired, file_date, RETENTION_DAYS.
    rewrite !andb_true_iff. split.
    + intros [[Hp He] Hd]. repeat split; try done.
      destruct (strptime _) as [d|]; [|done].
      exists d. split; [done|]. by apply Z.gtb_gt.
    + intros (Hp & He & d & -> & Hd). repeat split; try done.
      apply Z.gtb_gt. lia.
  - intros d Hv Hy. split; [by apply pattern_date_strftime|].
    rewrite expired_pattern_name by done. unfold RETENTION_DAYS.
    destruct (Z.gtb_spec (days_between today d) 7).
    + by rewrite bool_decide_eq_true_2 by lia.
    + by rewrite bool_decide_eq_false_2 by lia.
  - apply cleanup_old_file_errors.
  - apply cleanup_old_unexpired.
  - apply cleanup_old_idempotent.
Qed.

Lemma C9_retention_sweep_witness :
  let today := Date 2024 3 15 in
  let dir : directory :=
    <["weather_data_2024-03-01.csv" := []]> (<["weather_data_2024-03-14.csv" := []]> ∅) in
  (cleanup_old_csv today dir).1 !! "weather_data_2024-03-01.csv" = None
  /\ (cleanup_old_csv today dir).1 !! "weather_data_2024-03-14.csv" = Some [].
Proof.
  intros today dir.
  pose proof (proj1 (C9_retention_sweep cleanup_old_csv "weather_data_" ".csv" today dir
                       (or_introl eq_refl))) as H.
  split; rewrite H; reflexivity.
Defined.

(** C9 as stated fails: these two names are not of the pattern
    [weather_data_<YYYY-MM-DD>.csv], yet the sweep deletes the files. *)
Lemma C9_malformed_names_deleted :
  let today := Date 2024 3 15 in
  let odd := "weather_data_20.csv20-01-01.csv" in
  let short := "weather_data_2020-1-1.csv" in
  let dir : directory := <[odd := []]> (<[short := []]> ∅) in
  pattern_date "weather_data_" ".csv" odd = None
  /\ pattern_date "weather_data_" ".csv" short = None
  /\ dir !! odd = Some []
  /\ dir !! short = Some []
  /\ (cleanup_old_csv today dir).1 !! odd = None
  /\ (cleanup_old_csv today dir).1 !! short = None.
Proof. vm_compute. repeat split. Qed.

(** ** Acquisition cycle *)

Lemma truthy_false (data : dict) : truthy data = false -> data = ∅.
Proof.
  unfold truthy. intros H. apply negb_false_iff, Nat.eqb_eq in H.
  by apply map_size_empty_iff.
Qed.

Lemma read_sensor_fst (i : cycle_input) (acc : dict * list log_entry) (entry : string * reader) :
  (read_sensor i acc entry).1 = merge_reading (entry.2 i).2 acc.1.
Proof.
  destruct acc as [d lg], entry as [name rd]. unfold read_sensor. cbn [fst snd].
  destruct (rd i) as [lines [[data|]|e]]; cbn [snd merge_reading fst]; try done.
  destruct (truthy data) eqn:E.
  - by destruct (log_sensor_data name data).
  - apply truthy_false in E as ->. by rewrite (left_id_L ∅ (∪)).
Qed.

Lemma read_sensors_fst (i : cycle_input) (rs : list (string * reader)) :
  forall acc : dict * list log_entry,
    (read_sensors i rs acc).1 = foldl (fun d e => merge_reading (e.2 i).2 d) acc.1 rs.
Proof.
  unfold read_sensors. induction rs as [|e rs IH]; intros acc; [done|].
  cbn [foldl]. by rewrite IH, read_sensor_fst.
Qed.

Lemma cycle_snapshot_any_log (i : cycle_input) rs (lg : list log_entry) :
  (read_sensors i rs ({["timestamp" := VStr (timestamp i)]}, lg)).1 = cycle_snapshot rs i.
Proof. unfold cycle_snapshot. by rewrite !read_sensors_fst. Qed.

(** A reader that raises is passed over *)
Lemma raising_reader_skipped (i : cycle_input) rs1 rs2 (name : string) (rd : reader) e :
  (rd i).2 = Raise e ->
  cycle_snapshot (rs1 ++ (name, rd) :: rs2) i = cycle_snapshot (rs1 ++ rs2) i.
Proof.
  intros H. unfold cycle_snapshot. rewrite !read_sensors_fst, !foldl_app.
  cbn [foldl snd]. by rewrite H.
Qed.

Lemma cycle_snapshot_sensors (i : cycle_input) :
  cycle_snapshot sensors i =
    merge_reading (Return (read_rainfall (rainfall_resp i)).2)
      (merge_reading (Return (read_wind_direction (wind_direction_resp i)).2)
         ((read_wind_speed (wind_speed_resp i)).2 ∪
          ((read_aqi_sensor (aqi_src i)).2 ∪
           ((read_uv_sensor (uv_resp i)).2 ∪
            ((read_environment_sensor (environment_resp i)).2 ∪
             {["timestamp" := VStr (timestamp i)]}))))).
Proof.
  unfold cycle_snapshot. rewrite read_sensors_fst. unfold sensors. cbn [foldl fst snd].
  destruct (read_environment_sensor _), (read_uv_sensor _), (read_aqi_sensor _),
    (read_wind_speed _), (read_wind_direction _), (read_rainfall _). done.
Qed.

Ltac not_in_keys :=
  let H := fresh in
  intros H; repeat (apply elem_of_cons in H as [H|H]; [discriminate H|]);
  by apply elem_of_nil in H.

Lemma read_environment_sensor_keys resp (k : string) :
  k ∉ ["temperature"; "humidity"; "pressure"] ->
  (read_environment_sensor resp).2 !! k = None.
Proof.
  intros Hk. unfold read_environment_sensor, environment_default.
  destruct resp as [| |regs]; [| |destruct (regs !! 0%nat), (regs !! 1%nat), (regs !! 2%nat)];
    cbn [snd]; by apply not_elem_of_list_to_map_1.
Qed.

Lemma read_uv_sensor_keys resp (k : string) :
  k <> "uv_index" -> (read_uv_sensor resp).2 !! k = None.
Proof.
  intros Hk. unfold read_uv_sensor.
  destruct resp as [| |regs]; [| |destruct (regs !! 0%nat)];
    cbn [snd]; by apply lookup_singleton_ne.
Qed.

Lemma read_aqi_sensor_keys src (k : string) :
  k ∉ ["co2"; "pm2_5"; "pm10"; "carbon_monoxide"; "nitrogen_dioxide"; "sulphur_dioxide";
       "ozone"] ->
  (read_aqi_sensor src).2 !! k = None.
Proof.
  intros Hk. unfold read_aqi_sensor.
  destruct src; cbn [snd]; try (apply lookup_singleton_ne; set_solver).
  by apply not_elem_of_list_to_map_1.
Qed.

Lemma read_wind_speed_keys resp (k : string) :
  k <> "wind_speed" -> (read_wind_speed resp).2 !! k = None.
Proof.
  intros Hk. unfold read_wind_speed.
  destruct resp as [| |regs]; [| |destruct (regs !! 0%nat)];
    cbn [snd]; by apply lookup_singleton_ne.
Qed.

Lemma read_wind_direction_keys resp (d : dict) (k : string) :
  k ∉ ["wind_dir_degrees"; "wind_dir_cardinal"] ->
  (read_wind_direction resp).2 = Some d -> d !! k = None.
Proof.
  intros Hk. unfold read_wind_direction.
  destruct resp as [| |regs]; try discriminate.
  destruct (regs !! 0%nat), (regs !! 2%nat); try discriminate.
  destruct (_ && _); [|discriminate].
  cbn [snd]. intros H. apply (inj Some) in H. subst d.
  by apply not_elem_of_list_to_map_1.
Qed.

Lemma read_rainfall_keys resp (d : dict) (k : string) :
  k <> "rainfall" -> (read_rainfall resp).2 = Some d -> d !! k = None.
Proof.
  intros Hk. unfold read_rainfall.
  destruct resp as [| |regs]; try discriminate.
  destruct (regs !! 0%nat); [|discriminate].
  cbn [snd]. intros H. apply (inj Some) in H. subst d.
  by apply lookup_singleton_ne.
Qed.

Lemma merge_reading_lookup (o : option dict) (d : dict) (k : string) :
  merge_reading (Return o) d !! k
  = match o ≫= (.!! k) with Some v => Some v | None => d !! k end.
Proof.
  destruct o as [data|]; cbn; [|done].
  rewrite lookup_union. destruct (data !! k), (d !! k); done.
Qed.

Lemma union_lookup_or (d1 d2 : dict) (k : string) :
  (d1 ∪ d2) !! k = match d1 !! k with Some v => Some v | None => d2 !! k end.
Proof. rewrite lookup_union. destruct (d1 !! k), (d2 !! k); done. Qed.

Lemma read_rainfall_foreign resp (k : string) :
  k <> "rainfall" -> (read_rainfall resp).2 ≫= (.!! k) = None.
Proof.
  intros Hk. destruct (read_rainfall resp).2 as [d|] eqn:E; [|done].
  cbn. by eapply read_rainfall_keys.
Qed.

Lemma read_wind_direction_foreign resp (k : string) :
  k ∉ ["wind_dir_degrees"; "wind_dir_cardinal"] ->
  (read_wind_direction resp).2 ≫= (.!! k) = None.
Proof.
  intros Hk. destruct (read_wind_direction resp).2 as [d|] eqn:E; [|done].
  cbn. by eapply read_wind_direction_keys.
Qed.

(** Look a key up in the snapshot of a cycle: open the layers the
    readers put on top of each other and drop those that cannot hold
    the key. *)
Ltac snapshot_lookup :=
  rewrite cycle_snapshot_sensors, !merge_reading_lookup, !union_lookup_or;
  rewrite ?read_rainfall_foreign by discriminate;
  rewrite ?read_wind_direction_foreign by not_in_keys;
  rewrite ?read_wind_speed_keys by discriminate;
  rewrite ?read_aqi_sensor_keys by not_in_keys;
  rewrite ?read_uv_sensor_keys by discriminate;
  rewrite ?read_environment_sensor_keys by not_in_keys;
  rewrite ?(lookup_singleton_ne (M := gmap string)) by discriminate;
  cbv beta iota.

(** The ways a register read fails, one by one. *)
Ltac failed_read r :=
  destruct r as [| |[|? [|? [|? ?]]]];
  repeat match goal with H : modbus_failed _ _ = true |- _ => cbn in H end;
  try discriminate; reflexivity.

Lemma option_match_id {A} (o : option A) :
  match o with Some v => Some v | None => None end = o.
Proof. by destruct o. Qed.

Lemma sensor_reader_cycle_live (rs : list (string * reader)) (csv_interval : Q)
    (i : cycle_input) (s : station) :
  connect i = Return true ->
  heap (sensor_reader_cycle_with rs csv_interval i s)
    !! sensor_data (sensor_reader_cycle_with rs csv_interval i s)
  = Some (cycle_snapshot rs i).
Proof.
  intros Hc. unfold sensor_reader_cycle_with. rewrite Hc.
  pose proof (cycle_snapshot_any_log i rs (station_log s)) as Hd.
  destruct (read_sensors i rs _) as [current_data lg]. cbn [fst] in Hd. subst.
  destruct (Qle_bool _ _); cbn [heap sensor_data]; apply lookup_insert_eq.
Qed.

Lemma sensor_reader_loop_length (rs : list (string * reader)) (csv_interval : Q)
    (inputs : list cycle_input) :
  forall s, Forall (fun i => running i = true) inputs ->
    length (sensor_reader_loop_with rs csv_interval inputs s) = length inputs.
Proof.
  induction inputs as [|i rest IH]; intros s H; [done|].
  apply Forall_cons in H as [Hi Hrest].
  cbn [sensor_reader_loop_with]. rewrite Hi. cbn [length]. by rewrite IH.
Qed.

Lemma csv_writer_loop_length (days : list (bool * date)) :
  forall s, Forall (fun x => x.1 = true) days ->
    length (csv_writer_loop days s) = length days.
Proof.
  induction days as [|[run today] rest IH]; intros s H; [done|].
  apply Forall_cons in H as [Hi Hrest]. cbn in Hi. subst run.
  cbn [csv_writer_loop length]. by rewrite IH.
Qed.

(** C5: in the snapshot a cycle builds, a failed environment read
    leaves temperature, humidity and pressure at 0.0, a failed UV read
    leaves uv_index at 0.0, a failed wind-speed read wind_speed at 0.0,
    a failed AQI read pm2_5 at 0.0, and failed wind-direction and
    rainfall reads leave their keys out; the fields of each sensor are
    those its own reader returned, whatever happened to the other
    reads; a reader that raises is passed over and the readers after it
    are still read; and every turn of the acquisition loop and of the
    writer loop completes, so the loops run for as long as the running
    flag is set. *)
Theorem C5_read_failures_default (i : cycle_input) :
  let d := cycle_snapshot sensors i in
  (modbus_failed 3 (environment_resp i) = true ->
     d !! "temperature" = Some (VFloat 0.0)
     /\ d !! "humidity" = Some (VFloat 0.0)
     /\ d !! "pressure" = Some (VFloat 0.0))
  /\ (modbus_failed 1 (uv_resp i) = true -> d !! "uv_index" = Some (VFloat 0.0))
  /\ (modbus_failed 1 (wind_speed_resp i) = true -> d !! "wind_speed" = Some (VFloat 0.0))
  /\ (aqi_failed (aqi_src i) = true -> d !! "pm2_5" = Some (VFloat 0.0))
  /\ (modbus_failed 3 (wind_direction_resp i) = true ->
     d !! "wind_dir_degrees" = None /\ d !! "wind_dir_cardinal" = None)
  /\ (modbus_failed 1 (rainfall_resp i) = true -> d !! "rainfall" = None)
  /\ (forall k, k ∈ ["temperature"; "humidity"; "pressure"] ->
     d !! k = (read_environment_sensor (environment_resp i)).2 !! k)
  /\ d !! "uv_index" = (read_uv_sensor (uv_resp i)).2 !! "uv_index"
  /\ (forall k, k ∈ ["co2"; "pm2_5"; "pm10"; "carbon_monoxide"; "nitrogen_dioxide";
                     "sulphur_dioxide"; "ozone"] ->
     d !! k = (read_aqi_sensor (aqi_src i)).2 !! k)
  /\ d !! "wind_speed" = (read_wind_speed (wind_speed_resp i)).2 !! "wind_speed"
  /\ (forall k, k ∈ ["wind_dir_degrees"; "wind_dir_cardinal"] ->
     d !! k = (read_wind_direction (wind_direction_resp i)).2 ≫= (.!! k))
  /\ d !! "rainfall" = (read_rainfall (rainfall_resp i)).2 ≫= (.!! "rainfall")
  /\ d !! "timestamp" = Some (VStr (timestamp i))
  /\ (forall csv_interval s, connect i = Return true ->
     heap (sensor_reader_cycle csv_interval i s)
       !! sensor_data (sensor_reader_cycle csv_interval i s) = Some d)
  /\ (forall rs1 rs2 name (rd : reader) e, (rd i).2 = Raise e ->
     cycle_snapshot (rs1 ++ (name, rd) :: rs2) i = cycle_snapshot (rs1 ++ rs2) i)
  /\ (forall rs csv_interval inputs s, Forall (fun i => running i = true) inputs ->
     length (sensor_reader_loop_with rs csv_interval inputs s) = length inputs)
  /\ (forall days s, Forall (fun x : bool * date => x.1 = true) days ->
     length (csv_writer_loop days s) = length days).
Proof.
  intros d.
  assert (Henv : forall k, k ∈ ["temperature"; "humidity"; "pressure"] ->
            d !! k = (read_environment_sensor (environment_resp i)).2 !! k).
  { intros k Hk. subst d.
    repeat (apply elem_of_cons in Hk as [->|Hk]); [..|by apply elem_of_nil in Hk];
      snapshot_lookup; apply option_match_id. }
  assert (Huv : d !! "uv_index" = (read_uv_sensor (uv_resp i)).2 !! "uv_index").
  { subst d. snapshot_lookup. apply option_match_id. }
  assert (Haqi : forall k, k ∈ ["co2"; "pm2_5"; "pm10"; "carbon_monoxide";
                                "nitrogen_dioxide"; "sulphur_dioxide"; "ozone"] ->
            d !! k = (read_aqi_sensor (aqi_src i)).2 !! k).
  { intros k Hk. subst d.
    repeat (apply elem_of_cons in Hk as [->|Hk]); [..|by apply elem_of_nil in Hk];
      snapshot_lookup; apply option_match_id. }
  assert (Hws : d !! "wind_speed" = (read_wind_speed (wind_speed_resp i)).2 !! "wind_speed").
  { subst d. snapshot_lookup. apply option_match_id. }
  assert (Hwd : forall k, k ∈ ["wind_dir_degrees"; "wind_dir_cardinal"] ->
            d !! k = (read_wind_direction (wind_direction_resp i)).2 ≫= (.!! k)).
  { intros k Hk. subst d.
    repeat (apply elem_of_cons in Hk as [->|Hk]); [..|by apply elem_of_nil in Hk];
      snapshot_lookup; apply option_match_id. }
  assert (Hrain : d !! "rainfall" = (read_rainfall (rainfall_resp i)).2 ≫= (.!! "rainfall")).
  { subst d. snapshot_lookup. apply option_match_id. }
  repeat split; try done.
  - rewrite Henv by (apply list_elem_of_In; cbn; tauto).
    failed_read (environment_resp i).
  - rewrite Henv by (apply list_elem_of_In; cbn; tauto).
    failed_read (environment_resp i).
  - rewrite Henv by (apply list_elem_of_In; cbn; tauto).
    failed_read (environment_resp i).
  - rewrite Huv. failed_read (uv_resp i).
  - rewrite Hws. failed_read (wind_speed_resp i).
  - rewrite Haqi by (apply list_elem_of_In; cbn; tauto).
    by destruct (aqi_src i).
  - rewrite Hwd by (apply list_elem_of_In; cbn; tauto).
    failed_read (wind_direction_resp i).
  - rewrite Hwd by (apply list_elem_of_In; cbn; tauto).
    failed_read (wind_direction_resp i).
  - rewrite Hrain. failed_read (rainfall_resp i).
  - subst d. snapshot_lookup. apply lookup_singleton_eq.
  - intros ci s Hc. by apply sensor_reader_cycle_live.
  - intros. by eapply raising_reader_skipped.
  - intros. by apply sensor_reader_loop_length.
  - intros. by apply csv_writer_loop_length.
Qed.

Lemma C5_read_failures_witness :
  let i := CycleInput true (Return true) "2024-03-15T10:00:00"
             ModbusError ModbusRaises AqiFileMissing ModbusError ModbusError ModbusRaises
             (Registers [102%Z]) 31 in
  let d := cycle_snapshot sensors i in
  d !! "temperature" = Some (VFloat 0.0)
  /\ d !! "uv_index" = Some (VFloat 0.0)
  /\ d !! "pm2_5" = Some (VFloat 0.0)
  /\ d !! "wind_dir_degrees" = None
  /\ d !! "rainfall" = Some (scaled 102 10.0).
Proof.
  intros i d.
  destruct (C5_read_failures_default i)
    as (Henv & Huv & _ & Haqi & Hwd & _ & _ & _ & _ & _ & _ & Hrain & _).
  split; [apply Henv; reflexivity|].
  split; [apply Huv; reflexivity|].
  split; [apply Haqi; reflexivity|].
  split; [apply Hwd; reflexivity|].
  exact Hrain.
Defined.

(** ** Snapshots on the queue *)

Lemma fresh_loc_not_in (h : gmap loc dict) (l : loc) :
  is_Some (h !! l) -> l <> fresh (dom h).
Proof.
  intros Hl ->. apply elem_of_dom in Hl. by apply is_fresh in Hl.
Qed.

Lemma sensor_reader_cycle_queue (rs : list (string * reader)) (csv_interval : Q)
    (i : cycle_input) (s : station) :
  connect i = Return true ->
  (csv_interval <= clock i - last_csv_time s)%Q ->
  data_queue (sensor_reader_cycle_with rs csv_interval i s)
  = data_queue s ++ [sensor_data (sensor_reader_cycle_with rs csv_interval i s)].
Proof.
  intros Hc Ht. unfold sensor_reader_cycle_with. rewrite Hc.
  destruct (read_sensors i rs _) as [current_data lg].
  apply Qle_bool_iff in Ht. by rewrite Ht.
Qed.

Lemma sensor_reader_cycle_frame (rs : list (string * reader)) (csv_interval : Q)
    (i : cycle_input) (s : station) (l : loc) :
  is_Some (heap s !! l) ->
  heap (sensor_reader_cycle_with rs csv_interval i s) !! l = heap s !! l.
Proof.
  intros Hl. unfold sensor_reader_cycle_with.
  destruct (connect i) as [[|]|e]; try done.
  destruct (read_sensors i rs _) as [current_data lg].
  destruct (Qle_bool _ _); cbn [heap]; apply lookup_insert_ne;
    intros E; by apply (fresh_loc_not_in (heap s) l).
Qed.

(** C4 (as amended): the dictionary a cycle puts on the queue is the
    object it has just installed as the live snapshot, not a copy of
    it: the queued reference and [self.sensor_data] are one location.
    Every cycle builds its dictionary afresh, so the replacement of the
    live snapshot by later cycles leaves the dictionaries already in
    the store, queued ones included, as they were; a write through the
    live reference, though, is seen through the queued one.  This holds
    whatever the reader table [rs], so for the loop of either variant
    ([sensors] and [Legacy.sensors]). *)
Theorem C4_queued_snapshot_is_live_object (rs : list (string * reader)) (csv_interval : Q)
    (i : cycle_input) (s : station) :
  connect i = Return true ->
  (csv_interval <= clock i - last_csv_time s)%Q ->
  let s' := sensor_reader_cycle_with rs csv_interval i s in
  data_queue s' = data_queue s ++ [sensor_data s']
  /\ heap s' !! sensor_data s' = Some (cycle_snapshot rs i)
  /\ (forall l, is_Some (heap s !! l) ->
      sensor_data s' <> l
      /\ forall i2 csv_interval2,
           heap (sensor_reader_cycle_with rs csv_interval2 i2 s') !! l = heap s !! l)
  /\ (forall i2 csv_interval2,
      heap (sensor_reader_cycle_with rs csv_interval2 i2 s') !! sensor_data s'
      = Some (cycle_snapshot rs i))
  /\ (forall key v,
      heap (mutate (sensor_data s') key v s') !! sensor_data s'
      = Some (<[key := v]> (cycle_snapshot rs i))
      /\ last (data_queue (mutate (sensor_data s') key v s')) = Some (sensor_data s')).
Proof.
  intros Hc Ht s'.
  pose proof (sensor_reader_cycle_queue rs csv_interval i s Hc Ht) as Hq.
  pose proof (sensor_reader_cycle_live rs csv_interval i s Hc) as Hl.
  fold s' in Hq, Hl.
  split; [done|]. split; [done|]. split; [|split].
  - intros l Hlive.
    pose proof (sensor_reader_cycle_frame rs csv_interval i s l Hlive) as Hf.
    fold s' in Hf.
    split.
    + intros <-. subst s'. unfold sensor_reader_cycle_with in Hlive.
      rewrite Hc in Hlive. destruct (read_sensors i rs _) as [cd lg].
      destruct (Qle_bool _ _); cbn [sensor_data] in Hlive;
        by apply (fresh_loc_not_in (heap s) _ Hlive).
    + intros i2 ci2.
      rewrite sensor_reader_cycle_frame; [done|]. rewrite Hf. done.
  - intros i2 ci2.
    rewrite sensor_reader_cycle_frame; [done|]. by rewrite Hl.
  - intros key v. split.
    + unfold mutate. cbn [heap]. rewrite lookup_alter_eq, Hl. done.
    + unfold mutate. cbn [data_queue]. rewrite Hq. apply last_snoc.
Qed.

Lemma C4_queued_snapshot_witness :
  let s0 := Station {[1%positive := ∅]} 1%positive [] ∅ [] 0 in
  let i := CycleInput true (Return true) "2024-03-15T10:00:00"
             (Registers [250; 450; 10130]%Z) (Registers [123%Z]) AqiFileMissing
             ModbusError (Registers [15%Z]) (Registers [900; 0; 905]%Z) (Registers [102%Z]) 31 in
  let s' := sensor_reader_cycle 30 i s0 in
  (30 <= clock i - last_csv_time s0)%Q
  /\ data_queue s' = data_queue s0 ++ [sensor_data s']
  /\ heap s' !! sensor_data s' = Some (cycle_snapshot sensors i).
Proof.
  intros s0 i s'.
  assert (Ht : (30 <= clock i - last_csv_time s0)%Q) by (vm_compute; discriminate).
  destruct (C4_queued_snapshot_is_live_object sensors 30 i s0 eq_refl Ht)
    as (Hq & Hl & _).
  split; [exact Ht|]. split; [exact Hq | exact Hl].
Defined.

(** C4 as stated fails: after a cycle that enqueues, the last element
    of the queue and [self.sensor_data] are the same location, and a
    write through the live reference changes what the queued one
    shows.  Both variants behave so. *)
Lemma C4_queued_snapshot_aliases_live :
  let s0 := Station {[1%positive := ∅]} 1%positive [] ∅ [] 0 in
  let i := CycleInput true (Return true) "2024-03-15T10:00:00"
             (Registers [250; 450; 10130]%Z) (Registers [123%Z]) AqiFileMissing
             ModbusError (Registers [15%Z]) (Registers [900; 0; 905]%Z)
             (Registers [102%Z]) 31 in
  let s1 := sensor_reader_cycle 30 i s0 in
  let s2 := mutate (sensor_data s1) "temperature" (VStr "overwritten") s1 in
  let t1 := Legacy.sensor_reader_cycle 30 i s0 in
  let t2 := mutate (sensor_data t1) "temperature" (VStr "overwritten") t1 in
  (last (data_queue s1) = Some (sensor_data s1)
   /\ (last (data_queue s1) ≫= (heap s1 !!.)) ≫= (.!! "temperature")
      = Some (scaled 250 10.0)
   /\ (last (data_queue s2) ≫= (heap s2 !!.)) ≫= (.!! "temperature")
      = Some (VStr "overwritten"))
  /\ (last (data_queue t1) = Some (sensor_data t1)
      /\ (last (data_queue t1) ≫= (heap t1 !!.)) ≫= (.!! "temperature")
         = Some (scaled 250 10.0)
      /\ (last (data_queue t2) ≫= (heap t2 !!.)) ≫= (.!! "temperature")
         = Some (VStr "overwritten")).
Proof. vm_compute. repeat split. Qed.

(** ** Persistence writer *)

Lemma today_file_not_expired (today : date) :
  valid_date today = true -> (1000 <= year today)%Z ->
  expired "weather_data_" ".csv" today (csv_file_name today) = false.
Proof.
  intros Hv Hy. unfold csv_file_name.
  rewrite (expired_pattern_name "eather_data_" "csv" today today) by done.
  unfold days_between. rewrite Z.sub_diag. reflexivity.
Qed.

Lemma csv_row_fields (ts : value) (data : dict) :
  data !! "timestamp" = Some ts ->
  forall (n : nat) (key : string),
    csv_columns !! n = Some key ->
    csv_row ts data !! n = Some (get_or_empty data key).
Proof.
  intros Hts n key Hk. unfold get_or_empty.
  do 16 (destruct n as [|n];
         [apply (inj Some) in Hk; subst key; cbn; by rewrite ?Hts |]).
  discriminate Hk.
Qed.

(** C8: for a dequeued snapshot the writer takes the file named after
    today's date.  If the file is not there it is created with the
    header row and the retention sweep is run over the directory, and
    the file then holds the header and one data row; if it is there,
    exactly one row is appended and nothing else changes.  The row has
    one field for each of the sixteen header columns, in the header's
    order: the value the snapshot has under that column's name, or the
    empty string. *)
Theorem C8_csv_writer_row (today : date) (s : station) (l : loc) (queue' : list loc)
    (data : dict) (ts : value) :
  valid_date today = true -> (1000 <= year today)%Z ->
  data_queue s = l :: queue' ->
  heap s !! l = Some data ->
  data !! "timestamp" = Some ts ->
  let s' := csv_writer_iteration today s in
  let csv_file := ("weather_data_" ++ strftime today ++ ".csv")%string in
  data_queue s' = queue'
  /\ (csv_dir s !! csv_file = None ->
      csv_dir s' !! csv_file = Some [csv_header; csv_row ts data]
      /\ forall name, name <> csv_file ->
           csv_dir s' !! name = (cleanup_old_csv today (csv_dir s)).1 !! name)
  /\ (forall rows, csv_dir s !! csv_file = Some rows ->
      csv_dir s' = <[csv_file := rows ++ [csv_row ts data]]> (csv_dir s))
  /\ csv_header = VStr <$>
       [ "timestamp"; "temperature"; "humidity"; "pressure"; "uv_index"; "co2";
         "formaldehyde"; "tvoc"; "pm2_5"; "pm10"; "aqi_temperature"; "aqi_humidity";
         "wind_speed"; "wind_dir_degrees"; "wind_dir_cardinal"; "rainfall" ]
  /\ length (csv_row ts data) = length csv_header
  /\ (forall (n : nat) (key : string),
      csv_header !! n = Some (VStr key) ->
      csv_row ts data !! n = Some (default (VStr "") (data !! key))).
Proof.
  intros Hv Hy Hq Hl Hts s' csv_file.
  assert (Hs' : s' =
    let '(dir1, lg1) :=
      match csv_dir s !! csv_file with
      | None =>
          let '(d, lines) :=
            cleanup_old_csv today (<[csv_file := [csv_header]]> (csv_dir s)) in
          (d, station_log s ++ lines)
      | Some _ => (csv_dir s, station_log s)
      end in
    Station (heap s) (sensor_data s) queue'
      (<[csv_file := default [] (dir1 !! csv_file) ++ [csv_row ts data]]> dir1) lg1
      (last_csv_time s)).
  { subst s'. unfold csv_writer_iteration. rewrite Hq. fold csv_file.
    change (csv_file_name today) with csv_file.
    destruct (match csv_dir s !! csv_file with Some _ => _ | None => _ end) as [dir1 lg1].
    rewrite Hl. cbn. by rewrite Hts. }
  split; [|split; [|split; [|split; [|split]]]].
  - rewrite Hs'. by destruct (match csv_dir s !! csv_file with Some _ => _ | None => _ end).
  - intros Hnone. rewrite Hs', Hnone.
    pose proof (cleanup_old_lookup "weather_data_" ".csv" today
                  (<[csv_file := [csv_header]]> (csv_dir s))) as Hsweep.
    fold (cleanup_old_csv today (<[csv_file := [csv_header]]> (csv_dir s))) in Hsweep.
    pose proof (cleanup_old_lookup "weather_data_" ".csv" today (csv_dir s)) as Hsweep0.
    fold (cleanup_old_csv today (csv_dir s)) in Hsweep0.
    destruct (cleanup_old_csv today (<[csv_file := [csv_header]]> (csv_dir s)))
      as [d lines].
    cbn [fst csv_dir] in *.
    assert (Hf : d !! csv_file = Some [csv_header]).
    { rewrite Hsweep. change csv_file with (csv_file_name today).
      rewrite today_file_not_expired by done. apply lookup_insert_eq. }
    split.
    + rewrite lookup_insert_eq, Hf. done.
    + intros name Hne. rewrite lookup_insert_ne by done.
      rewrite Hsweep, Hsweep0. by rewrite lookup_insert_ne.
  - intros rows Hrows. rewrite Hs', Hrows. cbn [csv_dir]. by rewrite Hrows.
  - reflexivity.
  - reflexivity.
  - intros n key Hk. unfold csv_header in Hk.
    rewrite list_lookup_fmap in Hk.
    destruct (csv_columns !! n) as [key'|] eqn:Ek; [|discriminate].
    apply (inj Some) in Hk. injection Hk as ->.
    by apply csv_row_fields.
Qed.

Lemma C8_csv_writer_row_witness :
  let today := Date 2024 3 15 in
  let data : dict := <["timestamp" := VStr "2024-03-15T10:00:00"]>
                       (<["temperature" := VFloat 25.0]> ∅) in
  let s := Station {[2%positive := data]} 2%positive [2%positive]
             (<["weather_data_2024-03-01.csv" := [csv_header]]> ∅) [] 0 in
  let s' := csv_writer_iteration today s in
  data_queue s' = []
  /\ csv_dir s' !! "weather_data_2024-03-15.csv"
     = Some [csv_header; csv_row (VStr "2024-03-15T10:00:00") data].
Proof.
  intros today data s s'.
  destruct (C8_csv_writer_row today s 2%positive [] data (VStr "2024-03-15T10:00:00")
              eq_refl ltac:(vm_compute; discriminate) eq_refl eq_refl eq_refl)
    as (Hq & Hnew & _).
  split; [exact Hq|]. apply Hnew. reflexivity.
Defined.

(** ** Scenarios of the two variants *)

(** The registers 250, 450, 10130 of the environment sensor read as
    25.0 degrees, 45.0 percent and 1013.0 hPa. *)
Lemma environment_scenario :
  exists t h p,
    (read_environment_sensor (Registers [250; 450; 10130]%Z)).2
    = list_to_map [("temperature", VFloat t); ("humidity", VFloat h); ("pressure", VFloat p)]
    /\ (t == 25.0)%Q /\ (h == 45.0)%Q /\ (p == 1013.0)%Q.
Proof. do 3 eexists. split; [reflexivity|]. repeat split. Qed.

(** In [awos.py] a failed read of any sensor returns [None], so the
    sensor's keys are left out of the snapshot instead of being set to
    zero. *)
Lemma legacy_failures_omit (resp : modbus_response) :
  modbus_failed 1 resp = true ->
  (Legacy.read_environment_sensor resp).2 = None
  /\ (Legacy.read_uv_sensor resp).2 = None
  /\ (Legacy.read_aqi_sensor resp).2 = None
  /\ (Legacy.read_wind_speed resp).2 = None.
Proof.
  intros H. destruct resp as [| |[|r rest]]; cbn in H; try discriminate H;
    repeat split.
Qed.

(** * Further properties *)

(** ** Bands and the AQI curve *)

Ltac split_hyps :=
  repeat match goal with
    | H : _ /\ _ |- _ => destruct H
    end.

(** X1: the bands of the three classification functions divide the
    non-negative numbers without a gap, and a value on the edge shared
    by two bands is given the lower band: AQI 50 is GOOD, 100 MODERATE,
    150 and 200 UNHEALTHY, 300 VERY UNHEALTHY; UV 2 is LOW, 5 MODERATE,
    7 HIGH, 10 VERY HIGH; humidity 30 is LOW, 50 NORMAL, 60 SLIGHTLY
    HIGH, 70 HIGH; above the last edge the highest band is returned. *)
Theorem classification_band_partition (v : Q) :
  (((0 <= v /\ v <= 50)%Q -> get_aqi_state (Some v) = ("GOOD", "#39FF14"))
   /\ ((50 < v /\ v <= 100)%Q -> get_aqi_state (Some v) = ("MODERATE", "#FFFF00"))
   /\ ((100 < v /\ v <= 150)%Q -> get_aqi_state (Some v) = ("UNHEALTHY", "#FF7E00"))
   /\ ((150 < v /\ v <= 200)%Q -> get_aqi_state (Some v) = ("UNHEALTHY", "#FF0000"))
   /\ ((200 < v /\ v <= 300)%Q -> get_aqi_state (Some v) = ("VERY UNHEALTHY", "#8F3F97"))
   /\ ((300 < v)%Q -> get_aqi_state (Some v) = ("HAZARDOUS", "#7E0023")))
  /\ (((0 <= v /\ v <= 2)%Q -> get_uv_state (Some v) = ("LOW", "#39FF14"))
   /\ ((2 < v /\ v <= 5)%Q -> get_uv_state (Some v) = ("MODERATE", "#FFFF00"))
   /\ ((5 < v /\ v <= 7)%Q -> get_uv_state (Some v) = ("HIGH", "#FF7E00"))
   /\ ((7 < v /\ v <= 10)%Q -> get_uv_state (Some v) = ("VERY HIGH", "#FF0000"))
   /\ ((10 < v)%Q -> get_uv_state (Some v) = ("EXTREME", "#8F3F97")))
  /\ (((0 <= v /\ v <= 30)%Q -> get_humidity_state (Some v) = ("LOW", "#3EC1EC"))
   /\ ((30 < v /\ v <= 50)%Q -> get_humidity_state (Some v) = ("NORMAL", "#39FF14"))
   /\ ((50 < v /\ v <= 60)%Q -> get_humidity_state (Some v) = ("SLIGHTLY HIGH", "#FFFF00"))
   /\ ((60 < v /\ v <= 70)%Q -> get_humidity_state (Some v) = ("HIGH", "#FF7E00"))
   /\ ((70 < v)%Q -> get_humidity_state (Some v) = ("VERY HIGH", "#FF0000"))).
Proof.
  unfold get_aqi_state, get_uv_state, get_humidity_state.
  repeat split; intros H; split_hyps; band_cases; split_hyps;
    try reflexivity; exfalso;
    repeat match goal with H : _ \/ _ |- _ => destruct H end; lra.
Qed.

Lemma classification_band_partition_witness :
  get_aqi_state (Some 50%Q) = ("GOOD", "#39FF14")
  /\ get_uv_state (Some 5%Q) = ("MODERATE", "#FFFF00")
  /\ get_humidity_state (Some 70.5%Q) = ("VERY HIGH", "#FF0000").
Proof.
  split; [|split].
  - apply (proj1 (proj1 (classification_band_partition 50))). split; lra.
  - apply (proj1 (proj2 (proj1 (proj2 (classification_band_partition 5))))). split; lra.
  - apply (proj2 (proj2 (proj2 (proj2 (proj2 (proj2 (classification_band_partition 70.5))))))).
    lra.
Defined.

(** The six pieces of [calculate_aqi] as slopes. *)
Lemma calculate_aqi_affine (v : Q) :
  ((v / 12.0) * 50 == v * (25 # 6)
   /\ ((v - 12.1) / (35.4 - 12.1)) * (100 - 51) + 51 == (v - 12.1) * (490 # 233) + 51
   /\ ((v - 35.5) / (55.4 - 35.5)) * (150 - 101) + 101 == (v - 35.5) * (490 # 199) + 101
   /\ ((v - 55.5) / (150.4 - 55.5)) * (200 - 151) + 151 == (v - 55.5) * (490 # 949) + 151
   /\ ((v - 150.5) / (250.4 - 150.5)) * (300 - 201) + 201 == (v - 150.5) * (110 # 111) + 201
   /\ ((v - 250.5) / (500.4 - 250.5)) * (500 - 301) + 301
      == (v - 250.5) * (1990 # 2499) + 301)%Q.
Proof. repeat split; field. Qed.

(** Decide the band of every [calculate_aqi] in the goal and bring its
    piece to the affine form [lra] works with. *)
Ltac aqi_pieces v :=
  let A1 := fresh "A" in let A2 := fresh "A" in let A3 := fresh "A" in
  let A4 := fresh "A" in let A5 := fresh "A" in let A6 := fresh "A" in
  destruct (calculate_aqi_affine v) as (A1 & A2 & A3 & A4 & A5 & A6);
  rewrite ?A1, ?A2, ?A3, ?A4, ?A5, ?A6.

(** X2: computed exactly, [calculate_aqi] is strictly increasing over
    all numbers, across the band edges as well: a higher PM2.5 reading
    never gives a lower or an equal index. *)
Theorem calculate_aqi_strictly_increasing (v1 v2 a1 a2 : Q) :
  (v1 < v2)%Q ->
  calculate_aqi (Some v1) = Some a1 -> calculate_aqi (Some v2) = Some a2 ->
  (a1 < a2)%Q.
Proof.
  intros Hv H1 H2. unfold calculate_aqi in H1, H2.
  apply (inj Some) in H1, H2. subst a1 a2.
  band_cases; aqi_pieces v1; aqi_pieces v2; lra.
Qed.

Lemma calculate_aqi_strictly_increasing_witness :
  (12.0 < 12.05)%Q /\ (50 < ((12.05 - 12.1) / (35.4 - 12.1)) * (100 - 51) + 51)%Q.
Proof.
  assert (H : (12.0 < 12.05)%Q) by reflexivity.
  split; [exact H|].
  pose proof (calculate_aqi_strictly_increasing 12.0 12.05 _ _ H eq_refl eq_refl) as Hlt.
  assert (E : (12.0 / 12.0 * 50 == 50)%Q) by reflexivity.
  rewrite E in Hlt. exact Hlt.
Defined.

(** X3: computed exactly, [calculate_aqi] takes the concentrations from
    0 to 500.4, and only those, to indices from 0 to 500: a negative
    reading gives a negative index and a reading above 500.4 an index
    above 500; nothing is clamped. *)
Theorem calculate_aqi_range (v a : Q) :
  calculate_aqi (Some v) = Some a ->
  ((0 <= v /\ v <= 500.4)%Q <-> (0 <= a /\ a <= 500)%Q)
  /\ ((v < 0)%Q <-> (a < 0)%Q)
  /\ ((500.4 < v)%Q <-> (500 < a)%Q).
Proof.
  intros H. unfold calculate_aqi in H. apply (inj Some) in H. subst a.
  band_cases; aqi_pieces v; repeat split; intros; split_hyps; lra.
Qed.

Lemma calculate_aqi_range_witness :
  (500 < ((600 - 250.5) / (500.4 - 250.5)) * (500 - 301) + 301)%Q.
Proof.
  apply (proj1 (proj2 (proj2 (calculate_aqi_range 600 _ eq_refl)))). reflexivity.
Defined.

(** ** Rounding *)

Lemma Qfloor_unique (q : Q) (z : Z) :
  (inject_Z z <= q)%Q -> (q < inject_Z z + 1)%Q -> Qfloor q = z.
Proof.
  intros Hlo Hhi.
  pose proof (Qfloor_le q) as H1. pose proof (Qlt_floor q) as H2.
  rewrite inject_Z_plus in H2. change (inject_Z 1) with 1%Q in H2.
  assert (Ha : (inject_Z z < inject_Z (Qfloor q + 1))%Q).
  { rewrite inject_Z_plus. change (inject_Z 1) with 1%Q. lra. }
  assert (Hb : (inject_Z (Qfloor q) < inject_Z (z + 1))%Q).
  { rewrite inject_Z_plus. change (inject_Z 1) with 1%Q. lra. }
  rewrite <- Zlt_Qlt in Ha, Hb. lia.
Qed.

Lemma inject_Z_pred (k : Z) : (inject_Z (k - 1) == inject_Z k - 1)%Q.
Proof.
  unfold Z.sub. rewrite inject_Z_plus, inject_Z_opp. change (inject_Z 1) with 1%Q. lra.
Qed.

(** Strictly within a half of an integer, [round] gives that integer. *)
Lemma py_round_open (q : Q) (k : Z) :
  (inject_Z k - (1 # 2) < q)%Q -> (q < inject_Z k + (1 # 2))%Q -> py_round q = k.
Proof.
  intros Hlo Hhi. unfold py_round.
  destruct (Qlt_le_dec q (inject_Z k)) as [Hlt|Hge].
  - assert (Hf : Qfloor q = (k - 1)%Z).
    { apply Qfloor_unique; rewrite inject_Z_pred; lra. }
    rewrite Hf.
    assert (E : (q - inject_Z (k - 1) ?= 1 # 2)%Q = Gt).
    { apply (proj1 (Qgt_alt _ _)). rewrite inject_Z_pred. lra. }
    rewrite E. lia.
  - assert (Hf : Qfloor q = k) by (apply Qfloor_unique; lra).
    rewrite Hf.
    assert (E : (q - inject_Z k ?= 1 # 2)%Q = Lt) by (apply (proj1 (Qlt_alt _ _)); lra).
    by rewrite E.
Qed.

(** Half way between two integers, [round] gives the even one. *)
Lemma py_round_tie (q : Q) (k : Z) :
  (q == inject_Z k + (1 # 2))%Q -> py_round q = if Z.even k then k else (k + 1)%Z.
Proof.
  intros Hq. unfold py_round.
  assert (Hf : Qfloor q = k) by (apply Qfloor_unique; lra).
  rewrite Hf.
  assert (E : (q - inject_Z k ?= 1 # 2)%Q = Eq) by (apply (proj1 (Qeq_alt _ _)); lra).
  by rewrite E.
Qed.

Lemma py_round_le (p q : Q) : (p <= q)%Q -> (py_round p <= py_round q)%Z.
Proof.
  intros Hpq.
  destruct (Z.le_gt_cases (py_round p) (py_round q)) as [|Hgt]; [done|].
  pose proof (py_round_nearest p) as Hp. pose proof (py_round_nearest q) as Hq.
  apply Qabs_Qle_condition in Hp, Hq.
  assert (H1 : (inject_Z (py_round q + 1) <= inject_Z (py_round p))%Q).
  { rewrite <- Zle_Qle. lia. }
  rewrite inject_Z_plus in H1. change (inject_Z 1) with 1%Q in H1.
  rewrite (py_round_comp p q) in Hgt by lra. lia.
Qed.

(** [round] commutes with adding an even integer. *)
Lemma py_round_add_even (q : Q) (n : Z) :
  Z.even n = true -> py_round (q + inject_Z n) = (py_round q + n)%Z.
Proof.
  intros Hn. unfold py_round.
  assert (Hf : Qfloor (q + inject_Z n) = (Qfloor q + n)%Z).
  { apply Qfloor_unique.
    - rewrite inject_Z_plus. pose proof (Qfloor_le q). lra.
    - rewrite inject_Z_plus. pose proof (Qlt_floor q) as H.
      rewrite inject_Z_plus in H. change (inject_Z 1) with 1%Q in H. lra. }
  rewrite Hf.
  assert (E : (q + inject_Z n - inject_Z (Qfloor q + n) == q - inject_Z (Qfloor q))%Q).
  { rewrite inject_Z_plus. lra. }
  rewrite E. rewrite Z.even_add, Hn.
  destruct (q - inject_Z (Qfloor q) ?= 1 # 2)%Q; [|lia..].
  destruct (Z.even (Qfloor q)); cbn; lia.
Qed.

(** ** Compass sectors *)

Lemma sector_scaled (d : Q) : (d / 22.5 == d * (2 # 45))%Q.
Proof. field. Qed.

(** X4: [_degrees_to_cardinal] divides the circle in sixteen sectors of
    22.5 degrees centred on the compass points: a direction within
    11.25 degrees of [22.5 * k] is given the [k]-th point (the 16th
    being N again), and a direction exactly half way between two points
    is given the one of even index, so one of the eight principal
    points N, NE, E, SE, S, SW, W, NW. *)
Theorem degrees_to_cardinal_sectors (d : Q) (k : Z) :
  (0 <= d)%Q -> (d <= 360)%Q ->
  ((22.5 * inject_Z k - 11.25 < d /\ d < 22.5 * inject_Z k + 11.25)%Q ->
     directions !! Z.to_nat (k mod 16) = Some (_degrees_to_cardinal (Some d)))
  /\ ((d == 22.5 * inject_Z k + 11.25)%Q ->
     directions !! Z.to_nat ((if Z.even k then k else k + 1) mod 16)
     = Some (_degrees_to_cardinal (Some d))).
Proof.
  intros H0 H1.
  pose proof (degrees_to_cardinal_in_range d H0 H1) as Hd.
  rewrite (py_round_comp _ _ (sector_scaled d)) in Hd.
  split.
  - intros [Hlo Hhi]. rewrite <- Hd. do 3 f_equal. symmetry. apply py_round_open; lra.
  - intros He. rewrite <- Hd. do 3 f_equal. symmetry. apply py_round_tie. lra.
Qed.

Lemma degrees_to_cardinal_sectors_witness :
  directions !! Z.to_nat (15 mod 16) = Some (_degrees_to_cardinal (Some 340%Q))
  /\ directions !! Z.to_nat ((if Z.even 1 then 1 else 1 + 1) mod 16)
     = Some (_degrees_to_cardinal (Some 33.75%Q)).
Proof.
  split.
  - apply (proj1 (degrees_to_cardinal_sectors 340 15 ltac:(lra) ltac:(lra))).
    split; vm_compute; reflexivity.
  - apply (proj2 (degrees_to_cardinal_sectors 33.75 1 ltac:(lra) ltac:(lra))).
    reflexivity.
Defined.

(** ** The wind vane's registers *)

Lemma wind_avg_twentieth (reg_0 reg_2 : Z) :
  (inject_Z (reg_0 + reg_2) / 2.0 / 10.0 == inject_Z (reg_0 + reg_2) * (1 # 20))%Q.
Proof. field. Qed.

Lemma wind_degrees_in_range (s : Z) :
  (0 <= py_round (inject_Z s * (1 # 20)) <= 360)%Z <-> (-10 <= s <= 7210)%Z.
Proof.
  assert (Hlo : py_round (inject_Z (-10) * (1 # 20)) = 0%Z) by reflexivity.
  assert (Hlo' : py_round (inject_Z (-11) * (1 # 20)) = (-1)%Z) by reflexivity.
  assert (Hhi : py_round (inject_Z 7210 * (1 # 20)) = 360%Z) by reflexivity.
  assert (Hhi' : py_round (inject_Z 7211 * (1 # 20)) = 361%Z) by reflexivity.
  assert (Hmono : forall a b : Z, (a <= b)%Z ->
            (py_round (inject_Z a * (1 # 20)) <= py_round (inject_Z b * (1 # 20)))%Z).
  { intros a b Hab. apply py_round_le. rewrite Zle_Qle in Hab. lra. }
  split.
  - intros [H0 H1].
    destruct (Z.le_gt_cases (-10) s) as [Ha|Ha], (Z.le_gt_cases s 7210) as [Hb|Hb];
      try lia.
    + pose proof (Hmono 7211 s ltac:(lia))%Z. lia.
    + pose proof (Hmono s (-11) ltac:(lia))%Z. lia.
  - intros [Ha Hb].
    pose proof (Hmono (-10)%Z s Ha). pose proof (Hmono s 7210%Z Hb). lia.
Qed.

(** X5: with registers 0 and 2 read, [read_wind_direction] returns a
    reading exactly when their sum lies between -10 and 7210 (the
    average, in tenths of a degree, rounds into 0..360); the reading
    then holds a whole number of degrees in 0..360 within half a degree
    of the average, and one of the sixteen compass points, never
    Unknown. *)
Theorem read_wind_direction_accepts (registers : list Z) (reg_0 reg_2 : Z) :
  registers !! 0%nat = Some reg_0 ->
  registers !! 2%nat = Some reg_2 ->
  (is_Some (read_wind_direction (Registers registers)).2
   <-> (-10 <= reg_0 + reg_2 <= 7210)%Z)
  /\ (forall data, (read_wind_direction (Registers registers)).2 = Some data ->
      exists (degrees : Z) (cardinal : string),
        data !! "wind_dir_degrees" = Some (VInt degrees)
        /\ data !! "wind_dir_cardinal" = Some (VStr cardinal)
        /\ (0 <= degrees <= 360)%Z
        /\ (Qabs (inject_Z degrees - inject_Z (reg_0 + reg_2) * (1 # 20)) <= 1 # 2)%Q
        /\ cardinal ∈ directions).
Proof.
  intros H0 H2. unfold read_wind_direction. rewrite H0, H2.
  rewrite (py_round_comp _ _ (wind_avg_twentieth reg_0 reg_2)).
  pose proof (wind_degrees_in_range (reg_0 + reg_2)) as Hr.
  set (degrees := py_round (inject_Z (reg_0 + reg_2) * (1 # 20))) in *.
  destruct ((0 <=? degrees) && (degrees <=? 360))%Z eqn:E; cbn [snd].
  - apply andb_true_iff in E as [Ea Eb]. apply Z.leb_le in Ea, Eb.
    split.
    + split; [intros _; apply Hr; lia | by eexists].
    + intros data Hd. apply (inj Some) in Hd. subst data.
      exists degrees, (_degrees_to_cardinal (Some (inject_Z degrees))).
      split; [reflexivity|]. split; [reflexivity|]. split; [lia|].
      split; [apply py_round_nearest|].
      assert (Hq : (0 <= inject_Z degrees /\ inject_Z degrees <= 360)%Q).
      { change 0%Q with (inject_Z 0). change 360%Q with (inject_Z 360).
        rewrite <- !Zle_Qle. lia. }
      destruct Hq as [Hq0 Hq1].
      pose proof (degrees_to_cardinal_in_range _ Hq0 Hq1) as Hc.
      by apply list_elem_of_lookup_2 in Hc.
  - split.
    + split; [by intros [? ?]|]. intros Hs. apply Hr in Hs.
      apply andb_false_iff in E as [E|E]; apply Z.leb_gt in E; lia.
    + intros data Hd. discriminate.
Qed.

Lemma read_wind_direction_accepts_witness :
  is_Some (read_wind_direction (Registers [3600; 0; 3610]%Z)).2
  /\ ~ is_Some (read_wind_direction (Registers [3600; 0; 3611]%Z)).2.
Proof.
  split.
  - apply (proj1 (read_wind_direction_accepts [3600; 0; 3610]%Z 3600 3610 eq_refl eq_refl)).
    lia.
  - intros H.
    apply (proj1 (read_wind_direction_accepts [3600; 0; 3611]%Z 3600 3611 eq_refl eq_refl))
      in H.
    lia.
Defined.

(** ** The bands of the other two variants *)

Lemma Qle_whole (a b : Z) : (a # 1 <= inject_Z b)%Q <-> (a <= b)%Z.
Proof. by rewrite (Zle_Qle a b). Qed.

Lemma Qge_whole (a b : Z) : (inject_Z b <= a # 1)%Q <-> (b <= a)%Z.
Proof. by rewrite (Zle_Qle b a). Qed.

Lemma Qlt_whole (a b : Z) : (a # 1 < inject_Z b)%Q <-> (a < b)%Z.
Proof. by rewrite (Zlt_Qlt a b). Qed.

Lemma Qgt_whole (a b : Z) : (inject_Z b < a # 1)%Q <-> (b < a)%Z.
Proof. by rewrite (Zlt_Qlt b a). Qed.

(** Bring the band tests on a whole number to the integers. *)
Ltac to_integers :=
  repeat match goal with
    | H : _ /\ _ |- _ => destruct H
    | H : _ \/ _ |- _ => destruct H
    | H : (_ # 1 <= inject_Z _)%Q |- _ => apply (proj1 (Qle_whole _ _)) in H
    | H : (inject_Z _ <= _ # 1)%Q |- _ => apply (proj1 (Qge_whole _ _)) in H
    | H : (_ # 1 < inject_Z _)%Q |- _ => apply (proj1 (Qlt_whole _ _)) in H
    | H : (inject_Z _ < _ # 1)%Q |- _ => apply (proj1 (Qgt_whole _ _)) in H
    end.

(** X6: the classification bands of [awos.py] have whole-number
    edges with openings between them: a value strictly between two
    bands (an AQI between 50 and 51, a UV index between 2 and 3, a
    humidity between 30 and 31, and so on) is given the highest band;
    on whole numbers the AQI bands join up. *)
Theorem legacy_bands_leave_gaps :
  (forall v : Q,
     (((50 < v /\ v < 51) \/ (100 < v /\ v < 101) \/ (150 < v /\ v < 151)
       \/ (200 < v /\ v < 201))%Q ->
      LegacyGui.get_aqi_state v = ("Hazardous", "#7E0023"))
     /\ (((2 < v /\ v < 3) \/ (5 < v /\ v < 6) \/ (7 < v /\ v < 8))%Q ->
         LegacyGui.get_uv_state v = ("Extreme", "#B567A4"))
     /\ (((30 < v /\ v < 31) \/ (50 < v /\ v < 51) \/ (60 < v /\ v < 61))%Q ->
         LegacyGui.get_humidity_state v = ("Very High", "#FF0000")))
  /\ (forall n : Z,
     ((0 <= n <= 50)%Z -> LegacyGui.get_aqi_state (inject_Z n) = ("Good", "#00E400"))
     /\ ((50 < n <= 100)%Z -> LegacyGui.get_aqi_state (inject_Z n) = ("Moderate", "#FFFF00"))
     /\ ((100 < n <= 150)%Z ->
         LegacyGui.get_aqi_state (inject_Z n) = ("Unhealthy", "#FF7E00"))
     /\ ((150 < n <= 200)%Z ->
         LegacyGui.get_aqi_state (inject_Z n) = ("Unhealthy", "#FF0000"))
     /\ ((200 < n <= 300)%Z ->
         LegacyGui.get_aqi_state (inject_Z n) = ("Very Unhealthy", "#8F3F97"))
     /\ ((300 < n)%Z -> LegacyGui.get_aqi_state (inject_Z n) = ("Hazardous", "#7E0023"))).
Proof.
  split.
  - intros v.
    unfold LegacyGui.get_aqi_state, LegacyGui.get_uv_state, LegacyGui.get_humidity_state.
    repeat split; intros H; band_cases; try reflexivity; exfalso; lra.
  - intros n. unfold LegacyGui.get_aqi_state.
    repeat split; intros H; band_cases; try reflexivity; exfalso; to_integers; lia.
Qed.

Lemma legacy_bands_leave_gaps_witness :
  LegacyGui.get_humidity_state 30.5 = ("Very High", "#FF0000")
  /\ LegacyGui.get_aqi_state (inject_Z 51) = ("Moderate", "#FFFF00").
Proof.
  split.
  - apply (proj2 (proj2 (proj1 legacy_bands_leave_gaps 30.5%Q))). left. split; lra.
  - apply (proj1 (proj2 (proj2 legacy_bands_leave_gaps 51%Z))). lia.
Defined.

(** A value with one decimal is not strictly between a whole tenth
    and the next. *)
Lemma tenths_avoid_gap (v : Q) (n k : Z) :
  (v == inject_Z n * (1 # 10))%Q ->
  ~ (inject_Z k < v * 10 /\ v * 10 < inject_Z k + 1)%Q.
Proof.
  intros Hn [Ha Hb].
  assert (Hv : (v * 10 == inject_Z n)%Q) by (rewrite Hn; field).
  rewrite Hv in Ha, Hb. rewrite <- Zlt_Qlt in Ha.
  change 1%Q with (inject_Z 1) in Hb.
  rewrite <- (inject_Z_plus k 1), <- Zlt_Qlt in Hb. lia.
Qed.

Ltac no_gap_at v n Hn k :=
  let G := fresh "G" in
  pose proof (tenths_avoid_gap v n k Hn) as G;
  cbv beta iota delta [inject_Z] in G.

(** X7: the classification functions of the simulator agree with
    those of [awos_refined.py] everywhere but strictly inside the
    openings a tenth wide above the band edges (50 to 50.1 and so on),
    where the simulator returns the highest band; on values with one
    decimal, as its simulated readers produce, the two agree. *)
Theorem test_gui_bands_differ_in_gaps (v : Q) :
  ((((50 < v /\ v < 50.1) \/ (100 < v /\ v < 100.1) \/ (150 < v /\ v < 150.1)
     \/ (200 < v /\ v < 200.1))%Q ->
    TestGui.get_aqi_state (Some v) = ("HAZARDOUS", "#7E0023"))
   /\ (~ ((50 < v /\ v < 50.1) \/ (100 < v /\ v < 100.1) \/ (150 < v /\ v < 150.1)
          \/ (200 < v /\ v < 200.1))%Q ->
       TestGui.get_aqi_state (Some v) = get_aqi_state (Some v)))
  /\ ((((2 < v /\ v < 2.1) \/ (5 < v /\ v < 5.1) \/ (7 < v /\ v < 7.1))%Q ->
       TestGui.get_uv_state (Some v) = ("EXTREME", "#8F3F97"))
      /\ (~ ((2 < v /\ v < 2.1) \/ (5 < v /\ v < 5.1) \/ (7 < v /\ v < 7.1))%Q ->
          TestGui.get_uv_state (Some v) = get_uv_state (Some v)))
  /\ ((((30 < v /\ v < 30.1) \/ (50 < v /\ v < 50.1) \/ (60 < v /\ v < 60.1))%Q ->
       TestGui.get_humidity_state (Some v) = ("VERY HIGH", "#FF0000"))
      /\ (~ ((30 < v /\ v < 30.1) \/ (50 < v /\ v < 50.1) \/ (60 < v /\ v < 60.1))%Q ->
          TestGui.get_humidity_state (Some v) = get_humidity_state (Some v)))
  /\ (forall n : Z, (v == inject_Z n * (1 # 10))%Q ->
      TestGui.get_aqi_state (Some v) = get_aqi_state (Some v)
      /\ TestGui.get_uv_state (Some v) = get_uv_state (Some v)
      /\ TestGui.get_humidity_state (Some v) = get_humidity_state (Some v)).
Proof.
  assert (Hbands :
    ((((50 < v /\ v < 50.1) \/ (100 < v /\ v < 100.1) \/ (150 < v /\ v < 150.1)
       \/ (200 < v /\ v < 200.1))%Q ->
      TestGui.get_aqi_state (Some v) = ("HAZARDOUS", "#7E0023"))
     /\ (~ ((50 < v /\ v < 50.1) \/ (100 < v /\ v < 100.1) \/ (150 < v /\ v < 150.1)
            \/ (200 < v /\ v < 200.1))%Q ->
         TestGui.get_aqi_state (Some v) = get_aqi_state (Some v)))
    /\ ((((2 < v /\ v < 2.1) \/ (5 < v /\ v < 5.1) \/ (7 < v /\ v < 7.1))%Q ->
         TestGui.get_uv_state (Some v) = ("EXTREME", "#8F3F97"))
        /\ (~ ((2 < v /\ v < 2.1) \/ (5 < v /\ v < 5.1) \/ (7 < v /\ v < 7.1))%Q ->
            TestGui.get_uv_state (Some v) = get_uv_state (Some v)))
    /\ ((((30 < v /\ v < 30.1) \/ (50 < v /\ v < 50.1) \/ (60 < v /\ v < 60.1))%Q ->
         TestGui.get_humidity_state (Some v) = ("VERY HIGH", "#FF0000"))
        /\ (~ ((30 < v /\ v < 30.1) \/ (50 < v /\ v < 50.1) \/ (60 < v /\ v < 60.1))%Q ->
            TestGui.get_humidity_state (Some v) = get_humidity_state (Some v)))).
  { unfold TestGui.get_aqi_state, TestGui.get_uv_state, TestGui.get_humidity_state,
      get_aqi_state, get_uv_state, get_humidity_state.
    split; [|split]; split; intros H; band_cases; try reflexivity; exfalso; lra. }
  destruct Hbands as (Ha & Hu & Hh).
  split; [exact Ha|]. split; [exact Hu|]. split; [exact Hh|].
  intros n Hn. destruct Ha as [_ Ha], Hu as [_ Hu], Hh as [_ Hh].
  split; [|split].
  - apply Ha. intros [G|[G|[G|G]]];
      [no_gap_at v n Hn 500%Z | no_gap_at v n Hn 1000%Z | no_gap_at v n Hn 1500%Z
      | no_gap_at v n Hn 2000%Z]; lra.
  - apply Hu. intros [G|[G|G]];
      [no_gap_at v n Hn 20%Z | no_gap_at v n Hn 50%Z | no_gap_at v n Hn 70%Z]; lra.
  - apply Hh. intros [G|[G|G]];
      [no_gap_at v n Hn 300%Z | no_gap_at v n Hn 500%Z | no_gap_at v n Hn 600%Z]; lra.
Qed.

Lemma test_gui_bands_differ_in_gaps_witness :
  TestGui.get_aqi_state (Some 50.05%Q) = ("HAZARDOUS", "#7E0023")
  /\ TestGui.get_aqi_state (Some 50.1%Q) = get_aqi_state (Some 50.1%Q).
Proof.
  split.
  - apply (proj1 (proj1 (test_gui_bands_differ_in_gaps 50.05))). left. split; lra.
  - apply (proj2 (proj2 (proj2 (test_gui_bands_differ_in_gaps 50.1))) 501%Z). reflexivity.
Defined.

(** ** The simulator's compass *)

(** X8: the simulator's [_degrees_to_cardinal] has no range test.  On
    0..360 it returns what the station's returns; outside 0..360,
    where the station's answers Unknown, it still gives one of the
    sixteen compass points, as it does for every finite number: 450
    degrees is E, -90 degrees is W and 720 degrees is N. *)
Theorem test_gui_cardinal_any_angle (d : Q) :
  ((0 <= d /\ d <= 360)%Q ->
   TestGui._degrees_to_cardinal d = _degrees_to_cardinal (Some d))
  /\ (~ (0 <= d /\ d <= 360)%Q -> _degrees_to_cardinal (Some d) = "Unknown")
  /\ TestGui._degrees_to_cardinal d ∈ directions
  /\ TestGui._degrees_to_cardinal 450 = "E"
  /\ TestGui._degrees_to_cardinal (-90) = "W"
  /\ TestGui._degrees_to_cardinal 720 = "N".
Proof.
  split; [|split; [|split]].
  - intros [H0 H1]. unfold TestGui._degrees_to_cardinal, _degrees_to_cardinal.
    assert (E : between 0 d 360 = true) by (by apply between_spec).
    by rewrite E.
  - intros Hout. unfold _degrees_to_cardinal.
    destruct (between 0 d 360) eqn:E; [|reflexivity].
    apply between_spec in E. by destruct Hout.
  - unfold TestGui._degrees_to_cardinal.
    pose proof (cardinal_index_in_range
                  (d / (360 / inject_Z (Z.of_nat (length directions))))) as Hr.
    apply list_elem_of_In, nth_In. exact Hr.
  - vm_compute. repeat split.
Qed.

Lemma test_gui_cardinal_any_angle_witness :
  TestGui._degrees_to_cardinal 90 = _degrees_to_cardinal (Some 90%Q)
  /\ _degrees_to_cardinal (Some 450%Q) = "Unknown".
Proof.
  split.
  - apply (proj1 (test_gui_cardinal_any_angle 90)). split; lra.
  - apply (proj1 (proj2 (test_gui_cardinal_any_angle 450))). intros [_ H]. lra.
Defined.

(** ** Rainfall over many calls *)

(** A call with a reading leaves the accumulator on the day of the
    call, holding the total it returned and the reading. *)
Lemma process_rainfall_state (now : date) (w : rain_world) (current_rain : Q) :
  rain_wf (rain w) ->
  exists total,
    (process_rainfall now (Some current_rain) w).2 = Return (Some total)
    /\ rain (process_rainfall now (Some current_rain) w).1
       = RainState (Some (day now)) (Some total) current_rain
    /\ ((forall t, daily_rain_total (rain w) = Some t -> (0 <= t)%Q) -> (0 <= total)%Q).
Proof.
  intros Hwf.
  destruct (decide (last_rain_reset_day (rain w) = Some (day now))) as [Hd|Hd].
  - destruct (Hwf (mk_is_Some _ _ Hd)) as [total Ht].
    rewrite (process_rainfall_same_day now w total current_rain Hd Ht).
    unfold spec_same_day_step.
    destruct (Qle_bool 0 (current_rain - last_rain_value (rain w))) eqn:E; cbn [fst snd].
    + eexists. split; [reflexivity|]. split; [reflexivity|].
      intros Hpos. specialize (Hpos total Ht). apply Qle_bool_iff in E. lra.
    + eexists. split; [reflexivity|]. split; [reflexivity|].
      intros Hpos. by apply Hpos.
  - rewrite (process_rainfall_new_day now w current_rain Hd).
    eexists. split; [reflexivity|]. split; [reflexivity|]. intros _. lra.
Qed.

(** X9: from a state in which the attributes [process_rainfall]
    creates are there together (as after [init_data_structures]) and
    the running total is not negative, no call of a run of calls, on
    whatever dates and readings, raises: a call without a reading
    returns [None] and a call with one returns a total that is not
    negative. *)
Theorem process_calls_never_raise (calls : list (date * option Q)) :
  forall w : rain_world,
    rain_wf (rain w) ->
    (forall t, daily_rain_total (rain w) = Some t -> (0 <= t)%Q) ->
    Forall2 (fun call out =>
               match call.2 with
               | None => out = Return None
               | Some _ => exists total, out = Return (Some total) /\ (0 <= total)%Q
               end)
      calls (process_calls calls w).2.
Proof.
  induction calls as [|[now [r|]] rest IH]; intros w Hwf Hpos; cbn [process_calls].
  - constructor.
  - destruct (process_rainfall_state now w r Hwf) as (total & Hout & Hst & Htot).
    destruct (process_rainfall now (Some r) w) as [w1 out]. cbn [fst snd] in *.
    specialize (IH w1).
    destruct (process_calls rest w1) as [w2 outs]. cbn [snd] in *.
    constructor.
    + cbn. exists total. split; [done|]. by apply Htot.
    + apply IH.
      * rewrite Hst. intros _. by eexists.
      * rewrite Hst. cbn. intros t Ht. apply (inj Some) in Ht. subst t. by apply Htot.
  - cbn [process_rainfall]. specialize (IH w Hwf Hpos).
    destruct (process_calls rest w) as [w2 outs]. cbn [snd] in *.
    constructor; [done|exact IH].
Qed.

Lemma process_calls_never_raise_witness :
  Forall2 (fun call out =>
             match call.2 with
             | None => out = Return None
             | Some _ => exists total, out = Return (Some total) /\ (0 <= total)%Q
             end)
    [(Date 2024 3 14, Some 10%Q); (Date 2024 3 14, None); (Date 2024 3 15, Some 4%Q)]
    (process_calls
       [(Date 2024 3 14, Some 10%Q); (Date 2024 3 14, None); (Date 2024 3 15, Some 4%Q)]
       init_rain_world).2.
Proof.
  apply process_calls_never_raise.
  - intros [d Hd]. discriminate Hd.
  - intros t Ht. discriminate Ht.
Defined.

(** X10: a reading passed a second time on the same day, as every
    refresh of the display does with the live snapshot, changes
    nothing: the second call returns the same total, writes no row and
    no log line, and leaves the reset day and the last raw value as
    they were. *)
Theorem process_rainfall_repeated_reading (now : date) (w : rain_world) (current_rain : Q) :
  rain_wf (rain w) ->
  let first := process_rainfall now (Some current_rain) w in
  let second := process_rainfall now (Some current_rain) first.1 in
  exists total total',
    first.2 = Return (Some total)
    /\ second.2 = Return (Some total')
    /\ (total' == total)%Q
    /\ totals_file second.1 = totals_file first.1
    /\ rain_log second.1 = rain_log first.1
    /\ last_rain_reset_day (rain second.1) = last_rain_reset_day (rain first.1)
    /\ last_rain_value (rain second.1) = last_rain_value (rain first.1).
Proof.
  intros Hwf first second.
  destruct (process_rainfall_state now w current_rain Hwf) as (total & Hout & Hst & _).
  fold first in Hout, Hst.
  assert (Hd : last_rain_reset_day (rain first.1) = Some (day now)) by by rewrite Hst.
  assert (Ht : daily_rain_total (rain first.1) = Some total) by by rewrite Hst.
  assert (Hl : last_rain_value (rain first.1) = current_rain) by by rewrite Hst.
  pose proof (process_rainfall_same_day now first.1 total current_rain Hd Ht) as H2.
  fold second in H2. rewrite Hl in H2.
  assert (Hinc : Qle_bool 0 (current_rain - current_rain) = true)
    by (apply Qle_bool_iff; lra).
  unfold spec_same_day_step in H2. rewrite Hinc in H2. cbn [fst snd] in H2.
  exists total, (total + (current_rain - current_rain))%Q.
  rewrite H2. cbn [fst snd totals_file rain_log rain last_rain_reset_day last_rain_value].
  rewrite app_nil_r, Hd, Hl. repeat split; try done. lra.
Qed.

Lemma process_rainfall_repeated_reading_witness :
  exists total total',
    (process_rainfall (Date 2024 3 15) (Some 12%Q) init_rain_world).2 = Return (Some total)
    /\ (process_rainfall (Date 2024 3 15) (Some 12%Q)
          (process_rainfall (Date 2024 3 15) (Some 12%Q) init_rain_world).1).2
       = Return (Some total')
    /\ (total' == total)%Q.
Proof.
  assert (Hwf : rain_wf (rain init_rain_world)).
  { intros [d Hd]. discriminate Hd. }
  destruct (process_rainfall_repeated_reading (Date 2024 3 15) init_rain_world 12 Hwf)
    as (total & total' & H1 & H2 & H3 & _).
  exists total, total'. split; [exact H1|]. split; [exact H2 | exact H3].
Defined.

Lemma last_cons_default {A} (l : list A) :
  forall a d : A, List.last (a :: l) d = List.last l a.
Proof.
  induction l as [|x l IH]; intros a d; [done|].
  change (List.last (a :: x :: l) d) with (List.last (x :: l) d).
  by rewrite !IH.
Qed.

(** A run of readings none of which is below the one before it adds
    up to the advance of the counter. *)
Lemma same_day_steps_telescope (readings : list Q) :
  forall (total last_raw : Q),
    (forall (i : nat) (a b : Q),
       (last_raw :: readings) !! i = Some a -> (last_raw :: readings) !! S i = Some b ->
       (a <= b)%Q) ->
    ((foldl spec_same_day_step (total, last_raw) readings).1
     == total + (List.last readings last_raw - last_raw))%Q
    /\ (foldl spec_same_day_step (total, last_raw) readings).2 = List.last readings last_raw.
Proof.
  induction readings as [|r rest IH]; intros total last_raw Hasc.
  - cbn. split; [lra|done].
  - cbn [foldl]. unfold spec_same_day_step at 2 4.
    assert (Hr : (last_raw <= r)%Q) by (apply (Hasc 0%nat); reflexivity).
    assert (E : Qle_bool 0 (r - last_raw) = true) by (apply Qle_bool_iff; lra).
    rewrite E.
    destruct (IH (total + (r - last_raw))%Q r) as [H1 H2].
    { intros i a b Ha Hb. apply (Hasc (S i)); assumption. }
    rewrite last_cons_default. split; [rewrite H1; lra | exact H2].
Qed.

(** On binary64 floats the increments of the readings 0.0, 0.2 and
    0.9 add up to 0.8999999999999999, which is not the advance 0.9 of
    the counter. *)
Lemma rain_increments_binary64 :
  match Binary64Rain.readings with
  | first :: rest =>
      let total := (foldl Binary64Rain.same_day_step (PrimFloat.zero, first) rest).1 in
      total = Binary64Rain.sum_of_increments
      /\ PrimFloat.sub (List.last rest first) first = Binary64Rain.counter_advance
      /\ PrimFloat.eqb total Binary64Rain.counter_advance = false
  | [] => False
  end.
Proof. vm_compute. repeat split. Qed.

(** X11: computed exactly, over a day that starts with the first
    reading after a day change and on which the counter never goes
    back, the daily total is the advance of the counter since that
    first reading: the last value returned equals the last reading
    minus the first.  (The code adds binary64 floats, and the sum of
    the rounded increments can differ from that difference in the last
    place: see [rain_increments_binary64].) *)
Theorem process_readings_counter_advance (now : date) (w : rain_world)
    (first_reading : Q) (readings : list Q) :
  last_rain_reset_day (rain w) <> Some (day now) ->
  (forall (i : nat) (a b : Q),
     (first_reading :: readings) !! i = Some a ->
     (first_reading :: readings) !! S i = Some b -> (a <= b)%Q) ->
  exists total,
    daily_rain_total (rain (process_readings now (first_reading :: readings) w).1)
    = Some total
    /\ List.last (process_readings now (first_reading :: readings) w).2 (Raise "")
       = Return (Some total)
    /\ (total == List.last readings first_reading - first_reading)%Q.
Proof.
  intros Hd Hasc. cbn [process_readings].
  rewrite (process_rainfall_new_day now w first_reading Hd).
  set (w1 := RainWorld _ _ _).
  destruct (process_readings_same_day now readings w1 _ eq_refl eq_refl)
    as (Hst & _ & Houts).
  destruct (process_readings now readings w1) as [w2 outs]. cbn [fst snd] in *.
  change (last_rain_value (rain w1)) with first_reading in Hst, Houts.
  destruct (same_day_steps_telescope readings (0 + (first_reading - first_reading))%Q
              first_reading Hasc) as [Htot _].
  eexists. split; [by rewrite Hst|]. split; [|rewrite Htot; lra].
  rewrite Houts. clear -readings.
  generalize (0 + (first_reading - first_reading))%Q as total.
  generalize first_reading as last_raw.
  induction readings as [|r rest IH]; intros last_raw total; [done|].
  cbn [spec_running_totals fmap list_fmap foldl].
  destruct rest as [|r' rest'].
  - done.
  - specialize (IH (spec_same_day_step (total, last_raw) r).2
                  (spec_same_day_step (total, last_raw) r).1).
    rewrite <- surjective_pairing in IH.
    cbn [spec_running_totals fmap list_fmap foldl] in IH |- *.
    exact IH.
Qed.

Lemma process_readings_counter_advance_witness :
  exists total,
    daily_rain_total
      (rain (process_readings (Date 2024 3 15) [10; 12; 12; 15]%Q init_rain_world).1)
    = Some total
    /\ (total == 5)%Q.
Proof.
  destruct (process_readings_counter_advance (Date 2024 3 15) init_rain_world 10
              [12; 12; 15]%Q) as (total & Ht & _ & He).
  - discriminate.
  - intros i a b Ha Hb.
    destruct i as [|[|[|[|i]]]]; cbn in Ha, Hb;
      try discriminate; apply (inj Some) in Ha, Hb; subst; lra.
  - exists total. split; [exact Ht | exact He].
Defined.

(** ** The totals file *)

Lemma process_rainfall_file_step (now : date) (current_rain : option Q) (w : rain_world) :
  totals_file (process_rainfall now current_rain w).1 = totals_file w
  \/ exists total,
       totals_file (process_rainfall now current_rain w).1
       = store_daily_rainfall now total (totals_file w).
Proof.
  unfold process_rainfall.
  destruct current_rain as [r|]; [|by left].
  destruct (match last_rain_reset_day (rain w) with
            | Some d => negb (day now =? d)%Z
            | None => true
            end).
  - destruct (daily_rain_total (rain w)) as [total|]; cbn.
    + right. exists total. by destruct (Qle_bool 0 (r - r)).
    + left. by destruct (Qle_bool 0 (r - r)).
  - left. destruct (Qle_bool 0 (r - last_rain_value (rain w)));
      by destruct (daily_rain_total (rain w)).
Qed.

(** X12: [process_rainfall] only ever appends to the totals file: after
    any run of calls the rows that were there are still there, in
    place, followed by at most one new row per call, each a date and an
    amount; a file that did not exist is still absent or starts with
    the header row. *)
Theorem totals_file_append_only (calls : list (date * option Q)) :
  forall w : rain_world,
    exists more : list row,
      length more <= length calls
      /\ Forall (fun r => exists (d : date) (total : Q),
                            r = [VStr (strftime d); VStr (format_1f total)]) more
      /\ totals_file (process_calls calls w).1
         = match totals_file w, more with
           | None, [] => None
           | None, _ :: _ => Some (rainfall_header :: more)
           | Some rows, _ => Some (rows ++ more)
           end.
Proof.
  induction calls as [|[now r] rest IH]; intros w.
  - exists []. cbn. split; [lia|]. split; [constructor|].
    destruct (totals_file w); by rewrite ?app_nil_r.
  - cbn [process_calls].
    pose proof (process_rainfall_file_step now r w) as Hstep.
    destruct (process_rainfall now r w) as [w1 out]. cbn [fst] in Hstep.
    destruct (IH w1) as (more & Hlen & Hrows & Hfile).
    destruct (process_calls rest w1) as [w2 outs]. cbn [fst] in *.
    destruct Hstep as [Hsame|[total Hstore]].
    + exists more. rewrite <- Hsame. split; [cbn; lia|]. by split.
    + exists ([VStr (strftime now); VStr (format_1f total)] :: more).
      split; [cbn; lia|]. split; [constructor; [by do 2 eexists|done]|].
      rewrite Hfile, Hstore. unfold store_daily_rainfall.
      destruct (totals_file w) as [rows|].
      * by rewrite <- app_assoc.
      * done.
Qed.

(** ** The day number *)

(** X13: [process_rainfall] tells days apart by the day-of-month number
    alone: a reading on a later date that has the same day number as
    the date of the reading before it, a month later say, is taken as
    one more reading of the same day: no row is written for the
    earlier day and the total goes on from where it was. *)
Theorem process_rainfall_compares_day_numbers (now later : date) (w : rain_world)
    (first_reading second_reading : Q) :
  rain_wf (rain w) -> day later = day now ->
  let first := process_rainfall now (Some first_reading) w in
  let second := process_rainfall later (Some second_reading) first.1 in
  totals_file second.1 = totals_file first.1
  /\ exists total total',
       first.2 = Return (Some total)
       /\ second.2 = Return (Some total')
       /\ (total' == total + (if Qle_bool 0 (second_reading - first_reading)
                              then second_reading - first_reading else 0))%Q.
Proof.
  intros Hwf Hday first second.
  destruct (process_rainfall_state now w first_reading Hwf) as (total & Hout & Hst & _).
  fold first in Hout, Hst.
  assert (Hd : last_rain_reset_day (rain first.1) = Some (day later))
    by (by rewrite Hst, Hday).
  assert (Ht : daily_rain_total (rain first.1) = Some total) by by rewrite Hst.
  assert (Hl : last_rain_value (rain first.1) = first_reading) by by rewrite Hst.
  pose proof (process_rainfall_same_day later first.1 total second_reading Hd Ht) as H2.
  fold second in H2. rewrite Hl in H2. rewrite H2. cbn [fst snd totals_file].
  split; [done|]. exists total. eexists. split; [done|]. split; [reflexivity|].
  unfold spec_same_day_step.
  destruct (Qle_bool 0 (second_reading - first_reading)); cbn [fst]; lra.
Qed.

Lemma process_rainfall_compares_day_numbers_witness :
  let first := process_rainfall (Date 2024 2 15) (Some 10%Q) init_rain_world in
  let second := process_rainfall (Date 2024 3 15) (Some 14%Q) first.1 in
  totals_file second.1 = totals_file first.1.
Proof.
  intros first second.
  assert (Hwf : rain_wf (rain init_rain_world)).
  { intros [d Hd]. discriminate Hd. }
  exact (proj1 (process_rainfall_compares_day_numbers (Date 2024 2 15) (Date 2024 3 15)
                  init_rain_world 10 14 Hwf eq_refl)).
Defined.

(** ** The retention window *)

Lemma days_in_month_ge (y m : Z) : (1 <= m <= 12)%Z -> (28 <= days_in_month y m)%Z.
Proof.
  intros Hm. apply month_cases in Hm.
  repeat (destruct Hm as [-> | Hm]); [..| subst];
    cbv beta iota delta [days_in_month]; try lia; destruct (is_leap y); lia.
Qed.

Lemma yesterday_valid (d : date) :
  valid_date d = true -> (1 < year d)%Z -> valid_date (yesterday d) = true.
Proof.
  intros Hv Hy. unfold valid_date in Hv.
  repeat (apply andb_true_iff in Hv as [Hv ?]).
  repeat match goal with H : (_ <=? _)%Z = true |- _ => apply Z.leb_le in H end.
  destruct d as [y m dd]. cbn [year month day] in *.
  unfold yesterday, valid_date. cbn [year month day].
  destruct (Z.ltb_spec 1 dd); cbn [year month day].
  - repeat (apply andb_true_iff; split); apply Z.leb_le; lia.
  - destruct (Z.ltb_spec 1 m); cbn [year month day].
    + pose proof (days_in_month_ge y (m - 1) ltac:(lia)) as Hm.
      repeat (apply andb_true_iff; split); apply Z.leb_le; lia.
    + change (days_in_month (y - 1) 12) with 31%Z.
      repeat (apply andb_true_iff; split); apply Z.leb_le; lia.
Qed.

Lemma yesterday_year (d : date) : (year d - 1 <= year (yesterday d) <= year d)%Z.
Proof.
  unfold yesterday. destruct (1 <? day d)%Z; [cbn; lia|].
  destruct (1 <? month d)%Z; cbn; lia.
Qed.

Lemma days_back (today : date) (k : nat) :
  valid_date today = true -> (1000 <= year (Nat.iter k yesterday today))%Z ->
  valid_date (Nat.iter k yesterday today) = true
  /\ days_between today (Nat.iter k yesterday today) = Z.of_nat k.
Proof.
  intros Hv. induction k as [|k IH]; intros Hy.
  - change (Nat.iter 0 yesterday today) with today.
    split; [done|]. unfold days_between. lia.
  - rewrite Nat.iter_succ in Hy |- *.
    pose proof (yesterday_year (Nat.iter k yesterday today)) as Hyy.
    destruct IH as [IHv IHd]; [lia|].
    split; [apply yesterday_valid; [done|lia]|].
    unfold days_between in *. rewrite toordinal_yesterday by done. lia.
Qed.

(** X14: the two retention sweeps keep a window of eight days: the
    file named after the day [k] days before the current date is kept,
    with its contents, for [k] up to 7, and removed for every larger
    [k]. *)
Theorem retention_window (today : date) (k : nat)
    (csv_dir logs_dir : directory) :
  valid_date today = true ->
  (1000 <= year (Nat.iter k yesterday today))%Z ->
  let d := Nat.iter k yesterday today in
  let csv_file := ("weather_data_" ++ strftime d ++ ".csv")%string in
  let log_file := ("weather_station_" ++ strftime d ++ ".log")%string in
  (cleanup_old_csv today csv_dir).1 !! csv_file
  = (if (7 <? k)%nat then None else csv_dir !! csv_file)
  /\ (cleanup_old_logs today logs_dir).1 !! log_file
     = (if (7 <? k)%nat then None else logs_dir !! log_file).
Proof.
  intros Hv Hy d csv_file log_file.
  destruct (days_back today k Hv Hy) as [Hdv Hdk]. fold d in Hdv, Hdk.
  assert (Hk : (days_between today d >? RETENTION_DAYS)%Z = (7 <? k)%nat).
  { rewrite Hdk. unfold RETENTION_DAYS.
    destruct (Nat.ltb_spec 7 k), (Z.gtb_spec (Z.of_nat k) 7); lia. }
  unfold cleanup_old_csv, cleanup_old_logs. rewrite !cleanup_old_lookup.
  subst csv_file log_file.
  rewrite (expired_pattern_name "eather_data_" "csv" today d) by done.
  rewrite (expired_pattern_name "eather_station_" "log" today d) by done.
  by rewrite Hk.
Qed.

Lemma retention_window_witness :
  let dir : directory :=
    <["weather_data_2024-02-29.csv" := []]> (<["weather_data_2024-02-27.csv" := []]> ∅) in
  (cleanup_old_csv (Date 2024 3 7) dir).1 !! "weather_data_2024-02-29.csv" = Some []
  /\ (cleanup_old_csv (Date 2024 3 7) dir).1 !! "weather_data_2024-02-27.csv" = None.
Proof.
  intros dir. split.
  - exact (proj1 (retention_window (Date 2024 3 7) 7 dir ∅ eq_refl
                    ltac:(vm_compute; discriminate))).
  - exact (proj1 (retention_window (Date 2024 3 7) 9 dir ∅ eq_refl
                    ltac:(vm_compute; discriminate))).
Defined.

(** ** What a cycle logs *)

(** Run one turn of the loop over a reader whose result is known. *)
Ltac run_reader :=
  cbn [fst snd merge_reading sensor_line];
  try match goal with
      | |- context [truthy ?m] => change (truthy m) with true
      end;
  cbv beta iota;
  try match goal with
      | |- context [log_sensor_data ?n ?m] =>
          change (log_sensor_data n m) with (Return (A := list log_entry) [LogSensor n m])
      end;
  cbv beta iota; rewrite <- ?app_assoc, ?app_nil_r; reflexivity.

Lemma read_sensor_environment (i : cycle_input) (acc : dict * list log_entry) :
  read_sensor i acc
    ("environment", fun i => let '(l, d) := read_environment_sensor (environment_resp i) in
                             (l, Return (Some d)))
  = ((read_environment_sensor (environment_resp i)).2 ∪ acc.1,
     acc.2 ++ (read_environment_sensor (environment_resp i)).1
           ++ [LogSensor "environment" (read_environment_sensor (environment_resp i)).2]).
Proof.
  destruct acc as [d lg]. unfold read_sensor, read_environment_sensor, environment_default.
  destruct (environment_resp i) as [| |regs];
    [| |destruct (regs !! 0%nat), (regs !! 1%nat), (regs !! 2%nat)];
    run_reader.
Qed.

Lemma read_sensor_uv (i : cycle_input) (acc : dict * list log_entry) :
  read_sensor i acc
    ("uv", fun i => let '(l, d) := read_uv_sensor (uv_resp i) in (l, Return (Some d)))
  = ((read_uv_sensor (uv_resp i)).2 ∪ acc.1,
     acc.2 ++ (read_uv_sensor (uv_resp i)).1 ++ [LogSensor "uv" (read_uv_sensor (uv_resp i)).2]).
Proof.
  destruct acc as [d lg]. unfold read_sensor, read_uv_sensor.
  destruct (uv_resp i) as [| |regs]; [| |destruct (regs !! 0%nat)];
    run_reader.
Qed.

Lemma read_sensor_aqi (i : cycle_input) (acc : dict * list log_entry) :
  read_sensor i acc
    ("aqi", fun i => let '(l, d) := read_aqi_sensor (aqi_src i) in (l, Return (Some d)))
  = ((read_aqi_sensor (aqi_src i)).2 ∪ acc.1,
     acc.2 ++ (read_aqi_sensor (aqi_src i)).1
           ++ [LogSensor "aqi" (read_aqi_sensor (aqi_src i)).2]).
Proof.
  destruct acc as [d lg]. unfold read_sensor, read_aqi_sensor.
  destruct (aqi_src i); run_reader.
Qed.

Lemma read_sensor_wind_speed (i : cycle_input) (acc : dict * list log_entry) :
  read_sensor i acc
    ("wind_speed", fun i => let '(l, d) := read_wind_speed (wind_speed_resp i) in
                            (l, Return (Some d)))
  = ((read_wind_speed (wind_speed_resp i)).2 ∪ acc.1,
     acc.2 ++ (read_wind_speed (wind_speed_resp i)).1
           ++ [LogSensor "wind_speed" (read_wind_speed (wind_speed_resp i)).2]).
Proof.
  destruct acc as [d lg]. unfold read_sensor, read_wind_speed.
  destruct (wind_speed_resp i) as [| |regs]; [| |destruct (regs !! 0%nat)];
    run_reader.
Qed.

Lemma read_sensor_wind_direction (i : cycle_input) (acc : dict * list log_entry) :
  read_sensor i acc
    ("wind_direction", fun i => let '(l, d) := read_wind_direction (wind_direction_resp i) in
                                (l, Return d))
  = (merge_reading (Return (read_wind_direction (wind_direction_resp i)).2) acc.1,
     acc.2 ++ (read_wind_direction (wind_direction_resp i)).1
           ++ sensor_line "wind_direction" (read_wind_direction (wind_direction_resp i)).2).
Proof.
  destruct acc as [d lg]. unfold read_sensor, read_wind_direction.
  destruct (wind_direction_resp i) as [| |regs];
    [| |destruct (regs !! 0%nat), (regs !! 2%nat); [destruct (_ && _)|..]];
    run_reader.
Qed.

Lemma read_sensor_rainfall (i : cycle_input) (acc : dict * list log_entry) :
  read_sensor i acc
    ("rainfall", fun i => let '(l, d) := read_rainfall (rainfall_resp i) in (l, Return d))
  = (merge_reading (Return (read_rainfall (rainfall_resp i)).2) acc.1,
     acc.2 ++ (read_rainfall (rainfall_resp i)).1
           ++ sensor_line "rainfall" (read_rainfall (rainfall_resp i)).2).
Proof.
  destruct acc as [d lg]. unfold read_sensor, read_rainfall.
  destruct (rainfall_resp i) as [| |regs]; [| |destruct (regs !! 0%nat)];
    run_reader.
Qed.

(** X15: in a cycle over the six readers of [awos_refined.py] the
    handler of the per-sensor [try] is never entered: every reader
    returns and [log_sensor_data] finds every field it formats.  The
    cycle logs, in the order of the readers, each reader's own error
    lines followed by that sensor's data line; the wind direction and
    rainfall lines are left out when the reader returned [None]. *)
Theorem cycle_log_lines (i : cycle_input) (current_data : dict) (lg : list log_entry) :
  (read_sensors i sensors (current_data, lg)).2
  = lg
    ++ (read_environment_sensor (environment_resp i)).1
    ++ [LogSensor "environment" (read_environment_sensor (environment_resp i)).2]
    ++ (read_uv_sensor (uv_resp i)).1
    ++ [LogSensor "uv" (read_uv_sensor (uv_resp i)).2]
    ++ (read_aqi_sensor (aqi_src i)).1
    ++ [LogSensor "aqi" (read_aqi_sensor (aqi_src i)).2]
    ++ (read_wind_speed (wind_speed_resp i)).1
    ++ [LogSensor "wind_speed" (read_wind_speed (wind_speed_resp i)).2]
    ++ (read_wind_direction (wind_direction_resp i)).1
    ++ sensor_line "wind_direction" (read_wind_direction (wind_direction_resp i)).2
    ++ (read_rainfall (rainfall_resp i)).1
    ++ sensor_line "rainfall" (read_rainfall (rainfall_resp i)).2.
Proof.
  unfold read_sensors, sensors. cbn [foldl].
  rewrite read_sensor_environment, read_sensor_uv, read_sensor_aqi, read_sensor_wind_speed,
    read_sensor_wind_direction, read_sensor_rainfall.
  cbn [fst snd]. by rewrite <- !app_assoc.
Qed.

(** ** The interval between rows *)

Lemma sensor_reader_cycle_waits (rs : list (string * reader)) (csv_interval : Q)
    (i : cycle_input) (s : station) :
  (clock i - last_csv_time s < csv_interval)%Q ->
  data_queue (sensor_reader_cycle_with rs csv_interval i s) = data_queue s
  /\ last_csv_time (sensor_reader_cycle_with rs csv_interval i s) = last_csv_time s.
Proof.
  intros Ht. unfold sensor_reader_cycle_with.
  destruct (connect i) as [[|]|e]; try done.
  destruct (read_sensors i rs _) as [current_data lg].
  apply Qle_bool_false in Ht. by rewrite Ht.
Qed.

Lemma sensor_reader_cycle_clock (rs : list (string * reader)) (csv_interval : Q)
    (i : cycle_input) (s : station) :
  connect i = Return true ->
  (csv_interval <= clock i - last_csv_time s)%Q ->
  last_csv_time (sensor_reader_cycle_with rs csv_interval i s) = clock i.
Proof.
  intros Hc Ht. unfold sensor_reader_cycle_with. rewrite Hc.
  destruct (read_sensors i rs _) as [current_data lg].
  apply Qle_bool_iff in Ht. by rewrite Ht.
Qed.

(** X16: rows are at least [csv_interval] apart by the clock of the
    acquisition loop: after a cycle that enqueued, no cycle whose clock
    is less than the interval later enqueues, however many there are,
    and the first connected cycle for which the interval has passed
    does. *)
Theorem rows_are_an_interval_apart (rs : list (string * reader)) (csv_interval : Q)
    (i : cycle_input) (s : station) (later : list cycle_input) :
  connect i = Return true ->
  (csv_interval <= clock i - last_csv_time s)%Q ->
  Forall (fun j => (clock j - clock i < csv_interval)%Q) later ->
  let s1 := sensor_reader_cycle_with rs csv_interval i s in
  let s2 := run_turns rs csv_interval (Acquire <$> later) s1 in
  data_queue s1 = data_queue s ++ [sensor_data s1]
  /\ data_queue s2 = data_queue s1
  /\ forall next, connect next = Return true ->
       (csv_interval <= clock next - clock i)%Q ->
       data_queue (sensor_reader_cycle_with rs csv_interval next s2)
       = data_queue s2 ++ [sensor_data (sensor_reader_cycle_with rs csv_interval next s2)].
Proof.
  intros Hc Ht Hlater s1 s2.
  pose proof (sensor_reader_cycle_queue rs csv_interval i s Hc Ht) as Hq.
  pose proof (sensor_reader_cycle_clock rs csv_interval i s Hc Ht) as Hclock.
  fold s1 in Hq, Hclock.
  assert (Hinv : data_queue s2 = data_queue s1 /\ last_csv_time s2 = clock i).
  { subst s2. unfold run_turns. clearbody s1. clear Hq.
    revert s1 Hclock. induction Hlater as [|j rest Hj _ IH]; intros s1 Hclock; [done|].
    cbn [fmap list_fmap foldl take_turn].
    destruct (sensor_reader_cycle_waits rs csv_interval j s1) as [Hq' Ht'];
      [by rewrite Hclock|].
    destruct (IH (sensor_reader_cycle_with rs csv_interval j s1)) as [IHq IHt];
      [by rewrite Ht'|].
    split; [by rewrite IHq|done]. }
  destruct Hinv as [Hq2 Ht2].
  split; [done|]. split; [done|].
  intros next Hn Hnext. apply sensor_reader_cycle_queue; [done|]. by rewrite Ht2.
Qed.

Lemma rows_are_an_interval_apart_witness :
  let s0 := Station {[1%positive := ∅]} 1%positive [] ∅ [] 0 in
  let at_clock := fun t : Q =>
    CycleInput true (Return true) "2024-03-15T10:00:00" ModbusError ModbusError
      AqiFileMissing ModbusError ModbusError ModbusError ModbusError t in
  let s1 := sensor_reader_cycle_with sensors 30 (at_clock 31%Q) s0 in
  data_queue (run_turns sensors 30 (Acquire <$> [at_clock 40%Q; at_clock 60%Q]) s1)
  = data_queue s1.
Proof.
  intros s0 at_clock s1.
  refine (proj1 (proj2 (rows_are_an_interval_apart sensors 30 (at_clock 31%Q) s0
                          [at_clock 40%Q; at_clock 60%Q] eq_refl _ _))).
  - vm_compute. discriminate.
  - constructor; [reflexivity|]. constructor; [reflexivity|]. constructor.
Defined.

(** ** The queue between the two loops *)

Lemma merge_reading_keeps (out : outcome (option dict)) (d : dict) (k : string) :
  is_Some (d !! k) -> is_Some (merge_reading out d !! k).
Proof.
  intros Hk. destruct out as [[data|]|e]; cbn [merge_reading]; try done.
  rewrite union_lookup_or. by destruct (data !! k).
Qed.

(** Whatever the readers return, the snapshot of a cycle has its
    timestamp key. *)
Lemma cycle_snapshot_timestamp (rs : list (string * reader)) (i : cycle_input) :
  is_Some (cycle_snapshot rs i !! "timestamp").
Proof.
  unfold cycle_snapshot. rewrite read_sensors_fst. cbn [fst].
  assert (H0 : is_Some (({["timestamp" := VStr (timestamp i)]} : dict) !! "timestamp")).
  { rewrite lookup_singleton_eq. by eexists. }
  revert H0. generalize ({["timestamp" := VStr (timestamp i)]} : dict).
  induction rs as [|e rs IH]; intros d Hd; [done|].
  cbn [foldl]. apply IH. by apply merge_reading_keeps.
Qed.

Lemma csv_writer_iteration_heap (today : date) (s : station) :
  heap (csv_writer_iteration today s) = heap s
  /\ data_queue (csv_writer_iteration today s) = tail (data_queue s)
  /\ sensor_data (csv_writer_iteration today s) = sensor_data s.
Proof.
  unfold csv_writer_iteration.
  destruct (data_queue s) as [|l q] eqn:Hq; [by rewrite Hq|].
  destruct (match csv_dir s !! csv_file_name today with Some _ => _ | None => _ end)
    as [dir1 lg1].
  by destruct (heap s !! l ≫= _) as [[ts data]|].
Qed.

Lemma queue_ok_acquire (rs : list (string * reader)) (csv_interval : Q)
    (i : cycle_input) (s : station) :
  queue_ok s -> queue_ok (sensor_reader_cycle_with rs csv_interval i s).
Proof.
  intros Hok. unfold queue_ok in *.
  assert (Hold : Forall (fun l => exists data ts,
                   heap (sensor_reader_cycle_with rs csv_interval i s) !! l = Some data
                   /\ data !! "timestamp" = Some ts) (data_queue s)).
  { eapply Forall_impl; [exact Hok|]. intros l (data & ts & Hl & Hts). cbn beta.
    exists data, ts. split; [|done].
    rewrite sensor_reader_cycle_frame; [done|by eexists]. }
  destruct (connect i) as [[|]|e] eqn:Hc.
  - pose proof (sensor_reader_cycle_live rs csv_interval i s Hc) as Hlive.
    destruct (cycle_snapshot_timestamp rs i) as [ts Hts].
    revert Hold Hlive. unfold sensor_reader_cycle_with. rewrite Hc.
    destruct (read_sensors i rs _) as [current_data lg].
    destruct (Qle_bool _ _); cbn [heap data_queue sensor_data]; intros Hold Hlive; [|done].
    apply Forall_app. split; [done|]. constructor; [|constructor].
    by exists (cycle_snapshot rs i), ts.
  - revert Hold. unfold sensor_reader_cycle_with. by rewrite Hc.
  - revert Hold. unfold sensor_reader_cycle_with. by rewrite Hc.
Qed.

Lemma queue_ok_persist (today : date) (s : station) :
  queue_ok s -> queue_ok (csv_writer_iteration today s).
Proof.
  unfold queue_ok. destruct (csv_writer_iteration_heap today s) as (-> & -> & _).
  intros Hok. destruct (data_queue s) as [|l q]; [done|].
  by apply Forall_cons in Hok as [_ Hq].
Qed.

(** The lines of a sweep are removals and unreadable names. *)
Lemma cleanup_old_lines (prefix ext : string) (today : date) (dir : directory) :
  Forall (fun e => exists name, e = LogRemoved name \/ e = LogFileError name)
    (cleanup_old prefix ext today dir).2.
Proof.
  unfold cleanup_old. rewrite cleanup_fold_log, app_nil_l.
  apply Forall_forall. intros e He.
  apply list_elem_of_bind in He as (f & He & _). unfold sweep_report in He.
  destruct (startswith f prefix && endswith f ext); [|by apply elem_of_nil in He].
  destruct (file_date prefix ext f) as [d|].
  - destruct (days_between today d >? RETENTION_DAYS)%Z; [|by apply elem_of_nil in He].
    apply list_elem_of_singleton in He. exists f. by left.
  - apply list_elem_of_singleton in He. exists f. by right.
Qed.

(** X17: along every schedule of acquisition and writer turns, every
    reference on the queue points at a dictionary that holds its
    timestamp, whatever the readers are; so a turn of the writer never
    takes its error branch: what it adds to the log are the lines of
    the retention sweep only, never a CSV write error. *)
Theorem queue_entries_stay_writable (rs : list (string * reader)) (csv_interval : Q)
    (schedule : list turn) (s : station) :
  queue_ok s ->
  let s' := run_turns rs csv_interval schedule s in
  queue_ok s'
  /\ forall today, exists lines,
       station_log (csv_writer_iteration today s') = station_log s' ++ lines
       /\ Forall (fun e => exists name, e = LogRemoved name \/ e = LogFileError name) lines.
Proof.
  intros Hok s'.
  assert (Hok' : queue_ok s').
  { subst s'. unfold run_turns. revert s Hok.
    induction schedule as [|[i|today] rest IH]; intros s Hok; [done|..];
      cbn [foldl take_turn]; apply IH;
      [by apply queue_ok_acquire | by apply queue_ok_persist]. }
  split; [exact Hok'|]. intros today.
  unfold csv_writer_iteration.
  destruct (data_queue s') as [|l q] eqn:Hq.
  { exists []. by rewrite app_nil_r. }
  unfold queue_ok in Hok'. rewrite Hq in Hok'.
  apply Forall_cons in Hok' as [(data & ts & Hl & Hts) _].
  rewrite Hl. cbn. rewrite Hts. cbn.
  destruct (csv_dir s' !! csv_file_name today) as [rows|].
  - exists []. by rewrite app_nil_r.
  - pose proof (cleanup_old_lines "weather_data_" ".csv" today
                  (<[csv_file_name today := [csv_header]]> (csv_dir s'))) as Hlines.
    fold (cleanup_old_csv today (<[csv_file_name today := [csv_header]]> (csv_dir s')))
      in Hlines.
    destruct (cleanup_old_csv today _) as [d lines]. cbn [snd] in Hlines.
    by exists lines.
Qed.

Lemma queue_entries_stay_writable_witness :
  let s0 := Station {[1%positive := ∅]} 1%positive [] ∅ [] 0 in
  let i := CycleInput true (Return true) "2024-03-15T10:00:00"
             (Registers [250; 450; 10130]%Z) (Registers [123%Z]) AqiFileMissing
             ModbusError (Registers [15%Z]) (Registers [900; 0; 905]%Z) (Registers [102%Z]) 31 in
  queue_ok (run_turns sensors 30 [Acquire i; Acquire i; Persist (Date 2024 3 15)] s0).
Proof.
  intros s0 i.
  apply (queue_entries_stay_writable sensors 30
           [Acquire i; Acquire i; Persist (Date 2024 3 15)] s0).
  constructor.
Defined.

(** ** The writer over a queue *)

(** One turn of the writer on a queue whose head is writable. *)
Lemma csv_writer_step (today : date) (s : station) (l : loc) (q : list loc) (r : row) :
  valid_date today = true -> (1000 <= year today)%Z ->
  data_queue s = l :: q ->
  snapshot_row (heap s) l = Some r ->
  let s' := csv_writer_iteration today s in
  let csv_file := csv_file_name today in
  heap s' = heap s
  /\ data_queue s' = q
  /\ csv_dir s' !! csv_file
     = Some (default [csv_header] (csv_dir s !! csv_file) ++ [r])
  /\ (forall name, name <> csv_file ->
      csv_dir s' !! name
      = match csv_dir s !! csv_file with
        | Some _ => csv_dir s !! name
        | None => (cleanup_old_csv today (csv_dir s)).1 !! name
        end).
Proof.
  intros Hv Hy Hq Hr s' csv_file.
  destruct (csv_writer_iteration_heap today s) as (Hh & Hq' & _).
  fold s' in Hh, Hq'. rewrite Hq in Hq'. cbn [tail] in Hq'.
  split; [done|]. split; [done|].
  unfold snapshot_row in Hr.
  destruct (heap s !! l) as [data|] eqn:Hl; [|discriminate]. cbn in Hr.
  destruct (data !! "timestamp") as [ts|] eqn:Hts; [|discriminate]. cbn in Hr.
  apply (inj Some) in Hr. subst r.
  subst s'. unfold csv_writer_iteration. rewrite Hq. fold csv_file.
  destruct (csv_dir s !! csv_file) as [rows|] eqn:Hf.
  - rewrite Hl. cbn. rewrite Hts. cbn. rewrite Hf. cbn.
    split; [by rewrite lookup_insert_eq|].
    intros name Hne. by rewrite lookup_insert_ne.
  - pose proof (cleanup_old_lookup "weather_data_" ".csv" today
                  (<[csv_file := [csv_header]]> (csv_dir s))) as Hsweep.
    fold (cleanup_old_csv today (<[csv_file := [csv_header]]> (csv_dir s))) in Hsweep.
    pose proof (cleanup_old_lookup "weather_data_" ".csv" today (csv_dir s)) as Hsweep0.
    fold (cleanup_old_csv today (csv_dir s)) in Hsweep0.
    destruct (cleanup_old_csv today (<[csv_file := [csv_header]]> (csv_dir s)))
      as [d lines].
    cbn [fst] in Hsweep.
    rewrite Hl. cbn. rewrite Hts. cbn.
    assert (Hd : d !! csv_file = Some [csv_header]).
    { rewrite Hsweep. subst csv_file.
      rewrite today_file_not_expired by done. apply lookup_insert_eq. }
    split.
    + by rewrite lookup_insert_eq, Hd.
    + intros name Hne. rewrite lookup_insert_ne by done.
      rewrite Hsweep, Hsweep0. by rewrite lookup_insert_ne.
Qed.

(** X18: the writer persists a queue in order and without loss: as
    many turns as the queue is long, on one day, empty the queue and
    leave in the day's file the rows it had (the header row if the file
    was not there) followed by one row per queued snapshot, in queue
    order; the other files are as they were, or as the retention sweep
    left them when the day's file had to be created. *)
Theorem csv_writer_drains_in_order (today : date) (s : station) :
  valid_date today = true -> (1000 <= year today)%Z ->
  queue_ok s -> data_queue s <> [] ->
  let s' := Nat.iter (length (data_queue s)) (csv_writer_iteration today) s in
  let csv_file := csv_file_name today in
  data_queue s' = []
  /\ heap s' = heap s
  /\ length (omap (snapshot_row (heap s)) (data_queue s)) = length (data_queue s)
  /\ csv_dir s' !! csv_file
     = Some (default [csv_header] (csv_dir s !! csv_file)
             ++ omap (snapshot_row (heap s)) (data_queue s))
  /\ (forall name, name <> csv_file ->
      csv_dir s' !! name
      = match csv_dir s !! csv_file with
        | Some _ => csv_dir s !! name
        | None => (cleanup_old_csv today (csv_dir s)).1 !! name
        end).
Proof.
  intros Hv Hy Hok Hne. cbv zeta.
  destruct (data_queue s) as [|l q] eqn:Hq; [done|]. clear Hne.
  revert s l Hq Hok. induction q as [|l' q IH]; intros s l Hq Hok.
  - unfold queue_ok in Hok. rewrite Hq in Hok.
    apply Forall_cons in Hok as [(data & ts & Hl & Hts) _].
    assert (Hr : snapshot_row (heap s) l = Some (csv_row ts data)).
    { unfold snapshot_row. rewrite Hl. cbn. by rewrite Hts. }
    destruct (csv_writer_step today s l [] _ Hv Hy Hq Hr) as (Hh & Hq' & Hf & Ho).
    cbn [length Nat.iter nat_rect omap list_omap]. rewrite Hr.
    split; [done|]. split; [done|]. split; [done|]. split; [exact Hf | exact Ho].
  - pose proof Hok as Hok0. unfold queue_ok in Hok. rewrite Hq in Hok.
    apply Forall_cons in Hok as [(data & ts & Hl & Hts) _].
    assert (Hr : snapshot_row (heap s) l = Some (csv_row ts data)).
    { unfold snapshot_row. rewrite Hl. cbn. by rewrite Hts. }
    destruct (csv_writer_step today s l (l' :: q) _ Hv Hy Hq Hr) as (Hh & Hq' & Hf & Ho).
    pose proof (queue_ok_persist today s Hok0) as Hok1.
    destruct (IH (csv_writer_iteration today s) l' Hq' Hok1)
      as (IHq & IHh & IHlen & IHf & IHo).
    change (length (l :: l' :: q)) with (S (length (l' :: q))).
    rewrite Nat.iter_succ_r.
    rewrite Hh in IHh, IHlen, IHf.
    split; [exact IHq|]. split; [exact IHh|].
    change (omap (snapshot_row (heap s)) (l :: l' :: q))
      with (match snapshot_row (heap s) l with
            | Some r => r :: omap (snapshot_row (heap s)) (l' :: q)
            | None => omap (snapshot_row (heap s)) (l' :: q)
            end).
    rewrite Hr. split; [cbn [length]; by rewrite IHlen|].
    split.
    + set (base := default [csv_header] (csv_dir s !! csv_file_name today)) in *.
      rewrite IHf, Hf. cbn [from_option id]. by rewrite <- app_assoc.
    + intros name Hname. rewrite IHo by done. rewrite Hf. by apply Ho.
Qed.

Lemma csv_writer_drains_in_order_witness :
  let today := Date 2024 3 15 in
  let a : dict := {["timestamp" := VStr "2024-03-15T10:00:00"]} in
  let b : dict := {["timestamp" := VStr "2024-03-15T10:00:30"]} in
  let s := Station (<[3%positive := b]> {[2%positive := a]}) 3%positive
             [2%positive; 3%positive] ∅ [] 0 in
  csv_dir (Nat.iter 2 (csv_writer_iteration today) s) !! "weather_data_2024-03-15.csv"
  = Some [csv_header; csv_row (VStr "2024-03-15T10:00:00") a;
          csv_row (VStr "2024-03-15T10:00:30") b].
Proof.
  intros today a b s.
  assert (Hok : queue_ok s).
  { constructor; [by exists a, (VStr "2024-03-15T10:00:00")|].
    constructor; [by exists b, (VStr "2024-03-15T10:00:30")|]. constructor. }
  exact (proj1 (proj2 (proj2 (proj2 (csv_writer_drains_in_order today s eq_refl
                  ltac:(vm_compute; discriminate) Hok ltac:(discriminate)))))).
Defined.

(** ** From a cycle to the file *)

Lemma cycle_snapshot_timestamp_value (i : cycle_input) :
  cycle_snapshot sensors i !! "timestamp" = Some (VStr (timestamp i)).
Proof. snapshot_lookup. apply lookup_singleton_eq. Qed.

Lemma sensor_reader_cycle_csv_dir (rs : list (string * reader)) (csv_interval : Q)
    (i : cycle_input) (s : station) :
  csv_dir (sensor_reader_cycle_with rs csv_interval i s) = csv_dir s.
Proof.
  unfold sensor_reader_cycle_with.
  destruct (connect i) as [[|]|e]; try done.
  destruct (read_sensors i rs _) as [current_data lg].
  by destruct (Qle_bool _ _).
Qed.

(** X19: a cycle that enqueues, followed by a turn of the writer,
    appends to the day's file the row of the snapshot the cycle built,
    headed by the cycle's timestamp.  In that row the columns
    formaldehyde, tvoc, aqi_temperature and aqi_humidity are always
    empty: no reader of [awos_refined.py] supplies them; and the carbon
    monoxide, nitrogen dioxide, sulphur dioxide and ozone values the
    AQI reader supplies have no column. *)
Theorem snapshot_reaches_file (csv_interval : Q) (i : cycle_input) (s : station)
    (today : date) :
  connect i = Return true ->
  (csv_interval <= clock i - last_csv_time s)%Q ->
  data_queue s = [] ->
  valid_date today = true -> (1000 <= year today)%Z ->
  let s' := csv_writer_iteration today (sensor_reader_cycle csv_interval i s) in
  let r := csv_row (VStr (timestamp i)) (cycle_snapshot sensors i) in
  csv_dir s' !! csv_file_name today
  = Some (default [csv_header] (csv_dir s !! csv_file_name today) ++ [r])
  /\ data_queue s' = []
  /\ r !! 0%nat = Some (VStr (timestamp i))
  /\ (forall (n : nat) (key : string),
      csv_columns !! n = Some key ->
      key ∈ ["formaldehyde"; "tvoc"; "aqi_temperature"; "aqi_humidity"] ->
      r !! n = Some (VStr ""))
  /\ (forall key,
      key ∈ ["carbon_monoxide"; "nitrogen_dioxide"; "sulphur_dioxide"; "ozone"] ->
      key ∉ csv_columns).
Proof.
  intros Hc Ht Hq Hv Hy s' r.
  pose proof (sensor_reader_cycle_queue sensors csv_interval i s Hc Ht) as Hq1.
  pose proof (sensor_reader_cycle_live sensors csv_interval i s Hc) as Hl1.
  pose proof (sensor_reader_cycle_csv_dir sensors csv_interval i s) as Hd1.
  fold sensor_reader_cycle in Hq1, Hl1, Hd1.
  rewrite Hq in Hq1. cbn [app] in Hq1.
  assert (Hr : snapshot_row (heap (sensor_reader_cycle csv_interval i s))
                 (sensor_data (sensor_reader_cycle csv_interval i s)) = Some r).
  { unfold snapshot_row. rewrite Hl1. cbn. by rewrite cycle_snapshot_timestamp_value. }
  destruct (csv_writer_step today _ _ [] r Hv Hy Hq1 Hr) as (_ & Hq2 & Hf & _).
  fold s' in Hq2, Hf. rewrite Hd1 in Hf.
  split; [exact Hf|]. split; [exact Hq2|]. split; [reflexivity|]. split.
  - intros n key Hn Hk. subst r.
    rewrite (csv_row_fields _ _ (cycle_snapshot_timestamp_value i) n key Hn).
    unfold get_or_empty.
    repeat (apply elem_of_cons in Hk as [->|Hk]); [..|by apply elem_of_nil in Hk];
      snapshot_lookup; reflexivity.
  - intros key Hk.
    repeat (apply elem_of_cons in Hk as [->|Hk]); [..|by apply elem_of_nil in Hk];
      unfold csv_columns; not_in_keys.
Qed.

Lemma snapshot_reaches_file_witness :
  let s0 := Station {[1%positive := ∅]} 1%positive [] ∅ [] 0 in
  let i := CycleInput true (Return true) "2024-03-15T10:00:00"
             (Registers [250; 450; 10130]%Z) (Registers [123%Z]) AqiFileMissing
             ModbusError (Registers [15%Z]) (Registers [900; 0; 905]%Z) (Registers [102%Z]) 31 in
  let today := Date 2024 3 15 in
  csv_dir (csv_writer_iteration today (sensor_reader_cycle 30 i s0))
    !! csv_file_name today
  = Some (default [csv_header] (csv_dir s0 !! csv_file_name today)
          ++ [csv_row (VStr (timestamp i)) (cycle_snapshot sensors i)]).
Proof.
  intros s0 i today.
  exact (proj1 (snapshot_reaches_file 30 i s0 today eq_refl
                  ltac:(vm_compute; discriminate) eq_refl eq_refl
                  ltac:(vm_compute; discriminate))).
Defined.

(** ** The state widgets *)

(** X20: the AQI state widget depends on the PM2.5 reading through
    the thresholds 12, 35.4, 55.4, 150.4 and 250.4: up to 12 it shows
    GOOD, up to 35.4 MODERATE, up to 55.4 and up to 150.4 UNHEALTHY
    (orange, then red), up to 250.4 VERY UNHEALTHY, above that and
    below zero HAZARDOUS.  The readings between 12.0 and 12.1, and in
    the other openings of the breakpoint table, fall in the band
    above. *)
Theorem displayed_aqi_thresholds (sensor_data : dict) (v : value) (pm2_5 : Q) :
  sensor_data !! "pm2_5" = Some v -> as_number v = Some pm2_5 ->
  let shown := aqi_state (update_state_displays sensor_data) in
  ((0 <= pm2_5 /\ pm2_5 <= 12)%Q -> shown = ("GOOD", "#39FF14"))
  /\ ((12 < pm2_5 /\ pm2_5 <= 35.4)%Q -> shown = ("MODERATE", "#FFFF00"))
  /\ ((35.4 < pm2_5 /\ pm2_5 <= 55.4)%Q -> shown = ("UNHEALTHY", "#FF7E00"))
  /\ ((55.4 < pm2_5 /\ pm2_5 <= 150.4)%Q -> shown = ("UNHEALTHY", "#FF0000"))
  /\ ((150.4 < pm2_5 /\ pm2_5 <= 250.4)%Q -> shown = ("VERY UNHEALTHY", "#8F3F97"))
  /\ ((pm2_5 < 0 \/ 250.4 < pm2_5)%Q -> shown = ("HAZARDOUS", "#7E0023")).
Proof.
  intros Hv Hn shown. subst shown.
  unfold update_state_displays. cbn [aqi_state]. rewrite Hv. cbn [mbind option_bind].
  rewrite Hn. unfold calculate_aqi, get_aqi_state.
  repeat split; intros H; split_hyps;
    repeat match goal with
      | |- context [Qle_bool ?a ?b] =>
          let E := fresh "E" in
          destruct (Qle_bool a b) eqn:E;
          [apply Qle_bool_iff in E | apply Qle_bool_false in E]
      end;
    try (exfalso; lra);
    aqi_pieces pm2_5; band_cases; split_hyps; try reflexivity; exfalso;
    repeat match goal with H : _ \/ _ |- _ => destruct H end; lra.
Qed.

Lemma displayed_aqi_thresholds_witness :
  let a : dict := <["pm2_5" := VFloat 12.05]> ∅ in
  let b : dict := <["pm2_5" := VInt 36]> ∅ in
  aqi_state (update_state_displays a) = ("MODERATE", "#FFFF00")
  /\ aqi_state (update_state_displays b) = ("UNHEALTHY", "#FF7E00").
Proof.
  intros a b. split.
  - apply (proj1 (proj2 (displayed_aqi_thresholds a (VFloat 12.05) 12.05 eq_refl eq_refl))).
    split; lra.
  - apply (proj1 (proj2 (proj2 (displayed_aqi_thresholds b (VInt 36) 36 eq_refl eq_refl)))).
    split; lra.
Defined.

(** X21: a failed read is shown as the best band: after a cycle in
    which the environment read failed the humidity state is LOW, after
    a failed UV read the UV state is LOW, and after a failed AQI read
    the AQI state is GOOD, since the readers report 0.0 for what they
    could not read. *)
Theorem failed_reads_shown_as_best_band (i : cycle_input) :
  let shown := update_state_displays (cycle_snapshot sensors i) in
  (modbus_failed 3 (environment_resp i) = true -> humidity_state shown = ("LOW", "#3EC1EC"))
  /\ (modbus_failed 1 (uv_resp i) = true -> uv_state shown = ("LOW", "#39FF14"))
  /\ (aqi_failed (aqi_src i) = true -> aqi_state shown = ("GOOD", "#39FF14")).
Proof.
  intros shown. subst shown. unfold update_state_displays.
  cbn [humidity_state uv_state aqi_state].
  split; [|split]; intros Hf.
  - assert (E : cycle_snapshot sensors i !! "humidity" = Some (VFloat 0.0)).
    { snapshot_lookup. rewrite option_match_id. failed_read (environment_resp i). }
    by rewrite E.
  - assert (E : cycle_snapshot sensors i !! "uv_index" = Some (VFloat 0.0)).
    { snapshot_lookup. rewrite option_match_id. failed_read (uv_resp i). }
    by rewrite E.
  - assert (E : cycle_snapshot sensors i !! "pm2_5" = Some (VFloat 0.0)).
    { snapshot_lookup. rewrite option_match_id. by destruct (aqi_src i). }
    by rewrite E.
Qed.

Lemma failed_reads_shown_as_best_band_witness :
  let i := CycleInput true (Return true) "2024-03-15T10:00:00"
             ModbusError ModbusRaises AqiFileMissing ModbusError ModbusError ModbusRaises
             (Registers [102%Z]) 31 in
  aqi_state (update_state_displays (cycle_snapshot sensors i)) = ("GOOD", "#39FF14").
Proof.
  intros i.
  exact (proj2 (proj2 (failed_reads_shown_as_best_band i)) eq_refl).
Defined.

(** ** Sun data *)

Lemma sun_rows_more_fuel (sun : date -> string * string) (end_date : date) (fuel : nat) :
  forall (current_date : date) (rows : sun_file),
    sun_rows fuel sun current_date end_date = Some rows ->
    forall extra : nat, sun_rows (fuel + extra) sun current_date end_date = Some rows.
Proof.
  induction fuel as [|fuel IH]; intros current_date rows Hr extra; [discriminate|].
  cbn [sun_rows Nat.add] in Hr |- *.
  destruct (date_leb current_date end_date); [|done].
  destruct (sun_rows fuel sun (tomorrow current_date) end_date) as [rest|] eqn:E;
    [|discriminate].
  by rewrite (IH _ _ E extra).
Qed.

(** The loop writes one row for each day of 2025 and then stops. *)
Lemma sun_rows_2025 (sun : date -> string * string) :
  sun_rows 366 sun (Date 2025 1 1) (Date 2025 12 31)
  = Some ((fun d => [strftime_md d; (sun d).1; (sun d).2]) <$> year_days 2025).
Proof. vm_compute. reflexivity. Qed.

Lemma find_sun_row_generated (sun : date -> string * string) (current_date : string)
    (days : list date) :
  find_sun_row sun_header ((fun d => [strftime_md d; (sun d).1; (sun d).2]) <$> days)
    current_date
  = Return ((fun d => (Some (sun d).1, Some (sun d).2))
              <$> List.find (fun d => String.eqb (strftime_md d) current_date) days).
Proof.
  induction days as [|d days IH]; [done|].
  cbn [fmap list_fmap find_sun_row List.find].
  change (row_get sun_header [strftime_md d; (sun d).1; (sun d).2] "date")
    with (Return (Some (strftime_md d))).
  change (row_get sun_header [strftime_md d; (sun d).1; (sun d).2] "sunrise")
    with (Return (Some (sun d).1)).
  change (row_get sun_header [strftime_md d; (sun d).1; (sun d).2] "sunset")
    with (Return (Some (sun d).2)).
  destruct (String.eqb_spec (strftime_md d) current_date) as [->|Hne].
  - by rewrite bool_decide_eq_true_2.
  - rewrite bool_decide_eq_false_2 by congruence. exact IH.
Qed.

Lemma find_sun_line_generated (sun : date -> string * string) (current_date : string)
    (days : list date) :
  LegacySun.find_sun_line ((fun d => [strftime_md d; (sun d).1; (sun d).2]) <$> days)
    current_date
  = Return ((fun d => (Some (sun d).1, Some (sun d).2))
              <$> List.find (fun d => String.eqb (strftime_md d) current_date) days).
Proof.
  induction days as [|d days IH]; [done|].
  cbn [fmap list_fmap LegacySun.find_sun_line List.find].
  by destruct (String.eqb (strftime_md d) current_date).
Qed.

(** Looking a month and day up among the days of 2025. *)
Lemma year_days_find :
  forallb (fun md : Z * Z =>
             match List.find (fun d => String.eqb (strftime_md d)
                                         (strftime_md (Date 2025 md.1 md.2)))
                     (year_days 2025) with
             | Some r =>
                 (md.2 <=? days_in_month 2025 md.1)%Z
                 && (year r =? 2025)%Z && (month r =? md.1)%Z && (day r =? md.2)%Z
             | None => negb (md.2 <=? days_in_month 2025 md.1)%Z
             end) month_days = true.
Proof. vm_compute. reflexivity. Qed.

Lemma month_days_all (d : date) : valid_date d = true -> In (month d, day d) month_days.
Proof.
  intros Hv. unfold valid_date in Hv.
  repeat (apply andb_true_iff in Hv as [Hv ?]).
  repeat match goal with H : (_ <=? _)%Z = true |- _ => apply Z.leb_le in H end.
  pose proof (days_in_month_le (year d) (month d)).
  apply list_elem_of_In. unfold month_days. apply list_elem_of_bind.
  exists (month d). split; [|apply elem_of_seqZ; lia].
  apply list_elem_of_fmap. exists (day d). split; [done|]. apply elem_of_seqZ. lia.
Qed.

Lemma year_days_lookup (d : date) :
  valid_date d = true ->
  List.find (fun d' => String.eqb (strftime_md d') (strftime_md d)) (year_days 2025)
  = if ((month d =? 2) && (day d =? 29))%Z then None
    else Some (Date 2025 (month d) (day d)).
Proof.
  intros Hv.
  pose proof (proj1 (forallb_forall _ _) year_days_find _ (month_days_all d Hv)) as Hf.
  cbn [fst snd] in Hf.
  change (strftime_md (Date 2025 (month d) (day d))) with (strftime_md d) in Hf.
  assert (Hfeb : (day d <=? days_in_month 2025 (month d))%Z
                 = negb ((month d =? 2) && (day d =? 29))%Z).
  { unfold valid_date in Hv.
    repeat (apply andb_true_iff in Hv as [Hv ?]).
    repeat match goal with H : (_ <=? _)%Z = true |- _ => apply Z.leb_le in H end.
    pose proof (month_cases (month d) ltac:(lia)) as E.
    repeat (destruct E as [E|E]);
      rewrite E in *; cbv beta iota delta [days_in_month] in *;
      try (cbn [Z.eqb Pos.eqb andb negb]; apply Z.leb_le; lia).
    change (is_leap 2025) with false. cbv iota.
    destruct (is_leap (year d)); destruct (Z.eqb_spec (day d) 29), (Z.leb_spec (day d) 28);
      cbn; try done; lia. }
  destruct (List.find _ (year_days 2025)) as [r|].
  - rewrite Hfeb in Hf.
    repeat (apply andb_true_iff in Hf as [Hf ?]).
    apply negb_true_iff in Hf. rewrite Hf.
    destruct r as [y m dd]. cbn [year month day] in *. f_equal. f_equal; lia.
  - rewrite Hfeb in Hf. apply negb_true_iff, negb_false_iff in Hf. by rewrite Hf.
Qed.

(** X22: [generate_sun_data] ends by its own loop test (366 turns are
    enough) with the header and one row for each of the 365 days of
    2025, and [get_sun_info], of either variant, finds in that file the
    row of the current month and day whatever the year: it returns the
    times computed for that day of 2025, and on the 29th of February,
    which the file lacks, the default 06:00 and 18:00. *)
Theorem sun_data_round_trip (sun : date -> string * string) (now : date) :
  valid_date now = true ->
  exists file : sun_file,
    (forall fuel, (366 <= fuel)%nat -> generate_sun_data fuel sun = Some file)
    /\ length file = 366%nat
    /\ get_sun_info now (Some file)
       = (if ((month now =? 2) && (day now =? 29))%Z
          then ([NoSunData "02-29"], default_sun_info)
          else ([], (Some (sun (Date 2025 (month now) (day now))).1,
                     Some (sun (Date 2025 (month now) (day now))).2)))
    /\ LegacySun.get_sun_info now (Some file)
       = (if ((month now =? 2) && (day now =? 29))%Z
          then ([], default_sun_info)
          else ([], (Some (sun (Date 2025 (month now) (day now))).1,
                     Some (sun (Date 2025 (month now) (day now))).2))).
Proof.
  intros Hv. eexists. split; [|split; [|split]].
  - intros fuel Hfuel. unfold generate_sun_data.
    replace fuel with (366 + (fuel - 366))%nat by lia.
    rewrite (sun_rows_more_fuel sun _ 366 _ _ (sun_rows_2025 sun)). reflexivity.
  - cbn [length]. rewrite length_fmap. reflexivity.
  - unfold get_sun_info. rewrite find_sun_row_generated, (year_days_lookup now Hv).
    destruct ((month now =? 2) && (day now =? 29))%Z eqn:E; [|done].
    apply andb_true_iff in E as [Em Ed]. apply Z.eqb_eq in Em, Ed.
    unfold strftime_md. by rewrite Em, Ed.
  - unfold LegacySun.get_sun_info.
    rewrite find_sun_line_generated, (year_days_lookup now Hv).
    by destruct ((month now =? 2) && (day now =? 29))%Z.
Qed.

Lemma sun_data_round_trip_witness :
  exists file : sun_file,
    generate_sun_data 400 (fun d => ("06:30", "18:30")) = Some file
    /\ get_sun_info (Date 2024 7 4) (Some file) = ([], (Some "06:30", Some "18:30")).
Proof.
  destruct (sun_data_round_trip (fun d => ("06:30", "18:30")) (Date 2024 7 4) eq_refl)
    as (file & Hgen & _ & Hget & _).
  exists file. split; [apply Hgen; lia | exact Hget].
Defined.

Lemma three_fields (r : list string) :
  length r = 3%nat -> exists a b c, r = [a; b; c].
Proof.
  destruct r as [|a [|b [|c [|? ?]]]]; try discriminate. intros _. by do 3 eexists.
Qed.

(** On rows of three fields the two loops find the same. *)
Lemma find_sun_row_three_fields (current_date : string) (rows : sun_file) :
  Forall (fun r => length r = 3%nat) rows ->
  find_sun_row sun_header rows current_date = LegacySun.find_sun_line rows current_date.
Proof.
  intros Hrows. induction Hrows as [|r rows Hr _ IH]; [done|].
  destruct (three_fields r Hr) as (a & b & c & ->).
  cbn [find_sun_row LegacySun.find_sun_line].
  change (row_get sun_header [a; b; c] "date") with (Return (Some a)).
  change (row_get sun_header [a; b; c] "sunrise") with (Return (Some b)).
  change (row_get sun_header [a; b; c] "sunset") with (Return (Some c)).
  destruct (String.eqb_spec a current_date) as [->|Hne].
  - by rewrite bool_decide_eq_true_2.
  - rewrite bool_decide_eq_false_2 by congruence. exact IH.
Qed.

(** ** Sun data as text *)

Section SunText.
Local Open Scope string_scope.

Lemma plain_char_spec (c : ascii) :
  plain_char c = true ->
  Ascii.eqb c LF = false /\ Ascii.eqb c CR = false
  /\ Ascii.eqb c Csv.quotechar = false /\ Ascii.eqb c Csv.delimiter = false
  /\ existsb (Ascii.eqb c) whitespace = false.
Proof.
  destruct c as [[] [] [] [] [] [] [] []]; vm_compute; intros H;
    try discriminate H; repeat split.
Qed.

Lemma line_char_spec (c : ascii) :
  line_char c ->
  Ascii.eqb c LF = false /\ Ascii.eqb c CR = false
  /\ existsb (Ascii.eqb c) whitespace = false.
Proof.
  intros [H| ->]; [|by vm_compute].
  destruct (plain_char_spec c H) as (? & ? & _ & _ & ?). done.
Qed.

Lemma chars_app (s t : string) :
  list_ascii_of_string (s ++ t) = (list_ascii_of_string s ++ list_ascii_of_string t)%list.
Proof.
  induction s as [|c s IH]; [by rewrite append_nil_l|].
  rewrite append_cons. cbn [list_ascii_of_string]. by rewrite IH.
Qed.

Lemma plain_field_spec (f : string) :
  plain_field f = true ->
  Forall (fun c => plain_char c = true) (list_ascii_of_string f)
  /\ (Z.of_nat (String.length f) <= Csv.field_limit)%Z.
Proof.
  unfold plain_field. intros H. apply andb_true_iff in H as [Hc Hl].
  split; [|by apply Z.leb_le].
  apply Forall_forall. intros c Hin. apply list_elem_of_In in Hin.
  exact (proj1 (forallb_forall _ _) Hc c Hin).
Qed.

Lemma plain_line_chars (a b c : string) :
  plain_field a = true -> plain_field b = true -> plain_field c = true ->
  Forall line_char (list_ascii_of_string (a ++ "," ++ b ++ "," ++ c)).
Proof.
  intros Ha Hb Hc.
  apply plain_field_spec in Ha as [Ha _], Hb as [Hb _], Hc as [Hc _].
  assert (Hp : forall f, Forall (fun c => plain_char c = true) (list_ascii_of_string f) ->
                         Forall line_char (list_ascii_of_string f)).
  { intros f Hf. eapply Forall_impl; [exact Hf|]. intros x Hx. by left. }
  rewrite !chars_app. repeat apply Forall_app_2; try by apply Hp.
  - cbn. constructor; [by right | constructor].
  - cbn. constructor; [by right | constructor].
Qed.

(** *** The text and its lines *)

Lemma universal_newlines_app (s rest : string) :
  Forall line_char (list_ascii_of_string s) ->
  universal_newlines (s ++ rest) = s ++ universal_newlines rest.
Proof.
  induction s as [|c s IH]; intros Hs; [by rewrite !append_nil_l|].
  cbn [list_ascii_of_string] in Hs. apply Forall_cons in Hs as [Hc Hs].
  destruct (line_char_spec c Hc) as (_ & Hcr & _).
  rewrite !append_cons. cbn [universal_newlines]. rewrite Hcr. by rewrite IH.
Qed.

Lemma lines_app (s rest : string) :
  Forall line_char (list_ascii_of_string s) ->
  lines (s ++ String LF rest) = (s ++ String LF "") :: lines rest.
Proof.
  induction s as [|c s IH]; intros Hs; [by rewrite !append_nil_l|].
  cbn [list_ascii_of_string] in Hs. apply Forall_cons in Hs as [Hc Hs].
  destruct (line_char_spec c Hc) as (Hlf & _ & _).
  rewrite !append_cons. cbn [lines]. rewrite Hlf. by rewrite IH.
Qed.

Lemma plain_row_fields (r : list string) :
  plain_row r ->
  exists a b c, r = [a; b; c]
    /\ plain_field a = true /\ plain_field b = true /\ plain_field c = true.
Proof.
  intros [Hl Hp]. destruct (three_fields r Hl) as (a & b & c & ->).
  cbn [forallb] in Hp. repeat (apply andb_true_iff in Hp as [? Hp]).
  by exists a, b, c.
Qed.

Lemma sun_text_lines (rows : sun_file) :
  Forall plain_row rows ->
  lines (universal_newlines (sun_text rows)) = read_line <$> rows.
Proof.
  intros Hrows. induction Hrows as [|r rows Hr _ IH]; [done|].
  destruct (plain_row_fields r Hr) as (a & b & c & -> & Ha & Hb & Hc).
  pose proof (plain_line_chars a b c Ha Hb Hc) as Hline.
  cbn [fmap list_fmap].
  change (sun_text ([a; b; c] :: rows)) with (sun_line [a; b; c] ++ sun_text rows).
  replace (sun_line [a; b; c] ++ sun_text rows)
    with ((a ++ "," ++ b ++ "," ++ c) ++ String CR (String LF (sun_text rows))).
  2:{ unfold sun_line. cbn [String.concat].
      rewrite <- !append_assoc, !append_cons, !append_nil_l. reflexivity. }
  change (read_line [a; b; c]) with ((a ++ "," ++ b ++ "," ++ c) ++ String LF "").
  rewrite (universal_newlines_app _ _ Hline).
  cbn [universal_newlines].
  change (Ascii.eqb CR CR) with true. change (Ascii.eqb LF LF) with true. cbv iota.
  rewrite (lines_app _ _ Hline). by rewrite IH.
Qed.

(** *** The rows of [csv.reader] *)

Lemma in_field_run (f : string) :
  forall (g rest : string) (fs : list string),
    Forall (fun c => plain_char c = true) (list_ascii_of_string f) ->
    (Z.of_nat (String.length g) + Z.of_nat (String.length f) <= Csv.field_limit)%Z ->
    Csv.process_line (f ++ rest) (Csv.Reader Csv.IN_FIELD fs g)
    = Csv.process_line rest (Csv.Reader Csv.IN_FIELD fs (g ++ f)).
Proof.
  induction f as [|c f IH]; intros g rest fs Hf Hlen.
  - by rewrite append_nil_l, append_nil_r.
  - cbn [list_ascii_of_string] in Hf. apply Forall_cons in Hf as [Hc Hf].
    destruct (plain_char_spec c Hc) as (Hlf & Hcr & _ & Hd & _).
    cbn [String.length] in Hlen.
    rewrite append_cons. cbn [Csv.process_line].
    unfold Csv.parse_process_char, Csv.is_newline, Csv.parse_add_char.
    cbn [Csv.state Csv.fields Csv.field]. rewrite Hlf, Hcr, Hd. cbn [orb].
    destruct (Z.leb_spec Csv.field_limit (Z.of_nat (String.length g))) as [Hbig|_];
      [lia|].
    rewrite (IH (g ++ String c "") rest fs Hf).
    + by rewrite <- append_assoc, append_cons, append_nil_l.
    + rewrite length_append. cbn [String.length]. lia.
Qed.

(** A plain field read from the start of a record or of a field. *)
Lemma field_run (s : Csv.parser_state) (f rest : string) (fs : list string) :
  s = Csv.START_RECORD \/ s = Csv.START_FIELD ->
  plain_field f = true ->
  Csv.process_line (f ++ rest) (Csv.Reader s fs "")
  = match f with
    | EmptyString => Csv.process_line rest (Csv.Reader s fs "")
    | String _ _ => Csv.process_line rest (Csv.Reader Csv.IN_FIELD fs f)
    end.
Proof.
  intros Hs Hf. apply plain_field_spec in Hf as [Hf Hlen].
  destruct f as [|c f]; [by rewrite append_nil_l|].
  cbn [list_ascii_of_string] in Hf. apply Forall_cons in Hf as [Hc Hf].
  destruct (plain_char_spec c Hc) as (Hlf & Hcr & Hq & Hd & _).
  cbn [String.length] in Hlen.
  rewrite append_cons. cbn [Csv.process_line].
  assert (E : Csv.parse_process_char (Some c) (Csv.Reader s fs "")
              = Return (Csv.Reader Csv.IN_FIELD fs (String c ""))).
  { destruct Hs as [-> | ->];
      unfold Csv.parse_process_char, Csv.is_newline, Csv.add_char_goto, Csv.parse_add_char;
      cbn [Csv.state Csv.fields Csv.field Csv.goto]; rewrite Hlf, Hcr, Hq, Hd; reflexivity. }
  rewrite E. rewrite (in_field_run f (String c "") rest fs Hf).
  - by rewrite append_cons, append_nil_l.
  - cbn [String.length]. lia.
Qed.

Lemma field_then_delimiter (s : Csv.parser_state) (f rest : string) (fs : list string) :
  s = Csv.START_RECORD \/ s = Csv.START_FIELD ->
  plain_field f = true ->
  Csv.process_line (f ++ String Csv.delimiter rest) (Csv.Reader s fs "")
  = Csv.process_line rest (Csv.Reader Csv.START_FIELD (fs ++ [f]) "").
Proof.
  intros Hs Hf. rewrite (field_run s f _ fs Hs Hf).
  destruct f as [|c f]; [destruct Hs as [-> | ->]|]; reflexivity.
Qed.

Lemma field_then_end (f : string) (fs : list string) :
  plain_field f = true ->
  Csv.process_line (f ++ String LF "") (Csv.Reader Csv.START_FIELD fs "")
  = Return (Csv.Reader Csv.START_RECORD (fs ++ [f]) "").
Proof.
  intros Hf. rewrite (field_run Csv.START_FIELD f _ fs (or_intror eq_refl) Hf).
  destruct f as [|c f]; reflexivity.
Qed.

Lemma plain_line_read (a b c : string) :
  plain_field a = true -> plain_field b = true -> plain_field c = true ->
  Csv.process_line (read_line [a; b; c]) Csv.parse_reset
  = Return (Csv.Reader Csv.START_RECORD [a; b; c] "").
Proof.
  intros Ha Hb Hc. unfold read_line, Csv.parse_reset. cbn [String.concat].
  rewrite <- !append_assoc.
  change ("," ++ b ++ "," ++ c ++ String LF "")
    with (String Csv.delimiter (b ++ "," ++ c ++ String LF "")).
  rewrite (field_then_delimiter Csv.START_RECORD a _ [] (or_introl eq_refl) Ha).
  change ("," ++ c ++ String LF "") with (String Csv.delimiter (c ++ String LF "")).
  rewrite (field_then_delimiter Csv.START_FIELD b _ _ (or_intror eq_refl) Hb).
  exact (field_then_end c _ Hc).
Qed.

Lemma plain_rows_read (rows : sun_file) :
  Forall plain_row rows ->
  Csv.reader_rows (read_line <$> rows) = (rows, None).
Proof.
  unfold Csv.reader_rows. intros Hrows.
  induction Hrows as [|r rows Hr _ IH]; [done|].
  destruct (plain_row_fields r Hr) as (a & b & c & -> & Ha & Hb & Hc).
  cbn [fmap list_fmap Csv.rows_from].
  rewrite (plain_line_read a b c Ha Hb Hc). cbn [Csv.state Csv.fields].
  fold (fmap (M:=list) read_line rows). by rewrite IH.
Qed.

(** *** The fields of [awos.py] *)

Lemma rstrip_line_feed (x : string) :
  rstrip whitespace (x ++ String LF "") = rstrip whitespace x.
Proof.
  induction x as [|c x IH]; [reflexivity|].
  rewrite append_cons. cbn [rstrip]. by rewrite IH.
Qed.

Lemma rstrip_line_chars (x : string) :
  Forall line_char (list_ascii_of_string x) -> rstrip whitespace x = x.
Proof.
  induction x as [|c x IH]; intros Hx; [reflexivity|].
  cbn [list_ascii_of_string] in Hx. apply Forall_cons in Hx as [Hc Hx].
  destruct (line_char_spec c Hc) as (_ & _ & Hws).
  cbn [rstrip]. rewrite (IH Hx). destruct x; [by rewrite Hws | reflexivity].
Qed.

Lemma strip_line (x : string) :
  Forall line_char (list_ascii_of_string x) ->
  strip whitespace (x ++ String LF "") = x.
Proof.
  intros Hx. unfold strip.
  destruct x as [|c x]; [reflexivity|].
  pose proof Hx as Hx'. cbn [list_ascii_of_string] in Hx'.
  apply Forall_cons in Hx' as [Hc _].
  destruct (line_char_spec c Hc) as (_ & _ & Hws).
  rewrite append_cons. cbn [lstrip]. rewrite Hws.
  rewrite <- append_cons, rstrip_line_feed. by apply rstrip_line_chars.
Qed.

Lemma split_plain (f : string) :
  Forall (fun c => plain_char c = true) (list_ascii_of_string f) ->
  split Csv.delimiter f = [f].
Proof.
  induction f as [|c f IH]; intros Hf; [reflexivity|].
  cbn [list_ascii_of_string] in Hf. apply Forall_cons in Hf as [Hc Hf].
  destruct (plain_char_spec c Hc) as (_ & _ & _ & Hd & _).
  cbn [split]. by rewrite Hd, (IH Hf).
Qed.

Lemma split_field (f rest : string) :
  Forall (fun c => plain_char c = true) (list_ascii_of_string f) ->
  split Csv.delimiter (f ++ String Csv.delimiter rest) = f :: split Csv.delimiter rest.
Proof.
  induction f as [|c f IH]; intros Hf; [by rewrite append_nil_l|].
  cbn [list_ascii_of_string] in Hf. apply Forall_cons in Hf as [Hc Hf].
  destruct (plain_char_spec c Hc) as (_ & _ & _ & Hd & _).
  rewrite append_cons. cbn [split]. by rewrite Hd, (IH Hf).
Qed.

Lemma plain_line_split (a b c : string) :
  plain_field a = true -> plain_field b = true -> plain_field c = true ->
  split Csv.delimiter (strip whitespace (read_line [a; b; c])) = [a; b; c].
Proof.
  intros Ha Hb Hc.
  pose proof (plain_line_chars a b c Ha Hb Hc) as Hline.
  change (read_line [a; b; c]) with ((a ++ "," ++ b ++ "," ++ c) ++ String LF "").
  rewrite (strip_line _ Hline).
  apply plain_field_spec in Ha as [Ha _], Hb as [Hb _], Hc as [Hc _].
  change ("," ++ b ++ "," ++ c) with (String Csv.delimiter (b ++ "," ++ c)).
  rewrite (split_field a _ Ha).
  change ("," ++ c) with (String Csv.delimiter c).
  by rewrite (split_field b _ Hb), (split_plain c Hc).
Qed.

Lemma plain_rows_split (rows : sun_file) :
  Forall plain_row rows ->
  (fun line => split Csv.delimiter (strip whitespace line)) <$> (read_line <$> rows) = rows.
Proof.
  intros Hrows. induction Hrows as [|r rows Hr _ IH]; [done|].
  destruct (plain_row_fields r Hr) as (a & b & c & -> & Ha & Hb & Hc).
  cbn [fmap list_fmap]. rewrite (plain_line_split a b c Ha Hb Hc).
  f_equal. exact IH.
Qed.

End SunText.

(** X23: on the text of a sun data file as [csv.writer] writes it when
    no field needs quotes (under the header line, lines of three
    fields of printable characters other than space, comma and double
    quote, none longer than the 131072 characters the reader admits)
    the two variants of [get_sun_info] return the same times.
    They read other files differently.  A line padded with spaces is
    found by [awos.py], which strips the line, and not by
    [awos_refined.py]; a line with its fields in double quotes is
    found by [awos_refined.py], whose reader takes the quotes off, and
    not by [awos.py]; an empty line is passed over by
    [awos_refined.py] and makes [awos.py] fall back to the defaults,
    as does every line that splits into another number of fields than
    three and is met before the line of the day. *)
Theorem sun_info_variants_agree (now : date) :
  (forall rows : sun_file,
     Forall (fun r => length r = 3%nat /\ forallb plain_field r = true) rows ->
     (get_sun_info_text now (Some (sun_text (sun_header :: rows)))).2
     = (LegacySun.get_sun_info_text now (Some (sun_text (sun_header :: rows)))).2)
  /\ (let padded := sun_text [sun_header; [" 07-04"; "05:48"; "19:25 "]] in
      get_sun_info_text (Date 2024 7 4) (Some padded)
      = ([NoSunData "07-04"], default_sun_info)
      /\ LegacySun.get_sun_info_text (Date 2024 7 4) (Some padded)
         = ([], (Some "05:48", Some "19:25")))
  /\ (let in_quotes :=
        sun_text [sun_header; [quoted "07-04"; quoted "05:48"; quoted "19:25"]] in
      get_sun_info_text (Date 2024 7 4) (Some in_quotes)
      = ([], (Some "05:48", Some "19:25"))
      /\ LegacySun.get_sun_info_text (Date 2024 7 4) (Some in_quotes)
         = ([], default_sun_info))
  /\ (let with_empty_line := sun_text [sun_header; []; ["07-04"; "05:48"; "19:25"]] in
      get_sun_info_text (Date 2024 7 4) (Some with_empty_line)
      = ([], (Some "05:48", Some "19:25"))
      /\ LegacySun.get_sun_info_text (Date 2024 7 4) (Some with_empty_line)
         = ([SunReadError "ValueError"], default_sun_info))
  /\ (forall (before after : sun_file) (bad : list string),
      Forall (fun r => length r = 3%nat /\ head r <> Some (strftime_md now)) before ->
      length bad <> 3%nat ->
      LegacySun.get_sun_info now (Some (sun_header :: before ++ bad :: after))
      = ([SunReadError "ValueError"], default_sun_info)).
Proof.
  split; [|split; [|split; [|split]]].
  - intros rows Hrows.
    assert (Hall : Forall plain_row (sun_header :: rows)).
    { constructor; [split; reflexivity | exact Hrows]. }
    unfold get_sun_info_text, LegacySun.get_sun_info_text.
    cbn [fmap option_fmap option_map].
    rewrite (sun_text_lines _ Hall), (plain_rows_read _ Hall), (plain_rows_split _ Hall).
    unfold get_sun_info, LegacySun.get_sun_info.
    rewrite (find_sun_row_three_fields (strftime_md now) rows).
    + by destruct (LegacySun.find_sun_line rows (strftime_md now)) as [[?|]|?].
    + eapply Forall_impl; [exact Hrows|]. by intros r [Hl _].
  - vm_compute. split; reflexivity.
  - vm_compute. split; reflexivity.
  - vm_compute. split; reflexivity.
  - intros before after bad Hbefore Hbad. unfold LegacySun.get_sun_info.
    assert (H : LegacySun.find_sun_line (before ++ bad :: after) (strftime_md now)
                = Raise "ValueError").
    { induction Hbefore as [|r rows [Hr Hd] _ IH].
      - cbn [app LegacySun.find_sun_line].
        destruct bad as [|a [|b [|c [|? ?]]]]; try done.
      - destruct (three_fields r Hr) as (a & b & c & ->).
        cbn [app LegacySun.find_sun_line].
        destruct (String.eqb_spec a (strftime_md now)) as [->|Hne]; [by destruct Hd|].
        exact IH. }
    by rewrite H.
Qed.

Lemma sun_info_variants_agree_witness :
  (get_sun_info_text (Date 2024 7 4)
     (Some (sun_text [sun_header; ["07-04"; "05:48"; "19:25"]]))).2
  = (LegacySun.get_sun_info_text (Date 2024 7 4)
       (Some (sun_text [sun_header; ["07-04"; "05:48"; "19:25"]]))).2
  /\ LegacySun.get_sun_info (Date 2024 7 4)
       (Some (sun_header :: [] ++ [""] :: [["07-04"; "05:48"; "19:25"]]))
     = ([SunReadError "ValueError"], default_sun_info).
Proof.
  split.
  - apply (proj1 (sun_info_variants_agree (Date 2024 7 4))).
    constructor; [split; reflexivity | constructor].
  - apply (proj2 (proj2 (proj2 (proj2 (sun_info_variants_agree (Date 2024 7 4)))))).
    + constructor.
    + discriminate.
Defined.

(** ** The simulator's calendar *)

Lemma tomorrow_valid (d : date) :
  valid_date d = true -> (year d < 9999)%Z -> valid_date (tomorrow d) = true.
Proof.
  intros Hv Hy. unfold valid_date in Hv.
  repeat (apply andb_true_iff in Hv as [Hv ?]).
  repeat match goal with H : (_ <=? _)%Z = true |- _ => apply Z.leb_le in H end.
  destruct d as [y m dd]. cbn [year month day] in *.
  unfold tomorrow, valid_date. cbn [year month day].
  destruct (Z.ltb_spec dd (days_in_month y m)); cbn [year month day].
  - repeat (apply andb_true_iff; split); apply Z.leb_le; lia.
  - destruct (Z.ltb_spec m 12); cbn [year month day].
    + pose proof (days_in_month_ge y (m + 1) ltac:(lia)).
      repeat (apply andb_true_iff; split); apply Z.leb_le; lia.
    + change (days_in_month (y + 1) 1) with 31%Z.
      repeat (apply andb_true_iff; split); apply Z.leb_le; lia.
Qed.

Lemma update_static_elements_winter (d : date) :
  valid_date d = true -> (year d < 9999)%Z -> (month d <= 2)%Z ->
  valid_date (TestGui.update_static_elements d) = true
  /\ year (TestGui.update_static_elements d) = year d
  /\ (month (TestGui.update_static_elements d) <= 2)%Z.
Proof.
  intros Hv Hy Hm.
  pose proof (tomorrow_valid d Hv Hy) as Hv'.
  unfold TestGui.update_static_elements.
  assert (Ht : year (tomorrow d) = year d
               /\ (month (tomorrow d) <= 2
                   \/ month (tomorrow d) = 3 /\ day (tomorrow d) = 1)%Z).
  { unfold tomorrow. destruct (day d <? days_in_month (year d) (month d))%Z;
      cbn [year month day]; [lia|].
    destruct (Z.ltb_spec (month d) 12); cbn [year month day]; lia. }
  destruct Ht as [Hyear Hmonth].
  destruct ((month (tomorrow d) =? 3) && (day (tomorrow d) =? 1))%Z eqn:E.
  - cbn [year month day]. rewrite Hyear. split; [|lia].
    unfold valid_date in Hv |- *.
    repeat (apply andb_true_iff in Hv as [Hv ?]).
    repeat match goal with H : (_ <=? _)%Z = true |- _ => apply Z.leb_le in H end.
    cbn [year month day].
    change (days_in_month (year d) 1) with 31%Z.
    repeat (apply andb_true_iff; split); apply Z.leb_le; lia.
  - split; [done|]. split; [done|].
    apply andb_false_iff in E. destruct Hmonth as [?|[Hm3 Hd1]]; [done|].
    rewrite Hm3, Hd1 in E. destruct E; discriminate.
Qed.

(** X24: the date the simulator shows, started on the first of
    January, stays a valid date of January or February of the same
    year through any number of updates, so [calculate_sun_times] never
    uses its default times; and its minutes never reach 60: the hour
    adjustments are never made, sunrise is in hour 07 and sunset in
    hour 16 or 17. *)
Theorem simulated_date_stays_in_winter (y : Z) (n : nat) :
  (1 <= y < 9999)%Z ->
  let shown := Nat.iter n TestGui.update_static_elements (Date y 1 1) in
  valid_date shown = true
  /\ year shown = y
  /\ (month shown = 1 \/ month shown = 2)%Z
  /\ exists (sunrise_min sunset_h sunset_min : Z),
       TestGui.calculate_sun_times shown
       = ((zero_padded 2 7 ++ ":" ++ zero_padded 2 sunrise_min)%string,
          (zero_padded 2 sunset_h ++ ":" ++ zero_padded 2 sunset_min)%string)
       /\ (15 <= sunrise_min < 60)%Z /\ (16 <= sunset_h <= 17)%Z
       /\ (15 <= sunset_min < 60)%Z.
Proof.
  intros Hy shown.
  assert (Hinv : valid_date shown = true /\ year shown = y /\ (month shown <= 2)%Z).
  { subst shown. induction n as [|n IH].
    - change (Nat.iter 0 TestGui.update_static_elements (Date y 1 1)) with (Date y 1 1).
      cbn [year month]. split; [|lia].
      unfold valid_date. cbn [year month day].
      change (days_in_month y 1) with 31%Z.
      repeat (apply andb_true_iff; split); apply Z.leb_le; lia.
    - rewrite Nat.iter_succ. destruct IH as (IHv & IHy & IHm).
      destruct (update_static_elements_winter _ IHv ltac:(lia) IHm) as (Hv & Hyr & Hm).
      split; [done|]. split; [lia|done]. }
  destruct Hinv as (Hv & Hyr & Hm).
  assert (Hmonth : (month shown = 1 \/ month shown = 2)%Z).
  { unfold valid_date in Hv.
    repeat (apply andb_true_iff in Hv as [Hv ?]).
    repeat match goal with H : (_ <=? _)%Z = true |- _ => apply Z.leb_le in H end. lia. }
  split; [done|]. split; [done|]. split; [done|].
  pose proof (Z.mod_pos_bound (day shown) 15 ltac:(lia)) as Hvar.
  unfold TestGui.calculate_sun_times.
  destruct Hmonth as [E|E]; rewrite E; cbn [Z.eqb Pos.eqb fst snd].
  - rewrite (proj2 (Z.leb_gt 60 (45 + day shown mod 15)%Z)) by lia.
    rewrite (proj2 (Z.leb_gt 60 (30 + day shown mod 15)%Z)) by lia.
    do 3 eexists. split; [reflexivity|]. lia.
  - rewrite (proj2 (Z.leb_gt 60 (15 + day shown mod 15)%Z)) by lia.
    do 3 eexists. split; [reflexivity|]. lia.
Qed.

Lemma simulated_date_stays_in_winter_witness :
  let shown := Nat.iter 60 TestGui.update_static_elements (Date 2024 1 1) in
  (month shown = 1 \/ month shown = 2)%Z.
Proof.
  exact (proj1 (proj2 (proj2 (simulated_date_stays_in_winter 2024 60 ltac:(lia))))).
Defined.

(** ** Window placement *)

Section Placement.
Import DisplayManager.

(** X25: [setup_single_display] places a window of at most 256 by 192
    inside the display and centres it: the margins left and right, and
    top and bottom, differ by at most one pixel. *)
Theorem setup_single_display_centred (display : monitor) :
  (0 <= width display)%Z -> (0 <= height display)%Z ->
  let g := setup_single_display display in
  (window_width g = Z.min 256 (width display)
   /\ window_height g = Z.min 192 (height display))
  /\ (x display <= window_x g
      /\ window_x g + window_width g <= x display + width display)%Z
  /\ (y display <= window_y g
      /\ window_y g + window_height g <= y display + height display)%Z
  /\ (0 <= (x display + width display - (window_x g + window_width g))
           - (window_x g - x display) <= 1)%Z
  /\ (0 <= (y display + height display - (window_y g + window_height g))
           - (window_y g - y display) <= 1)%Z.
Proof.
  intros Hw Hh g. subst g. unfold setup_single_display.
  cbn [window_width window_height window_x window_y].
  pose proof (Z.min_spec 256 (width display)).
  pose proof (Z.min_spec 192 (height display)).
  repeat split; try reflexivity; Z.div_mod_to_equations; lia.
Qed.

Lemma setup_single_display_centred_witness :
  let g := setup_single_display (Monitor 0 0 1920 1080) in
  (0 <= window_x g /\ window_x g + window_width g <= 0 + 1920)%Z.
Proof.
  exact (proj1 (proj2 (setup_single_display_centred (Monitor 0 0 1920 1080)
                         ltac:(cbn; lia) ltac:(cbn; lia)))).
Defined.

(** The head of a sorted list is the first of its least elements. *)
Lemma sorted_head {A} (key : A -> Z) (l : list A) :
  l <> [] ->
  exists (i : nat) (p : A),
    head (sorted l key) = Some p
    /\ l !! i = Some p
    /\ (forall m, m ∈ l -> (key p <= key m)%Z)
    /\ (forall (j : nat) m, (j < i)%nat -> l !! j = Some m -> (key p < key m)%Z).
Proof.
  induction l as [|a l IH]; [done|]. intros _.
  destruct l as [|b l].
  - exists 0%nat, a. cbn. split; [done|]. split; [done|]. split.
    + intros m Hm. apply list_elem_of_singleton in Hm. subst. lia.
    + intros j m Hj. lia.
  - destruct (IH ltac:(done)) as (i & p & Hhead & Hi & Hmin & Hfirst).
    change (sorted (a :: b :: l) key) with (insert_by key a (sorted (b :: l) key)).
    destruct (sorted (b :: l) key) as [|q rest]; [discriminate|].
    cbn [head] in Hhead. apply (inj Some) in Hhead. subst q.
    cbn [insert_by]. destruct (Z.leb_spec (key a) (key p)) as [Hle|Hgt].
    + exists 0%nat, a. cbn [head]. split; [done|]. split; [done|]. split.
      * intros m Hm. apply elem_of_cons in Hm as [->|Hm]; [lia|].
        specialize (Hmin m Hm). lia.
      * intros j m Hj. lia.
    + exists (S i), p. cbn [head]. split; [done|]. split; [done|]. split.
      * intros m Hm. apply elem_of_cons in Hm as [->|Hm]; [lia|]. by apply Hmin.
      * intros [|j] m Hj Hm.
        -- cbn in Hm. apply (inj Some) in Hm. subst m. lia.
        -- cbn in Hm. apply (Hfirst j m); [lia|done].
Qed.

(** X26: with two or more monitors [setup_display] places the 256 by
    192 window at the origin of the monitor of least area, the first
    such in the order the monitors are reported; the IndexError of the
    empty list cannot occur. *)
Theorem setup_display_picks_smallest (monitors : list monitor) :
  (2 <= length monitors)%nat ->
  exists (i : nat) (p5_display : monitor),
    setup_display monitors
    = Return (Geometry 256 192 (x p5_display) (y p5_display) true)
    /\ monitors !! i = Some p5_display
    /\ (forall m, m ∈ monitors ->
        (width p5_display * height p5_display <= width m * height m)%Z)
    /\ (forall (j : nat) m, (j < i)%nat -> monitors !! j = Some m ->
        (width p5_display * height p5_display < width m * height m)%Z).
Proof.
  intros Hlen.
  destruct monitors as [|a [|b rest]]; [cbn in Hlen; lia..|].
  destruct (sorted_head (fun m => (width m * height m)%Z) (a :: b :: rest) ltac:(done))
    as (i & p & Hhead & Hi & Hmin & Hfirst).
  exists i, p. split; [|done].
  unfold setup_display, setup_dual_display.
  destruct (sorted (a :: b :: rest) _) as [|q ?]; [discriminate|].
  cbn [head] in Hhead. apply (inj Some) in Hhead. by subst q.
Qed.

Lemma setup_display_picks_smallest_witness :
  exists (i : nat) (p5_display : monitor),
    setup_display [Monitor 0 0 1920 1080; Monitor 1920 0 256 192; Monitor 2176 0 256 192]
    = Return (Geometry 256 192 (x p5_display) (y p5_display) true)
    /\ [Monitor 0 0 1920 1080; Monitor 1920 0 256 192; Monitor 2176 0 256 192] !! i
       = Some p5_display.
Proof.
  destruct (setup_display_picks_smallest
              [Monitor 0 0 1920 1080; Monitor 1920 0 256 192; Monitor 2176 0 256 192]
              ltac:(cbn; lia)) as (i & p & H1 & H2 & _).
  by exists i, p.
Defined.

End Placement.

(** ** Configuration *)

Lemma setting_insert (cfg : config) (settings : gmap string cfg_value)
    (section key section' key' : string) (v : cfg_value) :
  cfg !! section = Some settings ->
  setting (<[section := <[key := v]> settings]> cfg) section' key'
  = if bool_decide (section' = section /\ key' = key) then Some v
    else setting cfg section' key'.
Proof.
  intros Hs. unfold setting.
  destruct (decide (section' = section)) as [->|Hne].
  - rewrite lookup_insert_eq. cbn. rewrite Hs. cbn.
    destruct (decide (key' = key)) as [->|Hk].
    + rewrite lookup_insert_eq. by rewrite bool_decide_eq_true_2.
    + rewrite lookup_insert_ne by done. rewrite bool_decide_eq_false_2; [done|]. tauto.
  - rewrite lookup_insert_ne by done. rewrite bool_decide_eq_false_2; [done|]. tauto.
Qed.

Lemma same_type_refl (v : cfg_value) : same_type v v = true.
Proof. by destruct v. Qed.

Lemma same_type_trans (a b c : cfg_value) :
  same_type a b = true -> same_type b c = true -> same_type a c = true.
Proof. by destruct a, b, c. Qed.

Lemma same_shape_refl (cfg : config) : same_shape cfg cfg.
Proof.
  intros section key. destruct (setting cfg section key); [apply same_type_refl|done].
Qed.

Lemma same_shape_trans (a b c : config) :
  same_shape a b -> same_shape b c -> same_shape a c.
Proof.
  intros Hab Hbc section key. specialize (Hab section key). specialize (Hbc section key).
  destruct (setting a section key), (setting b section key), (setting c section key);
    try done. by eapply same_type_trans.
Qed.

Section LoadConfigProperties.
Variables (py_int : string -> option Z) (py_float : string -> option Q).

(** One key: the configuration keeps its shape, and only the setting
    named is touched. *)
Lemma set_option_shape (section key raw : string) (cfg cfg' : config) :
  set_option py_int py_float section key raw cfg = Return cfg' ->
  same_shape cfg cfg'
  /\ forall section' key', (section', key') <> (section, key) ->
       setting cfg' section' key' = setting cfg section' key'.
Proof.
  unfold set_option. intros H.
  destruct (cfg !! section) as [settings|] eqn:Hs;
    [|injection H as H; subst; split; [apply same_shape_refl|done]].
  destruct (settings !! key) as [old|] eqn:Hk;
    [|injection H as H; subst; split; [apply same_shape_refl|done]].
  assert (Hold : setting cfg section key = Some old).
  { unfold setting. rewrite Hs. cbn. exact Hk. }
  assert (Hstore : forall v, same_type old v = true ->
            cfg' = <[section := <[key := v]> settings]> cfg ->
            same_shape cfg cfg'
            /\ forall section' key', (section', key') <> (section, key) ->
                 setting cfg' section' key' = setting cfg section' key').
  { intros v Hv ->. split.
    - intros section' key'. rewrite (setting_insert cfg settings) by done.
      destruct (bool_decide_reflect (section' = section /\ key' = key)) as [[-> ->]|Hne].
      + by rewrite Hold.
      + destruct (setting cfg section' key'); [apply same_type_refl|done].
    - intros section' key' Hne. rewrite (setting_insert cfg settings) by done.
      rewrite bool_decide_eq_false_2; [done|]. intros [-> ->]. by apply Hne. }
  destruct old as [n|v|s].
  - destruct (py_int _) as [n'|]; [|discriminate].
    injection H as H. by apply (Hstore (CInt n')).
  - destruct (py_float _) as [v'|]; [|discriminate].
    injection H as H. by apply (Hstore (CFloat v')).
  - injection H as H. by apply (Hstore (CStr (strip quote_chars raw))).
Qed.

Lemma read_keys_shape (section : string) (keys : list (string * string)) :
  forall cfg cfg' : config,
    read_keys py_int py_float section keys cfg = Return cfg' ->
    same_shape cfg cfg'
    /\ forall section' key',
         (section' = section -> key' ∉ keys.*1) ->
         setting cfg' section' key' = setting cfg section' key'.
Proof.
  induction keys as [|[key raw] rest IH]; intros cfg cfg' H.
  - injection H as H. subst. split; [apply same_shape_refl|done].
  - cbn [read_keys] in H.
    destruct (set_option py_int py_float section key raw cfg) as [cfg1|e] eqn:E;
      [|discriminate].
    destruct (set_option_shape _ _ _ _ _ E) as [Hs1 Hk1].
    destruct (IH _ _ H) as [Hs2 Hk2].
    split; [by eapply same_shape_trans|].
    intros section' key' Hne. rewrite Hk2, Hk1; [done|..].
    + intros [= -> ->]. apply (Hne eq_refl). cbn. left.
    + intros ->. specialize (Hne eq_refl). cbn in Hne.
      intros Hin. apply Hne. by right.
Qed.

Lemma read_sections_shape (sections : list (string * list (string * string))) :
  forall cfg cfg' : config,
    read_sections py_int py_float sections cfg = Return cfg' ->
    same_shape cfg cfg'
    /\ forall section' key',
         (forall keys, (section', keys) ∈ sections -> key' ∉ keys.*1) ->
         setting cfg' section' key' = setting cfg section' key'.
Proof.
  induction sections as [|[section keys] rest IH]; intros cfg cfg' H.
  - injection H as H. subst. split; [apply same_shape_refl|done].
  - cbn [read_sections] in H.
    destruct (read_keys py_int py_float section keys cfg) as [cfg1|e] eqn:E;
      [|discriminate].
    destruct (read_keys_shape _ _ _ _ E) as [Hs1 Hk1].
    destruct (IH _ _ H) as [Hs2 Hk2].
    split; [by eapply same_shape_trans|].
    intros section' key' Hne. rewrite Hk2, Hk1; [done|..].
    + intros ->. apply Hne. left.
    + intros keys' Hin. apply Hne. by right.
Qed.

(** X27: when [load_config] returns, the configuration has the
    settings of the defaults and no others, each of the type its
    default has: sections and keys the file names beyond them are
    ignored, and a setting the file does not name keeps its default
    value. *)
Theorem load_config_keeps_shape (ini : ini_file) (cfg : config) :
  load_config py_int py_float ini = Return cfg ->
  same_shape default_config cfg
  /\ forall section key,
       match ini with
       | IniSections sections =>
           forall keys, (section, keys) ∈ sections -> key ∉ keys.*1
       | _ => True
       end ->
       setting cfg section key = setting default_config section key.
Proof.
  unfold load_config. intros H.
  destruct ini as [| | |sections]; [| | discriminate |].
  - injection H as H. subst. split; [apply same_shape_refl|done].
  - injection H as H. subst. split; [apply same_shape_refl|done].
  - destruct (read_sections py_int py_float sections default_config) as [cfg1|e] eqn:E;
      [|discriminate].
    injection H as H. subst cfg1.
    exact (read_sections_shape _ _ _ E).
Qed.

(** A setting whose value does not parse stops the loops. *)
Lemma set_option_bad (section key raw : string) (cfg : config) (old : cfg_value) :
  same_shape default_config cfg ->
  setting default_config section key = Some old ->
  match old with
  | CInt _ => py_int (strip quote_chars raw) = None
  | CFloat _ => py_float (strip quote_chars raw) = None
  | CStr _ => False
  end ->
  exists e, set_option py_int py_float section key raw cfg = Raise e.
Proof.
  intros Hshape Hold Hbad. specialize (Hshape section key). rewrite Hold in Hshape.
  unfold setting in Hshape. unfold set_option.
  destruct (cfg !! section) as [settings|]; [|done]. cbn in Hshape.
  destruct (settings !! key) as [v|]; [|done].
  destruct old, v; try done; rewrite Hbad; by eexists.
Qed.

Lemma read_keys_bad (section key raw : string) (old : cfg_value)
    (keys : list (string * string)) :
  forall cfg : config,
    same_shape default_config cfg ->
    (key, raw) ∈ keys ->
    setting default_config section key = Some old ->
    match old with
    | CInt _ => py_int (strip quote_chars raw) = None
    | CFloat _ => py_float (strip quote_chars raw) = None
    | CStr _ => False
    end ->
    exists e, read_keys py_int py_float section keys cfg = Raise e.
Proof.
  induction keys as [|[key0 raw0] rest IH]; intros cfg Hshape Hin Hold Hbad.
  - by apply elem_of_nil in Hin.
  - cbn [read_keys].
    destruct (set_option py_int py_float section key0 raw0 cfg) as [cfg1|e] eqn:E;
      [|by eexists].
    apply elem_of_cons in Hin as [Heq|Hin].
    + injection Heq as <- <-.
      destruct (set_option_bad section key raw cfg old Hshape Hold Hbad) as [e He].
      congruence.
    + apply IH; try done.
      eapply same_shape_trans; [exact Hshape|]. by apply (set_option_shape _ _ _ _ _ E).
Qed.

Lemma read_sections_bad (section key raw : string) (old : cfg_value)
    (keys : list (string * string)) (sections : list (string * list (string * string))) :
  forall cfg : config,
    same_shape default_config cfg ->
    (section, keys) ∈ sections -> (key, raw) ∈ keys ->
    setting default_config section key = Some old ->
    match old with
    | CInt _ => py_int (strip quote_chars raw) = None
    | CFloat _ => py_float (strip quote_chars raw) = None
    | CStr _ => False
    end ->
    exists e, read_sections py_int py_float sections cfg = Raise e.
Proof.
  induction sections as [|[section0 keys0] rest IH]; intros cfg Hshape Hsec Hin Hold Hbad.
  - by apply elem_of_nil in Hsec.
  - cbn [read_sections].
    destruct (read_keys py_int py_float section0 keys0 cfg) as [cfg1|e] eqn:E;
      [|by eexists].
    apply elem_of_cons in Hsec as [Heq|Hsec].
    + injection Heq as <- <-.
      destruct (read_keys_bad section key raw old keys cfg Hshape Hin Hold Hbad) as [e He].
      congruence.
    + apply IH; try done.
      eapply same_shape_trans; [exact Hshape|]. by apply (read_keys_shape _ _ _ _ E).
Qed.

(** X28: a value in the file that does not parse as the integer or
    float its setting holds by default stops the constructor.  [int]
    or [float] raises in the loops of [load_config], the handler logs
    through [self.logger] before [setup_logging] has made it, and the
    call ends in an AttributeError; [load_config] does not go on with
    the defaults, as the handler's message says it would. *)
Theorem load_config_bad_value_is_fatal
    (sections : list (string * list (string * string)))
    (section key raw : string) (keys : list (string * string)) (old : cfg_value) :
  (section, keys) ∈ sections -> (key, raw) ∈ keys ->
  setting default_config section key = Some old ->
  match old with
  | CInt _ => py_int (strip quote_chars raw) = None
  | CFloat _ => py_float (strip quote_chars raw) = None
  | CStr _ => False
  end ->
  load_config py_int py_float (IniSections sections) = Raise "AttributeError".
Proof.
  intros Hsec Hin Hold Hbad.
  unfold load_config.
  destruct (read_sections_bad section key raw old keys sections default_config
              (same_shape_refl _) Hsec Hin Hold Hbad) as [e He].
  by rewrite He.
Qed.

End LoadConfigProperties.

Lemma load_config_keeps_shape_witness :
  let py_int := fun s : string => if String.eqb s "19200" then Some 19200%Z else None in
  let ini := IniSections [("modbus", [("baudrate", "'19200'"); ("colour", "red")]);
                          ("display", [("port", "COM1")])] in
  exists cfg,
    load_config py_int (fun _ => None) ini = Return cfg
    /\ setting cfg "modbus" "baudrate" = Some (CInt 19200)
    /\ setting cfg "modbus" "port" = setting default_config "modbus" "port".
Proof.
  intros py_int ini.
  assert (Hrun : match load_config py_int (fun _ => None) ini with
                 | Return cfg => setting cfg "modbus" "baudrate"
                 | Raise _ => None
                 end = Some (CInt 19200)) by (vm_compute; reflexivity).
  destruct (load_config py_int (fun _ => None) ini) as [cfg|e] eqn:H; [|discriminate Hrun].
  exists cfg. split; [reflexivity|]. split; [exact Hrun|].
  apply (proj2 (load_config_keeps_shape py_int (fun _ => None) ini cfg H)).
  intros keys Hin.
  apply elem_of_cons in Hin as [Hin|Hin].
  - injection Hin as ->. cbn [fmap list_fmap fst]. not_in_keys.
  - apply list_elem_of_singleton in Hin. discriminate Hin.
Defined.

Lemma load_config_bad_value_is_fatal_witness :
  load_config (fun _ => None) (fun _ => None)
    (IniSections [("logging", [("csv_interval", "thirty")])])
  = Raise "AttributeError".
Proof.
  exact (load_config_bad_value_is_fatal (fun _ => None) (fun _ => None)
           [("logging", [("csv_interval", "thirty")])]
           "logging" "csv_interval" "thirty" [("csv_interval", "thirty")] (CInt 30)
           ltac:(left) ltac:(left) eq_refl eq_refl).
Defined.
